(** * The history-retention core of the daily recommendation pipeline

    A shallow embedding of [history.py]: the three generations of the
    history update ([update_and_get_history], the first [update_history]
    of [generate_data.py] and the later [update_history]), the artifact
    janitor [cleanup_old_html_files], and the parts of Python's standard
    library they lean on ([datetime], [_strptime], [random.sample], the
    [re] pattern of the janitor).  Around this core, the rest of the
    daily run: the items taken from a response of the shop
    ([get_dmm_items]), the pool without repeated URLs and
    [save_items_to_json], and the page code ([generate_history_html],
    [generate_description], [generate_daily_html]).

    Conventions of the model.
    - A Python [str] is a Rocq [string]: a sequence of characters with
      code points below 256.  In that range the only characters that
      [\d] matches and [int] converts are ['0'] .. ['9'].
    - A Python [int] is a [Z]; the numbers of a JSON document are
      integers.
    - A decoded JSON document is a [json] tree; a Python [dict] read from
      JSON is the list of its [(key, value)] pairs as the document gives
      them, looked up from the right (a repeated key keeps its last
      value, as [json.load] does).
    - [json.load] and [json.dump] are parameters, a [JsonCodec]: the
      decoder gives a value, fails with [JSONDecodeError], or raises
      something else; the encoder gives a text or raises.  The
      statements that need a law of the codec say so.
    - A run reads the wall clock several times within a few microseconds;
      the model takes one reading, [now], per run.
    - The random source of a run is the list of the numbers it produces.
    - The files are a finite map from (directory, name) to text.
      Operating-system failures of [open], [os.listdir] and [os.remove]
      (permissions, full disk) are outside the model.
    - The requests over the network are outside the model: the fetch
      is given the decoded response, and the description of an item
      the answers of the providers.
    - The literals of the code that are not ASCII are parameters of
      the functions that use them. *)

From Stdlib Require Import ZArith List String Ascii Bool Lia DecimalString DecimalZ DecimalPos.
From stdpp Require Import gmap strings list fin_maps.

Local Open Scope string_scope.
Local Open Scope list_scope.
Local Open Scope Z_scope.

(** ** Characters and digits *)

Definition char_in (lo hi c : ascii) : bool :=
  (nat_of_ascii lo <=? nat_of_ascii c)%nat && (nat_of_ascii c <=? nat_of_ascii hi)%nat.

(** [\d] on the characters of the model. *)
Definition is_digit (c : ascii) : bool := char_in "0" "9" c.

Definition digit_val (c : ascii) : Z := Z.of_nat (nat_of_ascii c) - 48.

Definition digit_char (d : Z) : ascii := ascii_of_nat (Z.to_nat (48 + d)).

Definition is_space (c : ascii) : bool :=
  Ascii.eqb c " " || char_in "009" "013" c.

Fixpoint lstrip (s : string) : string :=
  match s with
  | String c r => if is_space c then lstrip r else s
  | EmptyString => s
  end.

Fixpoint int_digits (acc : Z) (s : string) : Z :=
  match s with
  | String c r => int_digits (10 * acc + digit_val c) r
  | EmptyString => acc
  end.

(** [int(text)] for the texts the date patterns capture: optional
    leading blanks, then decimal digits. *)
Definition py_int (text : string) : Z := int_digits 0 (lstrip text).

(** The decimal digits of [n], zero-padded to [width] characters
    (the lowest [width] digits when [n] has more). *)
Fixpoint zero_pad (width : nat) (n : Z) : string :=
  match width with
  | O => EmptyString
  | S w => zero_pad w (n / 10) +:+ String (digit_char (n mod 10)) EmptyString
  end.

(** ** Python's [datetime] *)

Module datetime.

Record t := mk
  { year : Z; month : Z; day : Z;
    hour : Z; minute : Z; second : Z; microsecond : Z }.

Definition MINYEAR : Z := 1.
Definition MAXYEAR : Z := 9999.

(** [date(9999, 12, 31).toordinal()] *)
Definition _MAXORDINAL : Z := 3652059.

(** [_is_leap], [_days_before_year], [_days_in_month],
    [_days_before_month] and [_ymd2ord] of [Lib/_pydatetime.py]. *)
Definition _is_leap (y : Z) : bool :=
  (y mod 4 =? 0) && (negb (y mod 100 =? 0) || (y mod 400 =? 0)).

Definition _days_before_year (y : Z) : Z :=
  let y' := y - 1 in y' * 365 + y' / 4 - y' / 100 + y' / 400.

Definition _DAYS_IN_MONTH : list Z :=
  [-1; 31; 28; 31; 30; 31; 30; 31; 31; 30; 31; 30; 31].

Definition _DAYS_BEFORE_MONTH : list Z :=
  [-1; 0; 31; 59; 90; 120; 151; 181; 212; 243; 273; 304; 334].

Definition _days_in_month (y m : Z) : Z :=
  if (m =? 2) && _is_leap y then 29
  else nth (Z.to_nat m) _DAYS_IN_MONTH 0.

Definition _days_before_month (y m : Z) : Z :=
  nth (Z.to_nat m) _DAYS_BEFORE_MONTH 0
  + (if (2 <? m) && _is_leap y then 1 else 0).

Definition _ymd2ord (y m d : Z) : Z :=
  _days_before_year y + _days_before_month y m + d.

(** [_check_date_fields]: the constructor raises [ValueError] outside
    these ranges. *)
Definition check_date_fields (y m d : Z) : bool :=
  (MINYEAR <=? y) && (y <=? MAXYEAR) && (1 <=? m) && (m <=? 12)
  && (1 <=? d) && (d <=? _days_in_month y m).

Definition check_time_fields (h mi s us : Z) : bool :=
  (0 <=? h) && (h <? 24) && (0 <=? mi) && (mi <? 60)
  && (0 <=? s) && (s <? 60) && (0 <=? us) && (us <? 1000000).

(** The values a [datetime] object can hold. *)
Definition wf (dt : t) : bool :=
  check_date_fields (year dt) (month dt) (day dt)
  && check_time_fields (hour dt) (minute dt) (second dt) (microsecond dt).

Definition toordinal (dt : t) : Z := _ymd2ord (year dt) (month dt) (day dt).

(** Microseconds since midnight. *)
Definition time_of_day (dt : t) : Z :=
  ((hour dt * 60 + minute dt) * 60 + second dt) * 1000000 + microsecond dt.

(** [datetime(y, m, d)]: midnight of a calendar date. *)
Definition midnight (y m d : Z) : t := mk y m d 0 0 0 0.

(** The calendar date of a reading of the clock. *)
Definition date (dt : t) : t := midnight (year dt) (month dt) (day dt).

(** [__ge__] on naive datetimes: the tuples of fields, compared in
    order. *)
Definition fields (dt : t) : list Z :=
  [year dt; month dt; day dt; hour dt; minute dt; second dt; microsecond dt].

Fixpoint tuple_ge (a b : list Z) : bool :=
  match a, b with
  | x :: a', y :: b' => (y <? x) || ((x =? y) && tuple_ge a' b')
  | _, _ => true
  end.

Definition ge (a b : t) : bool := tuple_ge (fields a) (fields b).

End datetime.

(** A point on the time line: the proleptic Gregorian ordinal of the day
    and the microseconds since midnight.  [datetime] arithmetic goes
    through the ordinal ([__add__] builds [timedelta(self.toordinal(), ...)]),
    and comparing two datetimes, which Python does field by field
    ([datetime.ge]), is comparing their instants ([instant_ge_fields]). *)
Definition instant : Type := Z * Z.

Definition instant_of (dt : datetime.t) : instant :=
  (datetime.toordinal dt, datetime.time_of_day dt).

(** [a >= b] and [a < b] on instants. *)
Definition instant_ge (a b : instant) : bool :=
  (fst b <? fst a) || ((fst a =? fst b) && (snd b <=? snd a)).

Definition instant_lt (a b : instant) : bool := negb (instant_ge a b).

(** ** Exceptions and outcomes *)

(** An exception is recorded by its class.  [ValueError] also stands
    for its subclasses that no handler of the code tells apart from it
    ([UnicodeDecodeError], [UnicodeEncodeError]); [json.JSONDecodeError],
    which the code does catch by name, is an outcome of the decoder
    below and not one of these. *)
Inductive exn :=
  KeyError | TypeError | ValueError | IndexError | OverflowError | RecursionError.

(** What a call does: it returns, it raises, or it is still drawing
    random numbers when the numbers supplied are used up. *)
Inductive outcome (A : Type) :=
| Returns (a : A)
| Raises (e : exn)
| Starved.
Arguments Returns {A} a.
Arguments Raises {A} e.
Arguments Starved {A}.

#[global] Instance outcome_ret : MRet outcome := fun A a => Returns a.

#[global] Instance outcome_bind : MBind outcome := fun A B k c =>
  match c with
  | Returns a => k a
  | Raises e => Raises e
  | Starved => Starved
  end.

(** [timedelta(days=n)] subtracted from a datetime: the same time of day
    [n] days earlier; [OverflowError] when the day would fall before
    0001-01-01. *)
Definition sub_days (dt : datetime.t) (n : Z) : outcome instant :=
  let days := datetime.toordinal dt - n in
  if (0 <? days) && (days <=? datetime._MAXORDINAL)
  then Returns (days, datetime.time_of_day dt)
  else Raises OverflowError.

(** ** [strftime] and [strptime] for the directives the code uses *)

Inductive directive := DirY | Dirm | Dird | Lit (c : ascii).

(** The directives of a format string: [%Y], [%m], [%d]; every other
    character stands for itself. *)
Fixpoint directives (fmt : string) : list directive :=
  match fmt with
  | String "%" (String "Y" r) => DirY :: directives r
  | String "%" (String "m" r) => Dirm :: directives r
  | String "%" (String "d" r) => Dird :: directives r
  | String c r => Lit c :: directives r
  | EmptyString => []
  end.

(** [dt.strftime(fmt)]: [%Y] prints the year on four digits (every
    platform agrees on this from the year 1000 on), [%m] and [%d] on
    two. *)
Fixpoint strftime_directives (ds : list directive) (dt : datetime.t) : string :=
  match ds with
  | [] => EmptyString
  | DirY :: r => zero_pad 4 (datetime.year dt) +:+ strftime_directives r dt
  | Dirm :: r => zero_pad 2 (datetime.month dt) +:+ strftime_directives r dt
  | Dird :: r => zero_pad 2 (datetime.day dt) +:+ strftime_directives r dt
  | Lit c :: r => String c (strftime_directives r dt)
  end.

Definition strftime (dt : datetime.t) (fmt : string) : string :=
  strftime_directives (directives fmt) dt.

(** Pieces of the regular expression [_strptime] builds from a format.
    A piece maps the text still to match to the list of its possible
    matches, as pairs of the captured text and the rest, in the order in
    which the backtracking matcher of [re] tries them. *)
Definition piece : Type := string -> list (string * string).

Definition chars1 (p : ascii -> bool) : piece := fun s =>
  match s with
  | String a r => if p a then [(String a EmptyString, r)] else []
  | _ => []
  end.

Definition chars2 (p q : ascii -> bool) : piece := fun s =>
  match s with
  | String a (String b r) => if p a && q b then [(String a (String b EmptyString), r)] else []
  | _ => []
  end.

Definition alt (x y : piece) : piece := fun s => x s ++ y s.

(** ['Y': (?P<Y>\d\d\d\d)] *)
Definition re_Y : piece := fun s =>
  match s with
  | String a (String b (String c (String d r))) =>
      if is_digit a && is_digit b && is_digit c && is_digit d
      then [(String a (String b (String c (String d EmptyString))), r)] else []
  | _ => []
  end.

(** ['m': (?P<m>1[0-2]|0[1-9]|[1-9])] *)
Definition re_m : piece :=
  alt (chars2 (Ascii.eqb "1") (char_in "0" "2"))
 (alt (chars2 (Ascii.eqb "0") (char_in "1" "9"))
      (chars1 (char_in "1" "9"))).

(** ['d': (?P<d>3[0-1]|[1-2]\d|0[1-9]|[1-9]| [1-9])] *)
Definition re_d : piece :=
  alt (chars2 (Ascii.eqb "3") (char_in "0" "1"))
 (alt (chars2 (char_in "1" "2") is_digit)
 (alt (chars2 (Ascii.eqb "0") (char_in "1" "9"))
 (alt (chars1 (char_in "1" "9"))
      (chars2 (Ascii.eqb " ") (char_in "1" "9"))))).

(** The groups found so far; [_strptime] starts from the year 1900 and
    the first of January. *)
Record found := mk_found { found_Y : Z; found_m : Z; found_d : Z }.

Definition found_default : found := mk_found 1900 1 1.

(** All the ways the compiled format matches a prefix of [s], first
    choice first, each with the text it leaves unmatched. *)
Fixpoint re_match (ds : list directive) (f : found) (s : string) : list (found * string) :=
  match ds with
  | [] => [(f, s)]
  | DirY :: ds' =>
      '(txt, r) ← re_Y s;
      re_match ds' (mk_found (py_int txt) (found_m f) (found_d f)) r
  | Dirm :: ds' =>
      '(txt, r) ← re_m s;
      re_match ds' (mk_found (found_Y f) (py_int txt) (found_d f)) r
  | Dird :: ds' =>
      '(txt, r) ← re_d s;
      re_match ds' (mk_found (found_Y f) (found_m f) (py_int txt)) r
  | Lit c :: ds' =>
      match s with
      | String c' r => if Ascii.eqb c c' then re_match ds' f r else []
      | EmptyString => []
      end
  end.

(** [datetime.strptime(data_string, fmt)]: [ValueError] when the format
    does not match, when unconverted data remains after the match, and
    when the fields found are not a date of the calendar. *)
Definition strptime (data_string fmt : string) : outcome datetime.t :=
  match re_match (directives fmt) found_default data_string with
  | [] => Raises ValueError
  | (f, EmptyString) :: _ =>
      if datetime.check_date_fields (found_Y f) (found_m f) (found_d f)
      then Returns (datetime.midnight (found_Y f) (found_m f) (found_d f))
      else Raises ValueError
  | (_, String _ _) :: _ => Raises ValueError
  end.

Fixpoint all_digits (s : string) : bool :=
  match s with
  | EmptyString => true
  | String c r => is_digit c && all_digits r
  end.

(** ** The janitor's file-name pattern *)

Fixpoint strip_prefix (p s : string) : option string :=
  match p, s with
  | EmptyString, _ => Some s
  | String a p', String b s' => if Ascii.eqb a b then strip_prefix p' s' else None
  | String _ _, EmptyString => None
  end.

(** [\d{n}]: exactly [n] digits, captured. *)
Fixpoint take_digits (n : nat) (s : string) : option (string * string) :=
  match n with
  | O => Some (EmptyString, s)
  | S n' =>
      match s with
      | String c r =>
          if is_digit c
          then '(g, r') ← take_digits n' r; Some (String c g, r')
          else None
      | EmptyString => None
      end
  end.

(** [re.compile(r'recommend_(\d{8})\.html').match(filename)], as the
    captured group: the pattern is anchored where the name starts and
    nowhere else, so a name goes on matching whatever follows [.html]. *)
Definition date_pattern_match (filename : string) : option string :=
  r1 ← strip_prefix "recommend_" filename;
  '(g, r2) ← take_digits 8 r1;
  _ ← strip_prefix ".html" r2;
  Some g.

(** The eight digits of a name that is [recommend_], eight digits and
    [.html], with nothing before and nothing after: the names of the
    pages the daily run writes, [strftime("recommend_%Y%m%d.html")]. *)
Definition page_name_date (filename : string) : option string :=
  r1 ← strip_prefix "recommend_" filename;
  '(g, r2) ← take_digits 8 r1;
  r3 ← strip_prefix ".html" r2;
  match r3 with
  | EmptyString => Some g
  | String _ _ => None
  end.

(** ** JSON values and the Python operations the code applies to them *)

Unset Elimination Schemes.
Inductive json :=
| JNull
| JBool (b : bool)
| JNum (n : Z)
| JStr (s : string)
| JList (l : list json)
| JObj (kvs : list (string * json)).
Set Elimination Schemes.

(** The value of [key] in a dict given by its pairs: the last pair with
    that key. *)
Fixpoint dict_get (key : string) (kvs : list (string * json)) : option json :=
  match kvs with
  | [] => None
  | (k, v) :: r =>
      match dict_get key r with
      | Some v' => Some v'
      | None => if String.eqb k key then Some v else None
      end
  end.

(** The keys of a dict, each once, in the order of first insertion. *)
Fixpoint dict_keys (seen : list string) (kvs : list (string * json)) : list string :=
  match kvs with
  | [] => []
  | (k, _) :: r =>
      if existsb (String.eqb k) seen then dict_keys seen r
      else k :: dict_keys (k :: seen) r
  end.

Fixpoint chars (s : string) : list string :=
  match s with
  | EmptyString => []
  | String c r => String c EmptyString :: chars r
  end.

(** [for entry in v]: a list gives its elements, a dict its keys, a
    string its characters; the other values are not iterable. *)
Definition py_iter (v : json) : outcome (list json) :=
  match v with
  | JList l => Returns l
  | JObj kvs => Returns (JStr <$> dict_keys [] kvs)
  | JStr s => Returns (JStr <$> chars s)
  | JNull | JBool _ | JNum _ => Raises TypeError
  end.

(** [v[key]] for a string [key]: only a dict can be subscripted by a
    string, and a missing key is a [KeyError]. *)
Definition py_getitem (v : json) (key : string) : outcome json :=
  match v with
  | JObj kvs =>
      match dict_get key kvs with
      | Some x => Returns x
      | None => Raises KeyError
      end
  | _ => Raises TypeError
  end.

(** [v != s] for a string [s]. *)
Definition py_ne_str (v : json) (s : string) : bool :=
  match v with
  | JStr s' => negb (String.eqb s' s)
  | _ => true
  end.

(** [datetime.strptime(v, fmt)] on a value: the first argument must be
    a [str]. *)
Definition datetime_strptime (v : json) (fmt : string) : outcome datetime.t :=
  match v with
  | JStr s => strptime s fmt
  | _ => Raises TypeError
  end.

(** [l[i]] on a list. *)
Definition py_index {A} (l : list A) (i : nat) : outcome A :=
  match l !! i with
  | Some x => Returns x
  | None => Raises IndexError
  end.

(** ** [random.sample] *)

(** The random source of a run is the list of the numbers it will
    produce; [_randbelow(n)] takes the next one into [0, n). *)
Definition randbelow (n : nat) (draws : list nat) : outcome (nat * list nat) :=
  match draws with
  | [] => Starved
  | r :: rest => Returns ((r mod n)%nat, rest)
  end.

(** The first branch of [random.sample]: a copy of the population is
    the pool, the pick at step [i] is taken from the first [m = n - i]
    cells and the last of them is moved into the vacancy. *)
Fixpoint sample_pool {A} (k m : nat) (pool : list A) (draws : list nat)
  : outcome (list A * list nat) :=
  match k with
  | O => Returns ([], draws)
  | S k' =>
      '(j, draws) ← randbelow m draws;
      x ← py_index pool j;
      y ← py_index pool (m - 1);
      '(result, draws) ← sample_pool k' (m - 1) (<[j := y]> pool) draws;
      Returns (x :: result, draws)
  end.

(** [j = randbelow(n); while j in selected: j = randbelow(n)] *)
Fixpoint draw_unselected (n : nat) (selected : gset nat) (draws : list nat)
  : outcome (nat * list nat) :=
  match draws with
  | [] => Starved
  | r :: rest =>
      let j := (r mod n)%nat in
      if decide (j ∈ selected) then draw_unselected n selected rest
      else Returns (j, rest)
  end.

(** The second branch: positions are drawn until an unselected one
    comes up. *)
Fixpoint sample_set {A} (k n : nat) (population : list A) (selected : gset nat)
    (draws : list nat) : outcome (list A * list nat) :=
  match k with
  | O => Returns ([], draws)
  | S k' =>
      '(j, draws) ← draw_unselected n selected draws;
      x ← py_index population j;
      '(result, draws) ← sample_set k' n population ({[j]} ∪ selected) draws;
      Returns (x :: result, draws)
  end.

(** [_ceil(_log(x, 4))] for a positive integer [x] that is not a power
    of four (three times a count never is): the least [e] with
    [x <= 4 ^ e]. *)
Definition ceil_log4 (x : Z) : Z := (Z.log2_up x + 1) / 2.

Definition random_sample {A} (population : list A) (k : Z) (draws : list nat)
  : outcome (list A * list nat) :=
  let n := Z.of_nat (length population) in
  if negb ((0 <=? k) && (k <=? n)) then Raises ValueError
  else
    let setsize := 21 + (if 5 <? k then 4 ^ ceil_log4 (k * 3) else 0) in
    if n <=? setsize
    then sample_pool (Z.to_nat k) (length population) population draws
    else sample_set (Z.to_nat k) (length population) population ∅ draws.

(** ** Persisted state *)

(** What [json.load(f)] does with the text of a file: it returns the
    value, it raises [JSONDecodeError], or it raises something else,
    which [except json.JSONDecodeError] does not catch: [ValueError]
    for an integer literal of more than 4300 digits, [RecursionError]
    for brackets nested too deep, [UnicodeDecodeError] for a file that
    is not UTF-8. *)
Inductive decoded :=
| Decoded (v : json)
| JSONDecodeError
| DecoderRaises (e : exn).

(** What [json.dump(v, f, ensure_ascii=False, indent=2)] does: it writes
    a text, or it raises ([UnicodeEncodeError] for a string that holds
    a lone surrogate, [ValueError] for an integer of more than 4300
    digits). *)
Inductive encoded :=
| Encoded (text : string)
| EncoderRaises (e : exn).

Class JsonCodec := {
  json_loads : string -> decoded;
  json_dumps : json -> encoded
}.

(** The files of interest, by directory and name. *)
Abbreviation filesystem := (gmap (string * string) string).

Definition os_path_join (dir name : string) : string * string := (dir, name).

(** [os.listdir(dir)] *)
Definition os_listdir (fs : filesystem) (dir : string) : list string :=
  omap (fun '((d, name), _) => if decide (d = dir) then Some name else None)
       (map_to_list fs).

(** The history as a run of the update starts from it: the decoded
    file, or the empty list when the file is absent or the decoder
    fails with [JSONDecodeError].  Any other exception of [json.load]
    leaves the function.
[[
    if os.path.exists(path):
        try:
            with open(path, "r", encoding="utf-8") as f:
                history = json.load(f)
        except json.JSONDecodeError:
            history = []
    else:
        history = []
]]
*)
Definition load_history `{JsonCodec} (fs : filesystem) (path : string * string)
  : outcome json :=
  match fs !! path with
  | Some text =>
      match json_loads text with
      | Decoded history => Returns history
      | JSONDecodeError => Returns (JList [])
      | DecoderRaises e => Raises e
      end
  | None => Returns (JList [])
  end.

(** The history as the sidebar starts from it: there the handler is
    [except Exception], and whatever [json.load] raises gives the empty
    list.
[[
    history = []
    if os.path.exists(history_file_path):
        try:
            with open(history_file_path, "r", encoding="utf-8") as f:
                history = json.load(f)
        except Exception as e:
            history = []
]]
*)
Definition load_history_or_empty `{JsonCodec} (fs : filesystem) (path : string * string)
  : json :=
  match fs !! path with
  | Some text =>
      match json_loads text with
      | Decoded history => history
      | JSONDecodeError | DecoderRaises _ => JList []
      end
  | None => JList []
  end.

(** Writing a value to a file.
[[
    with open(path, "w", encoding="utf-8") as f:
        json.dump(v, f, ensure_ascii=False, indent=2)
]]
    The files after an encoder that raises are not part of the
    outcome. *)
Definition write_json `{JsonCodec} (path : string * string) (v : json) (fs : filesystem)
  : outcome filesystem :=
  match json_dumps v with
  | Encoded text => Returns (<[path := text]> fs)
  | EncoderRaises e => Raises e
  end.

(** ** [history.py]

    The first generation: it stores the recommendations it is given and
    returns the whole log. *)
Module History.

Definition HISTORY_FILE : string := "history.json".
Definition MAX_DAYS : Z := 30.

(** The prune loop.
[[
    new_history = []
    for entry in history:
        try:
            entry_date = datetime.strptime(entry["date"], "%Y/%m/%d")
            if entry_date >= cutoff_date:
                new_history.append(entry)
        except ValueError:
            continue
]]
*)
Fixpoint prune (cutoff_date : instant) (history : list json) : outcome (list json) :=
  match history with
  | [] => Returns []
  | entry :: rest =>
      let attempt :=
        d ← py_getitem entry "date";
        entry_date ← datetime_strptime d "%Y/%m/%d";
        mret (instant_ge (instant_of entry_date) cutoff_date) in
      keep ← match attempt with
             | Raises ValueError => Returns false
             | other => other
             end;
      new_history ← prune cutoff_date rest;
      mret (if keep : bool then entry :: new_history else new_history)
  end.

(** [[e for e in new_history if e["date"] != today]] *)
Fixpoint drop_today (today : string) (new_history : list json) : outcome (list json) :=
  match new_history with
  | [] => Returns []
  | e :: rest =>
      d ← py_getitem e "date";
      rest' ← drop_today today rest;
      mret (if py_ne_str d today then e :: rest' else rest')
  end.

(** [update_and_get_history(new_recommendations)]: the updated log and
    the files after the call. *)
Definition update_and_get_history `{JsonCodec} (cwd : string) (now : datetime.t)
    (new_recommendations : list json) (fs : filesystem)
  : outcome (list json * filesystem) :=
  history ← load_history fs (cwd, HISTORY_FILE);
  let today := strftime now "%Y/%m/%d" in
  let today_filename := strftime now "recommend_%Y%m%d.json" in
  cutoff_date ← sub_days now MAX_DAYS;
  entries ← py_iter history;
  new_history ← prune cutoff_date entries;
  let today_entry :=
    JObj [("date", JStr today); ("filename", JStr today_filename);
          ("items", JList new_recommendations)] in
  new_history ← drop_today today new_history;
  let new_history := today_entry :: new_history in
  fs ← write_json (cwd, HISTORY_FILE) (JList new_history) fs;
  mret (new_history, fs).

End History.

(** ** [generate_data.py], first revision

    The history file is named relative to the working directory. *)
Module GenerateData.

Definition MAX_DAYS : Z := 30.

(** The prune loop.
[[
  new_history = []
  for entry in history:
      try:
          entry_date = datetime.strptime(entry["date"], "%Y/%m/%d")
          if entry_date >= cutoff_date:
              new_history.append(entry)
      except ValueError:
          continue
]]
*)
Fixpoint prune (cutoff_date : instant) (history : list json) : outcome (list json) :=
  match history with
  | [] => Returns []
  | entry :: rest =>
      let attempt :=
        d ← py_getitem entry "date";
        entry_date ← datetime_strptime d "%Y/%m/%d";
        mret (instant_ge (instant_of entry_date) cutoff_date) in
      keep ← match attempt with
             | Raises ValueError => Returns false
             | other => other
             end;
      new_history ← prune cutoff_date rest;
      mret (if keep : bool then entry :: new_history else new_history)
  end.

(** [[e for e in new_history if e["date"] != today]] *)
Fixpoint drop_today (today : string) (new_history : list json) : outcome (list json) :=
  match new_history with
  | [] => Returns []
  | e :: rest =>
      d ← py_getitem e "date";
      rest' ← drop_today today rest;
      mret (if py_ne_str d today then e :: rest' else rest')
  end.

(** The sampling step.
[[
  num_to_sample = min(target_count, len(new_items))
  display_items = random.sample(new_items, num_to_sample) if num_to_sample > 0 else []
]]
*)
Definition sample_display_items (new_items : list json) (target_count : Z)
    (draws : list nat) : outcome (list json) :=
  let num_to_sample := Z.min target_count (Z.of_nat (length new_items)) in
  if 0 <? num_to_sample
  then '(display_items, _) ← random_sample new_items num_to_sample draws;
       mret display_items
  else mret [].

Definition HISTORY_FILE : string := "history.json".

(** [update_history(new_items, target_count)]: the items of the day
    and the files after the call.  [open("history.json")] names the
    file relative to the working directory. *)
Definition update_history `{JsonCodec} (cwd : string) (now : datetime.t)
    (draws : list nat) (new_items : list json) (target_count : Z)
    (fs : filesystem) : outcome (list json * filesystem) :=
  history ← load_history fs (cwd, HISTORY_FILE);
  let today := strftime now "%Y/%m/%d" in
  let today_filename := strftime now "recommend_%Y%m%d.html" in
  cutoff_date ← sub_days now MAX_DAYS;
  entries ← py_iter history;
  new_history ← prune cutoff_date entries;
  display_items ← sample_display_items new_items target_count draws;
  let today_entry :=
    JObj [("date", JStr today); ("filename", JStr today_filename);
          ("items", JList display_items)] in
  new_history ← drop_today today new_history;
  let new_history := today_entry :: new_history in
  fs ← write_json (cwd, HISTORY_FILE) (JList new_history) fs;
  mret (display_items, fs).

(** The janitor's loop over the directory listing; it gives the files
    left and the number of files deleted.
[[
  for filename in os.listdir(current_dir):
      match = date_pattern.match(filename)
      if match:
          date_str = match.group(1)
          try:
              file_date = datetime.strptime(date_str, "%Y%m%d")
              if file_date < cutoff_date:
                  os.remove(os.path.join(current_dir, filename))
                  deleted_count += 1
          except ValueError:
              continue
]]
*)
Fixpoint cleanup_loop (cutoff_date : instant) (current_dir : string)
    (listing : list string) (fs : filesystem) (deleted_count : Z)
  : outcome (filesystem * Z) :=
  match listing with
  | [] => Returns (fs, deleted_count)
  | filename :: rest =>
      match date_pattern_match filename with
      | Some date_str =>
          match strptime date_str "%Y%m%d" with
          | Returns file_date =>
              if instant_lt (instant_of file_date) cutoff_date
              then cleanup_loop cutoff_date current_dir rest
                     (delete (os_path_join current_dir filename) fs) (deleted_count + 1)
              else cleanup_loop cutoff_date current_dir rest fs deleted_count
          | Raises ValueError => cleanup_loop cutoff_date current_dir rest fs deleted_count
          | Raises e => Raises e
          | Starved => Starved
          end
      | None => cleanup_loop cutoff_date current_dir rest fs deleted_count
      end
  end.

(** [cleanup_old_html_files()], in the directory of the script. *)
Definition cleanup_old_html_files (current_dir : string) (now : datetime.t)
    (fs : filesystem) : outcome (filesystem * Z) :=
  cutoff_date ← sub_days now MAX_DAYS;
  cleanup_loop cutoff_date current_dir (os_listdir fs current_dir) fs 0.

End GenerateData.

(** ** [generate_data.py], later revision

    The history file is looked up in the directory of the script. *)
Module GenerateDataAI.

Definition MAX_DAYS : Z := 30.

(** The prune loop.
[[
  new_history = []
  for entry in history:
      try:
          entry_date = datetime.strptime(entry["date"], "%Y/%m/%d")
          if entry_date >= cutoff_date:
              new_history.append(entry)
      except ValueError:
          continue
]]
*)
Fixpoint prune (cutoff_date : instant) (history : list json) : outcome (list json) :=
  match history with
  | [] => Returns []
  | entry :: rest =>
      let attempt :=
        d ← py_getitem entry "date";
        entry_date ← datetime_strptime d "%Y/%m/%d";
        mret (instant_ge (instant_of entry_date) cutoff_date) in
      keep ← match attempt with
             | Raises ValueError => Returns false
             | other => other
             end;
      new_history ← prune cutoff_date rest;
      mret (if keep : bool then entry :: new_history else new_history)
  end.

(** [[e for e in new_history if e["date"] != today]] *)
Fixpoint drop_today (today : string) (new_history : list json) : outcome (list json) :=
  match new_history with
  | [] => Returns []
  | e :: rest =>
      d ← py_getitem e "date";
      rest' ← drop_today today rest;
      mret (if py_ne_str d today then e :: rest' else rest')
  end.

(** The sampling step.
[[
  num_to_sample = min(target_count, len(new_items))
  display_items = random.sample(new_items, num_to_sample) if num_to_sample > 0 else []
]]
*)
Definition sample_display_items (new_items : list json) (target_count : Z)
    (draws : list nat) : outcome (list json) :=
  let num_to_sample := Z.min target_count (Z.of_nat (length new_items)) in
  if 0 <? num_to_sample
  then '(display_items, _) ← random_sample new_items num_to_sample draws;
       mret display_items
  else mret [].

Definition HISTORY_FILE_NAME : string := "history.json".

(** [update_history(new_items, target_count)]: the items of the day
    and the files after the call.  The history file is
    [os.path.join(SCRIPT_DIR, HISTORY_FILE_NAME)]. *)
Definition update_history `{JsonCodec} (SCRIPT_DIR : string) (now : datetime.t)
    (draws : list nat) (new_items : list json) (target_count : Z)
    (fs : filesystem) : outcome (list json * filesystem) :=
  let HISTORY_FILE_PATH := os_path_join SCRIPT_DIR HISTORY_FILE_NAME in
  history ← load_history fs HISTORY_FILE_PATH;
  let today := strftime now "%Y/%m/%d" in
  let today_filename := strftime now "recommend_%Y%m%d.html" in
  cutoff_date ← sub_days now MAX_DAYS;
  entries ← py_iter history;
  new_history ← prune cutoff_date entries;
  display_items ← sample_display_items new_items target_count draws;
  let today_entry :=
    JObj [("date", JStr today); ("filename", JStr today_filename);
          ("items", JList display_items)] in
  new_history ← drop_today today new_history;
  let new_history := today_entry :: new_history in
  fs ← write_json HISTORY_FILE_PATH (JList new_history) fs;
  mret (display_items, fs).

(** The janitor's loop over the directory listing; it gives the files
    left and the number of files deleted.
[[
  for filename in os.listdir(current_dir):
      match = date_pattern.match(filename)
      if match:
          date_str = match.group(1)
          try:
              file_date = datetime.strptime(date_str, "%Y%m%d")
              if file_date < cutoff_date:
                  os.remove(os.path.join(current_dir, filename))
                  deleted_count += 1
          except ValueError:
              continue
]]
*)
Fixpoint cleanup_loop (cutoff_date : instant) (current_dir : string)
    (listing : list string) (fs : filesystem) (deleted_count : Z)
  : outcome (filesystem * Z) :=
  match listing with
  | [] => Returns (fs, deleted_count)
  | filename :: rest =>
      match date_pattern_match filename with
      | Some date_str =>
          match strptime date_str "%Y%m%d" with
          | Returns file_date =>
              if instant_lt (instant_of file_date) cutoff_date
              then cleanup_loop cutoff_date current_dir rest
                     (delete (os_path_join current_dir filename) fs) (deleted_count + 1)
              else cleanup_loop cutoff_date current_dir rest fs deleted_count
          | Raises ValueError => cleanup_loop cutoff_date current_dir rest fs deleted_count
          | Raises e => Raises e
          | Starved => Starved
          end
      | None => cleanup_loop cutoff_date current_dir rest fs deleted_count
      end
  end.

(** [cleanup_old_html_files()], in the directory of the script. *)
Definition cleanup_old_html_files (current_dir : string) (now : datetime.t)
    (fs : filesystem) : outcome (filesystem * Z) :=
  cutoff_date ← sub_days now MAX_DAYS;
  cleanup_loop cutoff_date current_dir (os_listdir fs current_dir) fs 0.

End GenerateDataAI.

(** ** A reference codec

    A decoder and an encoder of compact JSON text over the values of
    the model, used where a statement needs an actual codec.  The
    decoder takes the interpreter's limit on the digits of an integer
    as a parameter. *)
Module JsonText.

(** What a step of the decoder does: it gives a result, it fails with
    [JSONDecodeError], or it raises another exception. *)
Inductive scan (A : Type) :=
| Scanned (a : A)
| Malformed
| Refuses (e : exn).
Arguments Scanned {A} a.
Arguments Malformed {A}.
Arguments Refuses {A} e.

#[global] Instance scan_ret : MRet scan := fun A a => Scanned a.

#[global] Instance scan_bind : MBind scan := fun A B k c =>
  match c with
  | Scanned a => k a
  | Malformed => Malformed
  | Refuses e => Refuses e
  end.

Definition scan_option {A} (o : option A) : scan A :=
  match o with
  | Some a => Scanned a
  | None => Malformed
  end.

Definition dquote : ascii := "034".
Definition backslash : ascii := "092".

Fixpoint escape (s : string) : string :=
  match s with
  | EmptyString => EmptyString
  | String c r =>
      if Ascii.eqb c dquote || Ascii.eqb c backslash
      then String backslash (String c (escape r))
      else String c (escape r)
  end.

Definition dumps_str (s : string) : string :=
  String dquote (escape s +:+ String dquote EmptyString).

Fixpoint dumps (v : json) : string :=
  match v with
  | JNull => "null"
  | JBool true => "true"
  | JBool false => "false"
  | JNum n => NilZero.string_of_int (Z.to_int n)
  | JStr s => dumps_str s
  | JList l =>
      String "[" match l with
                 | [] => "]"
                 | x :: r =>
                     dumps x +:+
                     (fix more (r : list json) : string :=
                        match r with
                        | [] => "]"
                        | y :: r' => String "," (dumps y +:+ more r')
                        end) r
                 end
  | JObj kvs =>
      String "{" match kvs with
                 | [] => "}"
                 | (k, x) :: r =>
                     dumps_str k +:+ String ":" (dumps x) +:+
                     (fix more (r : list (string * json)) : string :=
                        match r with
                        | [] => "}"
                        | (k', y) :: r' =>
                            String "," (dumps_str k' +:+ String ":" (dumps y) +:+ more r')
                        end) r
                 end
  end.

(** The text after the first element of a list, and of a dict. *)
Fixpoint dumps_items (l : list json) : string :=
  match l with
  | [] => "]"
  | y :: r => String "," (dumps y +:+ dumps_items r)
  end.

Fixpoint dumps_members (l : list (string * json)) : string :=
  match l with
  | [] => "}"
  | (k, y) :: r => String "," (dumps_str k +:+ String ":" (dumps y) +:+ dumps_members r)
  end.

(** The characters a value can start with. *)
Definition value_start (c : ascii) : bool :=
  is_digit c || Ascii.eqb c "-" || Ascii.eqb c "n" || Ascii.eqb c "t" || Ascii.eqb c "f"
  || Ascii.eqb c dquote || Ascii.eqb c "[" || Ascii.eqb c "{".

(** The text of a string after its opening quote. *)
Fixpoint parse_str (s : string) : option (string * string) :=
  match s with
  | EmptyString => None
  | String c r =>
      if Ascii.eqb c dquote then Some (EmptyString, r)
      else if Ascii.eqb c backslash then
        match r with
        | String c' r' =>
            if Ascii.eqb c' dquote || Ascii.eqb c' backslash
            then '(t, r'') ← parse_str r'; Some (String c' t, r'')
            else None
        | EmptyString => None
        end
      else '(t, r') ← parse_str r; Some (String c t, r')
  end.

Fixpoint span_digits (s : string) : string * string :=
  match s with
  | String c r =>
      if is_digit c
      then let '(a, b) := span_digits r in (String c a, b)
      else (EmptyString, s)
  | EmptyString => (EmptyString, EmptyString)
  end.

Definition span_number (s : string) : string * string :=
  match s with
  | String c r =>
      if Ascii.eqb c "-"
      then let '(a, b) := span_digits r in (String c a, b)
      else span_digits s
  | EmptyString => (EmptyString, EmptyString)
  end.

(** The number of digits of a literal, and whether [int] refuses it:
    under a limit of [m] digits, a literal of more than [m] digits
    that does not start with a zero and is not followed by a fraction
    or an exponent makes [int] raise [ValueError]. *)
Definition literal_length (txt : string) : nat :=
  match txt with
  | String "-" r => String.length r
  | _ => String.length txt
  end.

Definition leading_zero (txt : string) : bool :=
  match txt with
  | String "-" (String "0" _) | String "0" _ => true
  | _ => false
  end.

Definition float_ahead (rest : string) : bool :=
  match rest with
  | String c _ => Ascii.eqb c "." || Ascii.eqb c "e" || Ascii.eqb c "E"
  | EmptyString => false
  end.

Definition refused (max_digits : option nat) (txt rest : string) : bool :=
  match max_digits with
  | None => false
  | Some m =>
      (m <? literal_length txt)%nat && negb (leading_zero txt) && negb (float_ahead rest)
  end.

Definition parse_num (max_digits : option nat) (s : string) : scan (Z * string) :=
  let '(txt, r) := span_number s in
  if refused max_digits txt r then Refuses ValueError
  else d ← scan_option (NilZero.int_of_string txt); Scanned (Z.of_int d, r).

Definition parse_member (parse_value : string -> scan (json * string)) (s : string)
  : scan ((string * json) * string) :=
  match lstrip s with
  | String c r =>
      if Ascii.eqb c dquote then
        '(k, r1) ← scan_option (parse_str r);
        match lstrip r1 with
        | String ":" r2 => '(x, r3) ← parse_value r2; Scanned ((k, x), r3)
        | _ => Malformed
        end
      else Malformed
  | EmptyString => Malformed
  end.

Fixpoint parse_value (max_digits : option nat) (fuel : nat) (s : string)
  : scan (json * string) :=
  match fuel with
  | O => Malformed
  | S fuel =>
      match lstrip s with
      | EmptyString => Malformed
      | String c r =>
          if Ascii.eqb c "n"
          then r' ← scan_option (strip_prefix "ull" r); Scanned (JNull, r')
          else if Ascii.eqb c "t"
          then r' ← scan_option (strip_prefix "rue" r); Scanned (JBool true, r')
          else if Ascii.eqb c "f"
          then r' ← scan_option (strip_prefix "alse" r); Scanned (JBool false, r')
          else if Ascii.eqb c dquote
          then '(t, r') ← scan_option (parse_str r); Scanned (JStr t, r')
          else if Ascii.eqb c "[" then
            match lstrip r with
            | String c' r' =>
                if Ascii.eqb c' "]" then Scanned (JList [], r')
                else
                  '(x, r1) ← parse_value max_digits fuel r;
                  '(l, r2) ← parse_items max_digits fuel r1;
                  Scanned (JList (x :: l), r2)
            | EmptyString => Malformed
            end
          else if Ascii.eqb c "{" then
            match lstrip r with
            | String c' r' =>
                if Ascii.eqb c' "}" then Scanned (JObj [], r')
                else
                  '(kv, r1) ← parse_member (parse_value max_digits fuel) r;
                  '(l, r2) ← parse_members max_digits fuel r1;
                  Scanned (JObj (kv :: l), r2)
            | EmptyString => Malformed
            end
          else '(n, r') ← parse_num max_digits (String c r); Scanned (JNum n, r')
      end
  end
with parse_items (max_digits : option nat) (fuel : nat) (s : string)
  : scan (list json * string) :=
  match fuel with
  | O => Malformed
  | S fuel =>
      match lstrip s with
      | String "]" r => Scanned ([], r)
      | String "," r =>
          '(x, r1) ← parse_value max_digits fuel r;
          '(l, r2) ← parse_items max_digits fuel r1;
          Scanned (x :: l, r2)
      | _ => Malformed
      end
  end
with parse_members (max_digits : option nat) (fuel : nat) (s : string)
  : scan (list (string * json) * string) :=
  match fuel with
  | O => Malformed
  | S fuel =>
      match lstrip s with
      | String "}" r => Scanned ([], r)
      | String "," r =>
          '(kv, r1) ← parse_member (parse_value max_digits fuel) r;
          '(l, r2) ← parse_members max_digits fuel r1;
          Scanned (kv :: l, r2)
      | _ => Malformed
      end
  end.

(** A whole document: one value, blanks allowed around it. *)
Definition decode (max_digits : option nat) (s : string) : scan json :=
  '(v, r) ← parse_value max_digits (S (String.length s)) s;
  match lstrip r with
  | EmptyString => Scanned v
  | String _ _ => Malformed
  end.

(** The decoder without a limit on the digits. *)
Definition loads (s : string) : option json :=
  match decode None s with
  | Scanned v => Some v
  | Malformed | Refuses _ => None
  end.

(** The codec of [loads] and [dumps]: a text that does not parse is a
    [JSONDecodeError], and nothing else is raised. *)
Definition codec : JsonCodec :=
  {| json_loads := fun text =>
       match loads text with
       | Some v => Decoded v
       | None => JSONDecodeError
       end;
     json_dumps := fun v => Encoded (dumps v) |}.

(** The text does not go on with a digit. *)
Definition no_digit_ahead (s : string) : Prop :=
  match s with
  | String c _ => is_digit c = false
  | EmptyString => True
  end.

(** A value decodes to itself from in front of any text that does not
    go on with a digit, given fuel for its length. *)
Definition decodes (v : json) : Prop :=
  forall fuel rest,
    (String.length (dumps v) <= fuel)%nat -> no_digit_ahead rest ->
    parse_value None fuel (dumps v +:+ rest) = Scanned (v, rest).

End JsonText.

(** ** Vocabulary of the statements *)

(** The laws of [json] the statements rely on: every value is encoded,
    and decoding its text gives the value back; and the empty document
    does not decode. *)
Definition codec_roundtrip (C : JsonCodec) : Prop :=
  forall v, exists text, json_dumps v = Encoded text /\ json_loads text = Decoded v.

Definition codec_rejects_empty (C : JsonCodec) : Prop :=
  json_loads EmptyString = JSONDecodeError.

(** The history file of a directory. *)
Definition history_path (dir : string) : string * string := (dir, "history.json").

(** The entries the loop of a run goes over, [for entry in history],
    from the files the run starts on. *)
Definition history_entries `{JsonCodec} (fs : filesystem) (path : string * string)
  : outcome (list json) :=
  history ← load_history fs path; py_iter history.

(** The [date] of a record, when the record is a dict that has one and
    it is a string. *)
Definition record_date (e : json) : option string :=
  match py_getitem e "date" with
  | Returns (JStr s) => Some s
  | _ => None
  end.

(** The midnight a record's [date] denotes, when it parses. *)
Definition record_instant (e : json) : option instant :=
  s ← record_date e;
  match strptime s "%Y/%m/%d" with
  | Returns dt => Some (instant_of dt)
  | _ => None
  end.

(** The instant thirty days before a reading of the clock. *)
Definition cutoff (now : datetime.t) : instant :=
  (datetime.toordinal now - 30, datetime.time_of_day now).

(** The record's date parses and is not older than the cutoff. *)
Definition retained (c : instant) (e : json) : bool :=
  match record_instant e with
  | Some i => instant_ge i c
  | None => false
  end.

(** The record's [date] is the string [today]. *)
Definition dated (today : string) (e : json) : bool :=
  match record_date e with
  | Some s => String.eqb s today
  | None => false
  end.

(** The record a run inserts for its day. *)
Definition today_entry (now : datetime.t) (items : list json) : json :=
  JObj [("date", JStr (strftime now "%Y/%m/%d"));
        ("filename", JStr (strftime now "recommend_%Y%m%d.html"));
        ("items", JList items)].

(** The records of the input log that a run on [now] keeps. *)
Definition survivors (now : datetime.t) (entries : list json) : list json :=
  List.filter
    (fun e => retained (cutoff now) e && negb (dated (strftime now "%Y/%m/%d") e))
    entries.

(** The days from the date of a record to the day of the run, when the
    date parses. *)
Definition age_in_days (now : datetime.t) (e : json) : option Z :=
  i ← record_instant e; Some (datetime.toordinal now - fst i).

(** The positions in [0, n) that a list of random numbers holds. *)
Definition residues (n : nat) (draws : list nat) : gset nat :=
  list_to_set ((fun r => (r mod n)%nat) <$> draws).

(** [items] are the cells of [pool] at [positions], and no position
    comes twice. *)
Definition chosen_from {A} (pool items : list A) (positions : list nat) : Prop :=
  NoDup positions /\ Forall2 (fun x p => pool !! p = Some x) items positions.

(** The file name matches the janitor's pattern, its group parses as
    a compact date, and that date is older than the cutoff. *)
Definition expired (c : instant) (filename : string) : bool :=
  match date_pattern_match filename with
  | Some date_str =>
      match strptime date_str "%Y%m%d" with
      | Returns file_date => instant_lt (instant_of file_date) c
      | _ => false
      end
  | None => false
  end.

(** The files the janitor of [dir] leaves in place. *)
Definition janitor_keeps (c : instant) (dir : string) (file : (string * string) * string)
  : Prop :=
  ~ (fst (fst file) = dir /\ expired c (snd (fst file)) = true).

#[global] Instance janitor_keeps_dec c dir file : Decision (janitor_keeps c dir file).
Proof. unfold janitor_keeps. apply _. Defined.

(** The janitor and then the retention pass, and the other way round,
    on one reading of the clock. *)
Definition janitor_then_policy `{JsonCodec} (dir : string) (now : datetime.t)
    (draws : list nat) (new_items : list json) (target_count : Z) (fs : filesystem)
  : outcome (list json * filesystem) :=
  '(fs1, _) ← GenerateDataAI.cleanup_old_html_files dir now fs;
  GenerateDataAI.update_history dir now draws new_items target_count fs1.

Definition policy_then_janitor `{JsonCodec} (dir : string) (now : datetime.t)
    (draws : list nat) (new_items : list json) (target_count : Z) (fs : filesystem)
  : outcome (list json * filesystem) :=
  '(items, fs1) ← GenerateDataAI.update_history dir now draws new_items target_count fs;
  '(fs2, _) ← GenerateDataAI.cleanup_old_html_files dir now fs1;
  mret (items, fs2).

(** Which of the files [names] of [dir] are there after a run of the
    janitor, and how many it has deleted. *)
Definition files_after (dir : string) (names : list string)
    (run : outcome (filesystem * Z)) : outcome (list bool * Z) :=
  '(fs', n) ← run;
  mret ((fun name => bool_decide (is_Some (fs' !! (dir, name)))) <$> names, n).

(** One call of [update_history]: the clock it reads, the random
    numbers it draws, and its arguments. *)
Record call := mk_call {
  call_now : datetime.t;
  call_draws : list nat;
  call_items : list json;
  call_target : Z
}.

(** Successive runs over the same directory, each starting from the
    files the one before has left; the items of the last run are
    returned. *)
Fixpoint update_history_calls `{JsonCodec} (dir : string) (calls : list call)
    (last_items : list json) (fs : filesystem) : outcome (list json * filesystem) :=
  match calls with
  | [] => Returns (last_items, fs)
  | c :: rest =>
      '(items, fs1) ← GenerateDataAI.update_history dir (call_now c) (call_draws c)
                        (call_items c) (call_target c) fs;
      update_history_calls dir rest items fs1
  end.

(** ** Sample data *)

Definition demo_dir : string := "/srv/site".

(** 21 October 2025, 09:30. *)
Definition demo_now : datetime.t := datetime.mk 2025 10 21 9 30 0 0.

Definition demo_item (title : string) (price : json) : json :=
  JObj [("title", JStr title); ("url", JStr ("https://shop.test/" +:+ title));
        ("image", JStr EmptyString); ("price", price); ("source", JStr "DMM")].

Definition demo_items : list json :=
  [demo_item "leash" (JNum 1980); demo_item "bowl" (JNum 550);
   demo_item "brush" (JStr "ask")].

Definition demo_record (date filename : string) : json :=
  JObj [("date", JStr date); ("filename", JStr filename); ("items", JList [])].

(** Records of the day before, of 45 days before and of 20 days
    before the run. *)
Definition demo_log : list json :=
  [demo_record "2025/10/20" "recommend_20251020.html";
   demo_record "2025/09/06" "recommend_20250906.html";
   demo_record "2025/10/01" "recommend_20251001.html"].

Definition demo_fs : filesystem :=
  {[ history_path demo_dir := JsonText.dumps (JList demo_log);
     (demo_dir, "recommend_20251020.html") := "<html>20</html>";
     (demo_dir, "recommend_20250906.html") := "<html>06</html>";
     (demo_dir, "recommend_20251001.html") := "<html>01</html>";
     (demo_dir, "index.html") := "<html></html>" ]}.

Definition demo_draws : list nat := [7; 4; 2; 9; 0]%nat.

(** A record dated 21 September 2025, thirty days before the sample
    run. *)
Definition demo_record_30 : json := demo_record "2025/09/21" "recommend_20250921.html".

(** A log with a record dated 30 February, and the files holding it. *)
Definition demo_log_feb30 : list json :=
  [demo_record "2025/10/20" "recommend_20251020.html";
   demo_record "2025/02/30" "recommend_20250230.html"].

Definition demo_fs_feb30 : filesystem :=
  {[ history_path demo_dir := JsonText.dumps (JList demo_log_feb30) ]}.

(** A record without a [date], and one whose [date] is a number. *)
Definition demo_undated : json :=
  JObj [("filename", JStr "recommend_20251020.html"); ("items", JList [])].

Definition demo_numeric_date : json :=
  JObj [("date", JNum 20251020); ("filename", JStr "recommend_20251020.html");
        ("items", JList [])].

(** A second run the same day, at 18:00, with one item to choose from. *)
Definition demo_evening : datetime.t := datetime.mk 2025 10 21 18 0 0 0.

Definition demo_calls : list call :=
  [mk_call demo_now demo_draws demo_items 5;
   mk_call demo_evening [3]%nat [demo_item "collar" (JNum 1200)] 5].

(** What the sample run draws and the files it leaves. *)
Definition demo_picks : list json :=
  [demo_item "bowl" (JNum 550); demo_item "leash" (JNum 1980);
   demo_item "brush" (JStr "ask")].

Definition demo_fs' : filesystem :=
  <[history_path demo_dir :=
      JsonText.dumps (JList (today_entry demo_now demo_picks :: survivors demo_now demo_log))]>
    demo_fs.

(** ** The log between runs *)


(** The ordinal of the day a record is dated, when its date parses. *)
Definition record_day (e : json) : option Z :=
  i ← record_instant e; Some (fst i).

(** The record is dated the day of ordinal [day]: its [date] parses
    to that day of the calendar, however it is written. *)
Definition on_day (day : Z) (e : json) : bool :=
  match record_day e with
  | Some d => d =? day
  | None => false
  end.

(** The record's [date] is written the way the code writes dates: it
    parses, and printing the parsed date gives the same text. *)
Definition canonical_date (e : json) : Prop :=
  exists s dt,
    record_date e = Some s /\ strptime s "%Y/%m/%d" = Returns dt /\
    s = strftime dt "%Y/%m/%d".

(** A log as daily runs leave it: canonical dates, no two records of
    one day, no record dated after the day of [now]. *)
Definition tidy (now : datetime.t) (log : list json) : Prop :=
  Forall canonical_date log /\
  NoDup (record_day <$> log) /\
  Forall (fun e => forall d, record_day e = Some d -> d <= datetime.toordinal now) log.

(** 5 October 2025, 09:30, and a history with a record of that day
    whose date is written without the zero of the day, as a file edited
    by hand may have it; and the log a run of that morning saves. *)
Definition demo_october_5 : datetime.t := datetime.mk 2025 10 5 9 30 0 0.

Definition demo_log_unpadded : list json :=
  [demo_record "2025/10/5" "recommend_20251005.html"].

Definition demo_fs_unpadded : filesystem :=
  {[ history_path demo_dir := JsonText.dumps (JList demo_log_unpadded) ]}.

Definition demo_log_october_5 : list json :=
  [today_entry demo_october_5 demo_picks;
   demo_record "2025/10/5" "recommend_20251005.html"].

(** ** The fetch and the pool of [generate_data.py]

    The rest of the data step: the items taken from a response of the
    shop's API, the pool without repeated URLs, and the function that
    strings the steps together.  The request itself is outside the
    model: a call of [get_dmm_items] is given the decoded response,
    [response.json()].  The Japanese literals of the code lie outside
    the characters of the model; a function that uses one takes it as a
    parameter. *)

(** The exceptions of this code: those of [exn], and [AttributeError]
    for a method a value does not have. *)
Inductive error := Builtin (e : exn) | AttributeError.

Inductive completion (A : Type) :=
| Completes (a : A)
| Throws (e : error)
| Stalls.
Arguments Completes {A} a.
Arguments Throws {A} e.
Arguments Stalls {A}.

#[global] Instance completion_ret : MRet completion := fun A a => Completes a.

#[global] Instance completion_bind : MBind completion := fun A B k c =>
  match c with
  | Completes a => k a
  | Throws e => Throws e
  | Stalls => Stalls
  end.

Definition of_outcome {A} (c : outcome A) : completion A :=
  match c with
  | Returns a => Completes a
  | Raises e => Throws (Builtin e)
  | Starved => Stalls
  end.

Fixpoint for_each {A B} (f : A -> completion B) (l : list A) : completion (list B) :=
  match l with
  | [] => Completes []
  | x :: r => y ← f x; ys ← for_each f r; Completes (y :: ys)
  end.

(** [bool(v)] *)
Definition py_truthy (v : json) : bool :=
  match v with
  | JNull => false
  | JBool b => b
  | JNum n => negb (n =? 0)
  | JStr s => negb (String.eqb s EmptyString)
  | JList l => match l with [] => false | _ => true end
  | JObj kvs => match kvs with [] => false | _ => true end
  end.

(** [a or b] *)
Definition py_or (a b : json) : json := if py_truthy a then a else b.

(** [v.get(key, default)]: a method of dicts only. *)
Definition py_get (v : json) (key : string) (default : json) : completion json :=
  match v with
  | JObj kvs =>
      Completes match dict_get key kvs with
                | Some x => x
                | None => default
                end
  | _ => Throws AttributeError
  end.

Fixpoint is_prefix (p s : string) : bool :=
  match p, s with
  | EmptyString, _ => true
  | String a p', String b s' => Ascii.eqb a b && is_prefix p' s'
  | String _ _, EmptyString => false
  end.

Fixpoint is_substring (p s : string) : bool :=
  is_prefix p s ||
  match s with
  | String _ r => is_substring p r
  | EmptyString => false
  end.

(** [key in v] for a string [key]: a key of a dict, an element of a
    list, a substring of a string. *)
Definition py_contains (key : string) (v : json) : outcome bool :=
  match v with
  | JObj kvs => Returns (bool_decide (is_Some (dict_get key kvs)))
  | JList l => Returns (existsb (fun x => negb (py_ne_str x key)) l)
  | JStr s => Returns (is_substring key s)
  | JNull | JBool _ | JNum _ => Raises TypeError
  end.

(** The characters [str.strip] and [int] take for blanks, among the
    characters of the model: tab to carriage return, the four
    separators, the space, NEL and the no-break space. *)
Definition is_unicode_space (c : ascii) : bool :=
  char_in "009" "013" c || char_in "028" "032" c || Ascii.eqb c "133" || Ascii.eqb c "160".

Fixpoint lstrip_unicode (s : string) : string :=
  match s with
  | String c r => if is_unicode_space c then lstrip_unicode r else s
  | EmptyString => s
  end.

Fixpoint rstrip_unicode (s : string) : string :=
  match s with
  | String c r =>
      match rstrip_unicode r with
      | EmptyString => if is_unicode_space c then EmptyString else String c EmptyString
      | r' => String c r'
      end
  | EmptyString => s
  end.

(** [s.strip()] *)
Definition py_strip (s : string) : string := rstrip_unicode (lstrip_unicode s).

(** The interpreter's limit on the number of digits in a conversion
    between [int] and [str] ([sys.int_info.default_max_str_digits]). *)
Definition max_str_digits : nat := 4300.

(** The digits of an integer literal: decimal digits, a single
    underscore allowed between two of them.  The value and the number
    of digits. *)
Fixpoint literal_digits (acc : Z) (count : nat) (after_digit : bool) (s : string)
  : option (Z * nat) :=
  match s with
  | EmptyString => if after_digit then Some (acc, count) else None
  | String c r =>
      if is_digit c then literal_digits (10 * acc + digit_val c) (S count) true r
      else if Ascii.eqb c "_" && after_digit then literal_digits acc count false r
      else None
  end.

(** [int(s)] for a string: blanks around, an optional sign, the digits. *)
Definition int_of_string (s : string) : outcome Z :=
  let body := py_strip s in
  let '(negative, digits) :=
    match body with
    | String "-" r => (true, r)
    | String "+" r => (false, r)
    | _ => (false, body)
    end in
  match literal_digits 0 0 false digits with
  | Some (n, count) =>
      if (max_str_digits <? count)%nat then Raises ValueError
      else Returns (if negative : bool then - n else n)
  | None => Raises ValueError
  end.

(** [int(v)] on the values of the model.  ([int] of a float, which
    truncates it or, for an infinity, raises [OverflowError], has no
    counterpart here: the numbers of the model are integers.) *)
Definition py_int_of (v : json) : outcome Z :=
  match v with
  | JNum n => Returns n
  | JBool b => Returns (if b then 1 else 0)
  | JStr s => int_of_string s
  | JNull | JList _ | JObj _ => Raises TypeError
  end.

(** The price of an item of the response.
[[
  price = item.get("prices", {}).get("price", "不明")
  try:
      int(price)
  except ValueError:
      price = item.get("prices", {}).get("price", "不明")
]]
*)
Definition response_price (unknown : string) (item : json) : completion json :=
  prices ← py_get item "prices" (JObj []);
  price ← py_get prices "price" (JStr unknown);
  match py_int_of price with
  | Returns _ => Completes price
  | Raises ValueError =>
      prices ← py_get item "prices" (JObj []);
      py_get prices "price" (JStr unknown)
  | Raises e => Throws (Builtin e)
  | Starved => Stalls
  end.

(** ["result" in data and "items" in data["result"]] *)
Definition has_items (data : json) : completion bool :=
  has_result ← of_outcome (py_contains "result" data);
  if has_result : bool
  then result ← of_outcome (py_getitem data "result");
       of_outcome (py_contains "items" result)
  else Completes false.

(** [get_dmm_items] of the first revision, from the decoded response
    on; [unknown] is the literal ["不明"]. *)
Module Fetch.

Definition response_item (unknown : string) (item : json) : completion json :=
  price ← response_price unknown item;
  title ← py_get item "title" (JStr unknown);
  url ← py_get item "URL" (JStr EmptyString);
  image_urls ← py_get item "imageURL" (JObj []);
  image ← py_get image_urls "large" (JStr EmptyString);
  Completes (JObj [("title", title); ("url", url); ("image", image);
                   ("price", price); ("source", JStr "DMM")]).

Definition get_dmm_items (unknown : string) (data : json) : completion (list json) :=
  found ← has_items data;
  if found : bool
  then result ← of_outcome (py_getitem data "result");
       items ← of_outcome (py_getitem result "items");
       entries ← of_outcome (py_iter items);
       for_each (response_item unknown) entries
  else Completes [].

End Fetch.

(** [get_dmm_items] of the later revision: the image is the first of
    the [list], [small] and [large] URLs that is not empty. *)
Module FetchAI.

Definition response_item (unknown : string) (item : json) : completion json :=
  price ← response_price unknown item;
  image_urls ← py_get item "imageURL" (JObj []);
  image_list ← py_get image_urls "list" (JStr EmptyString);
  image_url ←
    (if py_truthy image_list then Completes image_list
     else image_small ← py_get image_urls "small" (JStr EmptyString);
          if py_truthy image_small then Completes image_small
          else py_get image_urls "large" (JStr EmptyString));
  title ← py_get item "title" (JStr unknown);
  url ← py_get item "URL" (JStr EmptyString);
  Completes (JObj [("title", title); ("url", url); ("image", image_url);
                   ("price", price); ("source", JStr "DMM")]).

Definition get_dmm_items (unknown : string) (data : json) : completion (list json) :=
  found ← has_items data;
  if found : bool
  then result ← of_outcome (py_getitem data "result");
       items ← of_outcome (py_getitem result "items");
       entries ← of_outcome (py_iter items);
       for_each (response_item unknown) entries
  else Completes [].

End FetchAI.

(** A value that can be a key of a dict. *)
Definition hashable (v : json) : bool :=
  match v with
  | JList _ | JObj _ => false
  | _ => true
  end.

(** The key a value is filed under: [True] and [1] are one key, and so
    are [False] and [0]. *)
Definition key_norm (v : json) : json :=
  match v with
  | JBool b => JNum (if b then 1 else 0)
  | _ => v
  end.

(** [a == b] on keys. *)
Definition key_eqb (a b : json) : bool :=
  match key_norm a, key_norm b with
  | JNull, JNull => true
  | JNum n, JNum m => n =? m
  | JStr s, JStr t => String.eqb s t
  | _, _ => false
  end.

(** [d[k] = v] on a dict kept as its (key, value) pairs in the order
    of insertion: a key that is there keeps its place and takes the new
    value. *)
Fixpoint dict_set (k v : json) (d : list (json * json)) : list (json * json) :=
  match d with
  | [] => [(k, v)]
  | (k', v') :: r =>
      if key_eqb k' k then (k', v) :: r else (k', v') :: dict_set k v r
  end.

(** [{item['url']: item for item in all_items}] *)
Fixpoint by_url (all_items : list json) (d : list (json * json))
  : outcome (list (json * json)) :=
  match all_items with
  | [] => Returns d
  | item :: rest =>
      url ← py_getitem item "url";
      if hashable url then by_url rest (dict_set url item d) else Raises TypeError
  end.

(** [list({item['url']: item for item in all_items}.values())] *)
Definition unique_items (all_items : list json) : outcome (list json) :=
  d ← by_url all_items []; Returns (List.map snd d).

(** The key an item is filed under, when it has a URL that can be
    one. *)
Definition url_of (item : json) : option json :=
  match py_getitem item "url" with
  | Returns url => if hashable url then Some (key_norm url) else None
  | _ => None
  end.

(** [save_items_to_json()] of the first revision: the files after the
    call.  [responses] are the decoded responses to the requests, one
    for each keyword in turn; the history update and the janitor each
    read the clock.  The history and [current_week.json] are named
    relative to the working directory, the janitor works in the
    directory of the script. *)
Definition save_items_to_json `{JsonCodec} (unknown : string) (cwd script_dir : string)
    (responses : list json) (now_update now_cleanup : datetime.t) (draws : list nat)
    (fs : filesystem) : completion filesystem :=
  fetched ← for_each (Fetch.get_dmm_items unknown) responses;
  let all_items := concat fetched in
  unique_items ← of_outcome (unique_items all_items);
  match unique_items with
  | [] => Completes fs
  | _ =>
      '(today_recommendations, fs) ←
        of_outcome (GenerateData.update_history cwd now_update draws unique_items 5 fs);
      fs ← of_outcome (write_json (cwd, "current_week.json") (JList today_recommendations) fs);
      '(fs, _) ← of_outcome (GenerateData.cleanup_old_html_files script_dir now_cleanup fs);
      Completes fs
  end.

(** A dict of items by URL: each item is under the key of its URL,
    and no key comes twice. *)
Definition filed_by_url (d : list (json * json)) : Prop :=
  Forall (fun kv => hashable (fst kv) = true /\ url_of (snd kv) = Some (key_norm (fst kv))) d /\
  NoDup ((fun kv => key_norm (fst kv)) <$> d).

(** The keys of [keys] that are not in [seen], each once, in the order
    in which they first come. *)
Fixpoint first_occurrences (seen keys : list json) : list json :=
  match keys with
  | [] => []
  | k :: r =>
      if existsb (key_eqb k) seen then first_occurrences seen r
      else k :: first_occurrences (k :: seen) r
  end.

(** The price the response gives for an item, or the default. *)
Definition raw_price (unknown : string) (item : json) : completion json :=
  prices ← py_get item "prices" (JObj []);
  py_get prices "price" (JStr unknown).

(** The value of [key] in a dict, or [default]. *)
Definition dict_get_default (key : string) (default : json) (kvs : list (string * json)) : json :=
  match dict_get key kvs with
  | Some x => x
  | None => default
  end.

(** An item as [get_dmm_items] builds it. *)
Definition pooled_item (title url image price : json) : json :=
  JObj [("title", title); ("url", url); ("image", image); ("price", price);
        ("source", JStr "DMM")].

(** A response with three items, two of them with the same URL. *)
Definition demo_response_item (title url price : string) : json :=
  JObj [("title", JStr title); ("URL", JStr url);
        ("imageURL", JObj [("small", JStr (url +:+ "/s.jpg")); ("large", JStr (url +:+ "/l.jpg"))]);
        ("prices", JObj [("price", JStr price)])].

Definition demo_response : json :=
  JObj [("result",
         JObj [("status", JNum 200);
               ("items",
                JList [demo_response_item "leash" "https://shop.test/leash" "1980";
                       demo_response_item "bowl" "https://shop.test/bowl" "550~";
                       demo_response_item "leash, red" "https://shop.test/leash" "2200"])])].

(** The items of the sample response, with the first revision's image. *)
Definition demo_pool : list json :=
  [pooled_item (JStr "leash, red") (JStr "https://shop.test/leash")
     (JStr "https://shop.test/leash/l.jpg") (JStr "2200");
   pooled_item (JStr "bowl") (JStr "https://shop.test/bowl")
     (JStr "https://shop.test/bowl/l.jpg") (JStr "550~")].

(** The files the data step leaves on the sample files. *)
Definition demo_saved : filesystem :=
  filter (janitor_keeps (cutoff demo_now) demo_dir)
    (<[(demo_dir, "current_week.json") := JsonText.dumps (JList (rev demo_pool))]>
       (<[history_path demo_dir :=
            JsonText.dumps (JList (today_entry demo_now (rev demo_pool)
                                     :: survivors demo_now demo_log))]> demo_fs)).

(** ** The pages: prices, descriptions, the sidebar *)

(** The decimal digits of a natural number, and [str(n)]. *)
Definition digits_of (n : Z) : string := NilZero.string_of_uint (N.to_uint (Z.to_N n)).

Definition py_str_int (n : Z) : outcome string :=
  if (max_str_digits <? String.length (digits_of (Z.abs n)))%nat then Raises ValueError
  else Returns ((if n <? 0 then "-" else EmptyString) +:+ digits_of (Z.abs n)).

(** ** The codec under the interpreter's limit

    From Python 3.11 on, [int] and [str] refuse more than 4300 digits
    with [ValueError]; [json.load] raises it when it comes to such a
    literal, and [json.dump] when it comes to such an integer. *)
Fixpoint has_long_int (v : json) : bool :=
  match v with
  | JNum n => (max_str_digits <? String.length (digits_of (Z.abs n)))%nat
  | JList l => existsb has_long_int l
  | JObj kvs => existsb (fun kv => has_long_int (snd kv)) kvs
  | JNull | JBool _ | JStr _ => false
  end.

Definition limited_codec : JsonCodec :=
  {| json_loads := fun text =>
       match JsonText.decode (Some max_str_digits) text with
       | JsonText.Scanned v => Decoded v
       | JsonText.Malformed => JSONDecodeError
       | JsonText.Refuses e => DecoderRaises e
       end;
     json_dumps := fun v =>
       if has_long_int v then EncoderRaises ValueError else Encoded (JsonText.dumps v) |}.

(** A history file that breaks off inside a long number: an opening
    bracket and 4301 digits. *)
Definition demo_long_literal : string :=
  String "[" (string_of_list_ascii (replicate 4301 "1"%char)).

(** A comma before every group of three digits, counted from the
    right. *)
Fixpoint group_thousands (digits : string) : string :=
  match digits with
  | EmptyString => EmptyString
  | String c r =>
      String c (if (0 <? String.length r)%nat && (String.length r mod 3 =? 0)%nat
                then String "," (group_thousands r)
                else group_thousands r)
  end.

(** [f"{n:,}"] *)
Definition format_thousands (n : Z) : outcome string :=
  if (max_str_digits <? String.length (digits_of (Z.abs n)))%nat then Raises ValueError
  else Returns ((if n <? 0 then "-" else EmptyString) +:+ group_thousands (digits_of (Z.abs n))).

(** The price a page shows for an item; [price_unknown] is the literal
    ['価格不明'] and [yen] the literal ["円"].
[[
  formatted_price = item.get('price', '価格不明')
  try:
      price_value = int(item['price'])
      formatted_price = f"{price_value:,}円"
  except (ValueError, TypeError):
      pass
]]
*)
Definition formatted_price (price_unknown yen : string) (item : json) : completion json :=
  formatted_price ← py_get item "price" (JStr price_unknown);
  let attempt :=
    price ← py_getitem item "price";
    price_value ← py_int_of price;
    text ← format_thousands price_value;
    Returns (JStr (text +:+ yen)) in
  match attempt with
  | Returns formatted => Completes formatted
  | Raises ValueError | Raises TypeError => Completes formatted_price
  | Raises e => Throws (Builtin e)
  | Starved => Stalls
  end.

(** What the pages leave to the interpreter: the text [format] gives
    for a list or a dict (their [repr]), and the exception a slice of a
    dict raises ([TypeError] up to Python 3.11, [KeyError] from 3.12
    on). *)
Class Interpreter := {
  repr_container : json -> outcome string;
  dict_slice_error : exn
}.

(** [format(v)], the conversion an f-string applies to a value. *)
Definition py_format `{Interpreter} (v : json) : outcome string :=
  match v with
  | JStr s => Returns s
  | JNum n => py_str_int n
  | JBool true => Returns "True"
  | JBool false => Returns "False"
  | JNull => Returns "None"
  | JList _ | JObj _ => repr_container v
  end.

(** [v[:n]] *)
Definition py_slice_to `{Interpreter} (n : nat) (v : json) : outcome json :=
  match v with
  | JList l => Returns (JList (take n l))
  | JStr s => Returns (JStr (String.substring 0 n s))
  | JObj _ => Raises dict_slice_error
  | JNull | JBool _ | JNum _ => Raises TypeError
  end.

(** [len(v)] *)
Definition py_len (v : json) : outcome Z :=
  match v with
  | JList l => Returns (Z.of_nat (length l))
  | JStr s => Returns (Z.of_nat (String.length s))
  | JObj kvs => Returns (Z.of_nat (length (dict_keys [] kvs)))
  | JNull | JBool _ | JNum _ => Raises TypeError
  end.

(** [s.replace(c, '')] for a character [c]. *)
Fixpoint remove_char (c : ascii) (s : string) : string :=
  match s with
  | EmptyString => EmptyString
  | String a r => if Ascii.eqb a c then remove_char c r else String a (remove_char c r)
  end.

Definition quote : string := String "034" EmptyString.
Definition newline : string := String "010" EmptyString.

(** The providers of descriptions. *)
Inductive provider := ChatGPT | Gemini.

(** [generate_description(title)], as both copies in [history.py] have
    it: the description, and the providers tried, in order.
    [openai_client] and [GOOGLE_API_KEY] are the truth values of the
    two guards; [ask p title] is the text a provider gives for the
    title, or [None] when anything in its [try] block raises;
    [placeholder] is the literal returned at the end.  The prompt is
    formatted before the first [try].  (The copy in [generate_html.py]
    guards the second block by [gemini_ready] instead, which is set
    when the key is there and configuring the library raised
    nothing.)
[[
  prompt = f"... {title} ..."
  if openai_client:
      try:
          res = openai_client.chat.completions.create(...)
          return res.choices[0].message.content.strip()
      except Exception as e:
          print(...)
  if GOOGLE_API_KEY:
      try:
          gemini_client = GeminiClient(api_key=GOOGLE_API_KEY)
          res = gemini_client.models.generate_content(...)
          return res.text.strip()
      except Exception as e:
          print(...)
  return "説明文を生成できませんでした。"
]]
*)
Definition generate_description `{Interpreter} (placeholder : string)
    (openai_client GOOGLE_API_KEY : bool) (ask : provider -> json -> option string)
    (title : json) : outcome (string * list provider) :=
  _ ← py_format title;
  let first := if openai_client then ask ChatGPT title else None in
  let tried := if openai_client then [ChatGPT] else [] in
  match first with
  | Some content => Returns (py_strip content, tried)
  | None =>
      if GOOGLE_API_KEY
      then match ask Gemini title with
           | Some text => Returns (py_strip text, tried ++ [Gemini])
           | None => Returns (placeholder, tried ++ [Gemini])
           end
      else Returns (placeholder, tried)
  end.

(** The providers whose guard holds, in the order of the code, and
    the answer of the first of [providers] that gives one, with the
    providers asked up to it: what the comments of
    [generate_description] announce (ChatGPT first, Gemini when OpenAI
    fails or is not available). *)
Definition configured (openai_client GOOGLE_API_KEY : bool) : list provider :=
  (if openai_client then [ChatGPT] else []) ++ (if GOOGLE_API_KEY then [Gemini] else []).

Fixpoint first_answer (ask : provider -> option string) (providers : list provider)
  : option string * list provider :=
  match providers with
  | [] => (None, [])
  | p :: rest =>
      match ask p with
      | Some text => (Some text, [p])
      | None => let '(answer, asked) := first_answer ask rest in (answer, p :: asked)
      end
  end.

(** The literals of the sidebar that are not ASCII: the heading
    [過去のオススメ], the text before and after the number of records
    not shown ([... 他 ] and [日分]), the text for an empty history
    ([履歴無し]), and the blanks in front of a line, on which the two
    copies of the function differ: two spaces in the copy of
    [generate_data.py], a space and a no-break space (U+00A0) in the
    copy of the page step. *)
Record sidebar_labels := {
  label_heading : string;
  label_more_before : string;
  label_more_after : string;
  label_none : string;
  label_indent : string
}.

(** One line of the sidebar; the blanks in front are [label_indent].
[[
  f'  <p class="history-date"><a href="{raw_filename}">{entry["date"]}</a></p>\n'
]]
*)
Definition link_line (labels : sidebar_labels) (href text : string) : string :=
  label_indent labels +:+ "<p class=" +:+ quote +:+ "history-date" +:+ quote +:+ "><a href="
  +:+ quote +:+ href +:+ quote +:+ ">" +:+ text +:+ "</a></p>" +:+ newline.

(** The line for the records that are not shown.
[[
  f'  <p class="history-date history-more">... 他 {len(history) - display_limit}日分</p>\n'
]]
*)
Definition more_line (labels : sidebar_labels) (count : string) : string :=
  label_indent labels +:+ "<p class=" +:+ quote +:+ "history-date history-more" +:+ quote +:+ ">"
  +:+ label_more_before labels +:+ count +:+ label_more_after labels +:+ "</p>" +:+ newline.

(** The sidebar up to its lines, and its end. *)
Definition sidebar_open (labels : sidebar_labels) : string :=
  "<div class=" +:+ quote +:+ "history-list" +:+ quote +:+ ">" +:+ newline
  +:+ "<h3>" +:+ label_heading labels +:+ "</h3>" +:+ newline.

Definition sidebar_close : string := "</div>" +:+ newline.

Fixpoint join (lines : list string) : string :=
  match lines with
  | [] => EmptyString
  | line :: rest => line +:+ join rest
  end.

(** The body of the loop of the sidebar.
[[
  raw_filename = entry.get("filename", f"recommend_{entry['date'].replace('/', '')}.html")
  history_html += f'  <p class="history-date"><a href="{raw_filename}">{entry["date"]}</a></p>\n'
]]
    The method [get] is looked up first, then the default is built,
    whether the record has a [filename] or not. *)
Definition history_link `{Interpreter} (labels : sidebar_labels) (entry : json)
  : completion string :=
  match entry with
  | JObj _ =>
      date ← of_outcome (py_getitem entry "date");
      default ← match date with
                | JStr s => Completes (JStr ("recommend_" +:+ remove_char "/" s +:+ ".html"))
                | _ => Throws AttributeError
                end;
      raw_filename ← py_get entry "filename" default;
      href ← of_outcome (py_format raw_filename);
      date ← of_outcome (py_getitem entry "date");
      text ← of_outcome (py_format date);
      Completes (link_line labels href text)
  | _ => Throws AttributeError
  end.

(** [generate_history_html()] of [generate_data.py] and of the page
    step, which differ in [label_indent] alone. *)
Definition generate_history_html `{JsonCodec} `{Interpreter} (labels : sidebar_labels)
    (SCRIPT_DIR : string) (fs : filesystem) : completion string :=
  let history := load_history_or_empty fs (os_path_join SCRIPT_DIR "history.json") in
  let history_html := sidebar_open labels in
  if py_truthy history
  then
    shown ← of_outcome (py_slice_to 30 history);
    entries ← of_outcome (py_iter shown);
    lines ← for_each (history_link labels) entries;
    let history_html := history_html +:+ join lines in
    count ← of_outcome (py_len history);
    history_html ←
      (if 30 <? count
       then text ← of_outcome (py_str_int (count - 30));
            Completes (history_html +:+ more_line labels text)
       else Completes history_html);
    Completes (history_html +:+ sidebar_close)
  else Completes (history_html +:+ "<p>" +:+ label_none labels +:+ "</p>" +:+ sidebar_close).

(** An interpreter for the samples: containers print as [...]. *)
Definition demo_interpreter : Interpreter :=
  {| repr_container := fun _ => Returns "..."; dict_slice_error := TypeError |}.

Definition demo_labels : sidebar_labels :=
  {| label_heading := "Past picks"; label_more_before := "... and ";
     label_more_after := " more"; label_none := "none"; label_indent := "  " |}.

(** The same with the blanks of the copy of the page step. *)
Definition demo_labels_page : sidebar_labels :=
  {| label_heading := "Past picks"; label_more_before := "... and ";
     label_more_after := " more"; label_none := "none";
     label_indent := String " " (String "160" EmptyString) |}.

(** The [filename] of a record, when it has one and it is a string. *)
Definition record_filename (e : json) : option string :=
  match py_getitem e "filename" with
  | Returns (JStr f) => Some f
  | _ => None
  end.

(** The record has a string [date], and its [filename] is a string or
    is absent. *)
Definition page_record (e : json) : Prop :=
  is_Some (record_date e) /\
  (is_Some (record_filename e) \/ py_getitem e "filename" = Raises KeyError).

(** The line of the sidebar for a page record: the link goes to the
    [filename], or to the name made from the [date]. *)
Definition record_line (labels : sidebar_labels) (e : json) : string :=
  let date := default EmptyString (record_date e) in
  link_line labels
    (default ("recommend_" +:+ remove_char "/" date +:+ ".html") (record_filename e))
    date.

(** The text of a page around the values put into it: the page up to
    the list of items, from the title and the sidebar; the block of an
    item, from the texts of its URL, image, title and price and from
    its description; the end of the page; and the literals ['価格不明'],
    ["円"] and ["説明文を生成できませんでした。"]. *)
Record page_template := {
  page_head : string -> string -> string;
  item_block : string -> string -> string -> string -> string -> string;
  page_tail : string;
  text_price_unknown : string;
  text_yen : string;
  text_placeholder : string
}.

(** One turn of the loop of [generate_daily_html]: the block of the
    item and the providers tried for its description.  The price is
    worked out first, then the description of [item['title']] is asked
    for, then the f-string of the block takes its fields in the order
    of the template: [item['url']], [item['image']], [item['title']]
    (twice), the price, the description, and [item['url']] again. *)
Definition item_html `{Interpreter} (template : page_template)
    (openai_client GOOGLE_API_KEY : bool) (ask : provider -> json -> option string)
    (item : json) : completion (string * list provider) :=
  price ← formatted_price (text_price_unknown template) (text_yen template) item;
  title ← of_outcome (py_getitem item "title");
  '(desc, tried) ← of_outcome (generate_description (text_placeholder template)
                                 openai_client GOOGLE_API_KEY ask title);
  url ← of_outcome (py_getitem item "url");
  url_text ← of_outcome (py_format url);
  image ← of_outcome (py_getitem item "image");
  image_text ← of_outcome (py_format image);
  title_text ← of_outcome (py_format title);
  price_text ← of_outcome (py_format price);
  Completes (item_block template url_text image_text title_text price_text desc, tried).

(** The loop; [ask i] answers for the item at position [i]. *)
Fixpoint items_html `{Interpreter} (template : page_template)
    (openai_client GOOGLE_API_KEY : bool) (ask : nat -> provider -> json -> option string)
    (position : nat) (items : list json) : completion (string * list (list provider)) :=
  match items with
  | [] => Completes (EmptyString, [])
  | item :: rest =>
      '(block, tried) ← item_html template openai_client GOOGLE_API_KEY (ask position) item;
      '(blocks, trieds) ← items_html template openai_client GOOGLE_API_KEY ask (S position) rest;
      Completes (block +:+ blocks, tried :: trieds)
  end.

(** [generate_daily_html(items, page_title, filename_with_path,
    history_sidebar)] of [generate_data.py]: the files after the call,
    and the providers tried for each item.  The file is written once
    the whole text is there. *)
Definition generate_daily_html `{Interpreter} (template : page_template)
    (openai_client GOOGLE_API_KEY : bool) (ask : nat -> provider -> json -> option string)
    (items : json) (page_title : string) (filename_with_path : string * string)
    (history_sidebar : string) (fs : filesystem)
  : completion (filesystem * list (list provider)) :=
  let html_content := page_head template page_title history_sidebar in
  entries ← of_outcome (py_iter items);
  '(blocks, trieds) ← items_html template openai_client GOOGLE_API_KEY ask 0 entries;
  let html_content := html_content +:+ blocks +:+ page_tail template in
  Completes (<[filename_with_path := html_content]> fs, trieds).

Definition demo_template : page_template :=
  {| page_head := fun title sidebar => "<h1>" +:+ title +:+ "</h1>" +:+ sidebar +:+ "<ul>";
     item_block := fun url image title price desc =>
       "<li>" +:+ url +:+ "|" +:+ image +:+ "|" +:+ title +:+ "|" +:+ price +:+ "|" +:+ desc
       +:+ "</li>";
     page_tail := "</ul>";
     text_price_unknown := "n/a";
     text_yen := " yen";
     text_placeholder := "(no description)" |}.

(** ChatGPT fails for the first item of a page and answers for the
    others; Gemini always answers. *)
Definition demo_ask (position : nat) (p : provider) (title : json) : option string :=
  match p, position with
  | ChatGPT, O => None
  | ChatGPT, _ => Some " A fine thing. "
  | Gemini, _ => Some "Pets love it."
  end.


(** Successive readings of the clock: each one a datetime after
    January of the year 1, on the day of the reading before or later. *)
Fixpoint clocks_in_order (before : datetime.t) (calls : list call) : Prop :=
  match calls with
  | [] => True
  | c :: rest =>
      datetime.wf (call_now c) = true /\
      30 < datetime.toordinal (call_now c) /\
      datetime.toordinal before <= datetime.toordinal (call_now c) /\
      clocks_in_order (call_now c) rest
  end.

(** ** Tactics *)

(** Case analysis on an integer known to lie in a small range. *)
Ltac enum_Z x lo hi :=
  let rec go n k :=
    lazymatch k with
    | O => exfalso; lia
    | S ?k' =>
        let E := fresh "E" in
        destruct (Z.eq_dec x n) as [E|E];
        [subst x | let n' := eval compute in (n + 1) in go n' k']
    end in
  let cnt := eval compute in (Z.to_nat (hi - lo + 1)) in
  go lo cnt.

(** * Properties *)

(** ** The library models on sample inputs *)

Example strptime_plain :
  strptime "2025/10/21" "%Y/%m/%d" = Returns (datetime.midnight 2025 10 21).
Proof. reflexivity. Qed.

Example strptime_unpadded :
  strptime "2025/1/5" "%Y/%m/%d" = Returns (datetime.midnight 2025 1 5).
Proof. reflexivity. Qed.

Example strptime_february_30 : strptime "2025/02/30" "%Y/%m/%d" = Raises ValueError.
Proof. reflexivity. Qed.

Example strptime_trailing : strptime "2025/10/21x" "%Y/%m/%d" = Raises ValueError.
Proof. reflexivity. Qed.

Example strptime_compact_month_13 : strptime "20251301" "%Y%m%d" = Raises ValueError.
Proof. reflexivity. Qed.

Example strftime_file_name :
  strftime (datetime.mk 2025 10 21 9 30 0 0) "recommend_%Y%m%d.html"
  = "recommend_20251021.html".
Proof. reflexivity. Qed.

Example date_pattern_match_plain :
  date_pattern_match "recommend_20251021.html" = Some "20251021".
Proof. reflexivity. Qed.

Example date_pattern_match_suffix :
  date_pattern_match "recommend_20251021.html.bak" = Some "20251021".
Proof. reflexivity. Qed.

Example date_pattern_match_other : date_pattern_match "index.html" = None.
Proof. reflexivity. Qed.

Example random_sample_small :
  random_sample ["a"; "b"; "c"] 3 [5; 0; 7]%nat = Returns (["c"; "a"; "b"], []).
Proof. reflexivity. Qed.

Example ceil_log4_18 : ceil_log4 18 = 3.
Proof. reflexivity. Qed.

Example loads_sample :
  JsonText.loads " [ 1, -20, null, [true, {}] ] "
  = Some (JList [JNum 1; JNum (-20); JNull; JList [JBool true; JObj []]]).
Proof. reflexivity. Qed.

Example loads_truncated : JsonText.loads "[1, 2" = None.
Proof. reflexivity. Qed.

Example dumps_sample :
  JsonText.loads (JsonText.dumps (JList [JObj [("date", JStr "2025/10/21"); ("items", JList [])]]))
  = Some (JList [JObj [("date", JStr "2025/10/21"); ("items", JList [])]]).
Proof. reflexivity. Qed.

(** ** Digits and fixed-width numbers *)

Lemma is_digit_digit_char k : 0 <= k < 10 -> is_digit (digit_char k) = true.
Proof. intros Hk. enum_Z k 0 9; reflexivity. Qed.

Lemma digit_val_digit_char k : 0 <= k < 10 -> digit_val (digit_char k) = k.
Proof. intros Hk. enum_Z k 0 9; reflexivity. Qed.

Lemma is_space_digit_char k : 0 <= k < 10 -> is_space (digit_char k) = false.
Proof. intros Hk. enum_Z k 0 9; reflexivity. Qed.

Lemma zero_pad_2 n :
  zero_pad 2 n = String (digit_char (n / 10 mod 10)) (String (digit_char (n mod 10)) EmptyString).
Proof. reflexivity. Qed.

Lemma zero_pad_4 n :
  zero_pad 4 n =
  String (digit_char (n / 10 / 10 / 10 mod 10))
    (String (digit_char (n / 10 / 10 mod 10))
       (String (digit_char (n / 10 mod 10))
          (String (digit_char (n mod 10)) EmptyString))).
Proof. reflexivity. Qed.

Lemma append_String a s r : String a s +:+ r = String a (s +:+ r).
Proof. reflexivity. Qed.

Lemma append_Empty r : EmptyString +:+ r = r.
Proof. reflexivity. Qed.

Lemma append_Empty_r s : s +:+ EmptyString = s.
Proof. induction s as [|a s IH]; [reflexivity|]. rewrite append_String, IH. reflexivity. Qed.

Lemma append_assoc s1 s2 s3 : (s1 +:+ s2) +:+ s3 = s1 +:+ (s2 +:+ s3).
Proof.
  induction s1 as [|a s1 IH]; [reflexivity|].
  rewrite !append_String, IH. reflexivity.
Qed.

Lemma py_int_zero_pad_2 n : 0 <= n < 100 -> py_int (zero_pad 2 n) = n.
Proof.
  intros Hn. rewrite zero_pad_2. unfold py_int. cbn [lstrip].
  assert (Ha : 0 <= n / 10 mod 10 < 10) by (apply Z.mod_pos_bound; lia).
  assert (Hb : 0 <= n mod 10 < 10) by (apply Z.mod_pos_bound; lia).
  rewrite (is_space_digit_char _ Ha). cbn [int_digits].
  rewrite !digit_val_digit_char by assumption.
  Z.to_euclidean_division_equations. lia.
Qed.

Lemma py_int_zero_pad_4 n : 0 <= n < 10000 -> py_int (zero_pad 4 n) = n.
Proof.
  intros Hn. rewrite zero_pad_4. unfold py_int. cbn [lstrip].
  assert (Ha : 0 <= n / 10 / 10 / 10 mod 10 < 10) by (apply Z.mod_pos_bound; lia).
  assert (Hb : 0 <= n / 10 / 10 mod 10 < 10) by (apply Z.mod_pos_bound; lia).
  assert (Hc : 0 <= n / 10 mod 10 < 10) by (apply Z.mod_pos_bound; lia).
  assert (Hd : 0 <= n mod 10 < 10) by (apply Z.mod_pos_bound; lia).
  rewrite (is_space_digit_char _ Ha). cbn [int_digits].
  rewrite !digit_val_digit_char by assumption.
  Z.to_euclidean_division_equations. lia.
Qed.

Lemma re_Y_zero_pad y r :
  re_Y (zero_pad 4 y +:+ r) = [(zero_pad 4 y, r)].
Proof.
  rewrite zero_pad_4, !append_String, append_Empty. cbn [re_Y].
  rewrite !is_digit_digit_char by (apply Z.mod_pos_bound; lia).
  reflexivity.
Qed.

Lemma re_m_zero_pad m r :
  1 <= m <= 12 -> exists tl, re_m (zero_pad 2 m +:+ r) = (zero_pad 2 m, r) :: tl.
Proof. intros Hm. enum_Z m 1 12; eexists; reflexivity. Qed.

Lemma re_d_zero_pad d r :
  1 <= d <= 31 -> exists tl, re_d (zero_pad 2 d +:+ r) = (zero_pad 2 d, r) :: tl.
Proof. intros Hd. enum_Z d 1 31; eexists; reflexivity. Qed.

Lemma days_in_month_le_31 y m : 1 <= m <= 12 -> datetime._days_in_month y m <= 31.
Proof.
  intros Hm. unfold datetime._days_in_month.
  destruct (_ && _); [lia|]. enum_Z m 1 12; cbv [datetime._DAYS_IN_MONTH]; simpl; lia.
Qed.

Lemma check_date_fields_bounds y m d :
  datetime.check_date_fields y m d = true ->
  1 <= y <= 9999 /\ 1 <= m <= 12 /\ 1 <= d <= 31 /\ d <= datetime._days_in_month y m.
Proof.
  unfold datetime.check_date_fields, datetime.MINYEAR, datetime.MAXYEAR.
  rewrite !andb_true_iff, !Z.leb_le. intros [[[[[? ?] ?] ?] ?] ?].
  pose proof (days_in_month_le_31 y m). lia.
Qed.

Lemma list_bind_cons {A B} (f : A -> list B) x l : (x :: l) ≫= f = f x ++ (l ≫= f).
Proof. reflexivity. Qed.

(** Parsing the slash-separated form of a calendar date gives the date
    back. *)
Lemma strptime_strftime_slashes dt :
  datetime.check_date_fields (datetime.year dt) (datetime.month dt) (datetime.day dt) = true ->
  strptime (strftime dt "%Y/%m/%d") "%Y/%m/%d" = Returns (datetime.date dt).
Proof.
  intros Hok. destruct (check_date_fields_bounds _ _ _ Hok) as (Hy & Hm & Hd & _).
  unfold strptime, strftime.
  cbn [directives strftime_directives re_match].
  rewrite re_Y_zero_pad, list_bind_cons. cbn [mbind list_bind app].
  rewrite Ascii.eqb_refl.
  destruct (re_m_zero_pad (datetime.month dt) (String "/" (zero_pad 2 (datetime.day dt) +:+ EmptyString)) Hm) as [tl1 E1].
  destruct (re_d_zero_pad (datetime.day dt) EmptyString Hd) as [tl2 E2].
  rewrite E1, list_bind_cons. rewrite Ascii.eqb_refl.
  rewrite E2, list_bind_cons. cbn [re_match app found_Y found_m found_d].
  rewrite py_int_zero_pad_4, !py_int_zero_pad_2 by lia.
  rewrite Hok. reflexivity.
Qed.

(** Parsing the compact form of a calendar date gives the date. *)
Lemma strptime_compact y m d :
  datetime.check_date_fields y m d = true ->
  strptime (zero_pad 4 y +:+ zero_pad 2 m +:+ zero_pad 2 d) "%Y%m%d"
  = Returns (datetime.midnight y m d).
Proof.
  intros Hok. destruct (check_date_fields_bounds _ _ _ Hok) as (Hy & Hm & Hd & _).
  unfold strptime. cbn [directives re_match].
  rewrite re_Y_zero_pad, list_bind_cons.
  destruct (re_m_zero_pad m (zero_pad 2 d) Hm) as [tl1 E1].
  destruct (re_d_zero_pad d EmptyString Hd) as [tl2 E2].
  rewrite append_Empty_r in E2.
  rewrite E1, list_bind_cons, E2, list_bind_cons.
  cbn [re_match app found_Y found_m found_d].
  rewrite py_int_zero_pad_4, !py_int_zero_pad_2 by lia.
  rewrite Hok. reflexivity.
Qed.

Lemma string_length_append s r :
  String.length (s +:+ r) = (String.length s + String.length r)%nat.
Proof.
  induction s as [|a s IH]; [reflexivity|].
  rewrite append_String. cbn [String.length]. rewrite IH. reflexivity.
Qed.

Lemma all_digits_append s r :
  all_digits (s +:+ r) = all_digits s && all_digits r.
Proof.
  induction s as [|a s IH]; [reflexivity|].
  rewrite append_String. cbn [all_digits]. rewrite IH, andb_assoc. reflexivity.
Qed.

Lemma zero_pad_length w n : String.length (zero_pad w n) = w.
Proof.
  revert n. induction w as [|w IH]; intros n; [reflexivity|].
  cbn [zero_pad]. rewrite string_length_append, IH. cbn. lia.
Qed.

Lemma zero_pad_all_digits w n : all_digits (zero_pad w n) = true.
Proof.
  revert n. induction w as [|w IH]; intros n; [reflexivity|].
  cbn [zero_pad]. rewrite all_digits_append, IH. cbn [all_digits andb].
  rewrite is_digit_digit_char by (apply Z.mod_pos_bound; lia). reflexivity.
Qed.

Lemma take_digits_all s r :
  all_digits s = true -> take_digits (String.length s) (s +:+ r) = Some (s, r).
Proof.
  induction s as [|a s IH]; [reflexivity|].
  cbn [all_digits]. rewrite andb_true_iff. intros [Ha Hs].
  rewrite append_String. cbn [String.length take_digits].
  rewrite Ha, (IH Hs). reflexivity.
Qed.

Lemma take_digits_zero_pad w n r :
  take_digits w (zero_pad w n +:+ r) = Some (zero_pad w n, r).
Proof.
  rewrite <- (zero_pad_length w n) at 1.
  apply take_digits_all, zero_pad_all_digits.
Qed.

(** The name [strftime] gives an artifact matches the janitor's pattern,
    and the group is the compact form of the date. *)
Lemma date_pattern_match_strftime dt :
  date_pattern_match (strftime dt "recommend_%Y%m%d.html")
  = Some (zero_pad 4 (datetime.year dt) +:+ zero_pad 2 (datetime.month dt)
          +:+ zero_pad 2 (datetime.day dt)).
Proof.
  unfold date_pattern_match, strftime.
  cbn [directives strftime_directives strip_prefix Ascii.eqb Bool.eqb mbind option_bind].
  pose (g := zero_pad 4 (datetime.year dt) +:+ zero_pad 2 (datetime.month dt)
             +:+ zero_pad 2 (datetime.day dt)).
  assert (E : zero_pad 4 (datetime.year dt) +:+ zero_pad 2 (datetime.month dt)
              +:+ zero_pad 2 (datetime.day dt) +:+ ".html" = g +:+ ".html")
    by (subst g; rewrite !append_assoc; reflexivity).
  rewrite E. fold g.
  assert (Hg : take_digits 8 (g +:+ ".html") = Some (g, ".html")).
  { replace 8%nat with (String.length g).
    - apply take_digits_all. subst g.
      rewrite !all_digits_append, !zero_pad_all_digits. reflexivity.
    - subst g. rewrite !string_length_append, !zero_pad_length. reflexivity. }
  rewrite Hg. reflexivity.
Qed.

(** ** The prune loop and the same-day filter *)

Lemma strptime_outcome s fmt :
  (exists dt, strptime s fmt = Returns dt) \/ strptime s fmt = Raises ValueError.
Proof.
  unfold strptime. destruct (re_match _ _ _) as [|[f [|c r]] tl]; eauto.
  destruct (datetime.check_date_fields _ _ _); eauto.
Qed.

Lemma sub_days_cutoff now c :
  sub_days now GenerateDataAI.MAX_DAYS = Returns c -> c = cutoff now.
Proof.
  unfold sub_days, cutoff, GenerateDataAI.MAX_DAYS.
  destruct (_ && _); [intros [= <-]; reflexivity|discriminate].
Qed.

Lemma sub_days_returns now :
  30 < datetime.toordinal now <= 3652089 ->
  sub_days now GenerateDataAI.MAX_DAYS = Returns (cutoff now).
Proof.
  intros H. unfold sub_days, cutoff, GenerateDataAI.MAX_DAYS, datetime._MAXORDINAL.
  destruct (_ && _) eqn:E; [reflexivity|].
  apply andb_false_iff in E as [E|E]; [apply Z.ltb_ge in E|apply Z.leb_gt in E]; lia.
Qed.

Module PruneFacts.
Import GenerateDataAI.

(** What the loop body decides for one entry. *)
Lemma prune_cons c e rest :
  prune c (e :: rest) =
  match record_date e with
  | Some _ => l ← prune c rest; mret (if retained c e then e :: l else l)
  | None =>
      match py_getitem e "date" with
      | Returns _ => Raises TypeError
      | Raises x => Raises x
      | Starved => Starved
      end
  end.
Proof.
  cbn [prune]. unfold retained, record_instant, record_date.
  destruct e as [| | | | |kvs]; cbn; try reflexivity.
  destruct (dict_get "date" kvs) as [d|]; cbn; [|reflexivity].
  destruct d; cbn; try reflexivity.
  destruct (strptime_outcome s "%Y/%m/%d") as [[dt ->]| ->]; cbn; reflexivity.
Qed.

Lemma prune_returns c l l' :
  prune c l = Returns l' ->
  l' = List.filter (retained c) l /\ Forall (fun e => is_Some (record_date e)) l.
Proof.
  revert l'. induction l as [|e rest IH]; intros l'.
  - intros [= <-]. split; constructor.
  - rewrite prune_cons. destruct (record_date e) as [s|] eqn:Ed.
    + destruct (prune c rest) as [l0| |]; cbn; try discriminate.
      intros [= <-]. destruct (IH l0 eq_refl) as [-> Hwf].
      split; [|constructor; [rewrite Ed; eauto|exact Hwf]].
      cbn [List.filter]. destruct (retained c e); reflexivity.
    + destruct (py_getitem e "date"); discriminate.
Qed.

Lemma prune_well_formed c l :
  Forall (fun e => is_Some (record_date e)) l ->
  prune c l = Returns (List.filter (retained c) l).
Proof.
  induction 1 as [|e rest [s Hs] _ IH]; [reflexivity|].
  rewrite prune_cons, Hs, IH. cbn. destruct (retained c e); reflexivity.
Qed.

Lemma record_date_getitem e s :
  record_date e = Some s -> py_getitem e "date" = Returns (JStr s).
Proof.
  unfold record_date. destruct (py_getitem e "date") as [d| |]; try discriminate.
  destruct d; try discriminate. intros [= ->]. reflexivity.
Qed.

Lemma drop_today_well_formed today l :
  Forall (fun e => is_Some (record_date e)) l ->
  drop_today today l = Returns (List.filter (fun e => negb (dated today e)) l).
Proof.
  induction 1 as [|e rest [s Hs] _ IH]; [reflexivity|].
  cbn [drop_today List.filter]. rewrite (record_date_getitem _ _ Hs), IH. cbn.
  unfold dated. rewrite Hs. destruct (String.eqb s today); reflexivity.
Qed.

End PruneFacts.

Lemma filter_filter {A} (f g : A -> bool) l :
  List.filter g (List.filter f l) = List.filter (fun x => f x && g x) l.
Proof.
  induction l as [|x l IH]; [reflexivity|].
  cbn [List.filter]. destruct (f x); cbn [List.filter andb]; rewrite IH; reflexivity.
Qed.

Lemma Forall_filter_keep {A} (P : A -> Prop) (f : A -> bool) l :
  Forall P l -> Forall P (List.filter f l).
Proof.
  induction 1 as [|x l Hx _ IH]; [constructor|].
  cbn [List.filter]. destruct (f x); [constructor|]; assumption.
Qed.

(** What a run of the later [update_history] that returns has done:
    it has iterated over the loaded history, drawn the items of the
    day, and written today's record followed by the survivors. *)
Lemma update_history_returns `{C : JsonCodec} dir now draws new_items k fs items fs' :
  GenerateDataAI.update_history dir now draws new_items k fs = Returns (items, fs') ->
  exists entries,
    history_entries fs (history_path dir) = Returns entries /\
    Forall (fun e => is_Some (record_date e)) entries /\
    GenerateDataAI.sample_display_items new_items k draws = Returns items /\
    sub_days now 30 = Returns (cutoff now) /\
    write_json (history_path dir) (JList (today_entry now items :: survivors now entries)) fs
    = Returns fs'.
Proof.
  unfold GenerateDataAI.update_history, history_entries, os_path_join,
    GenerateDataAI.HISTORY_FILE_NAME.
  fold (history_path dir).
  destruct (load_history fs (history_path dir)) as [history| |]; cbn; try discriminate.
  destruct (sub_days now GenerateDataAI.MAX_DAYS) as [c| |] eqn:Ec; cbn; try discriminate.
  apply sub_days_cutoff in Ec as Hc. subst c.
  destruct (py_iter history) as [entries| |]; cbn; try discriminate.
  destruct (GenerateDataAI.prune _ entries) as [kept| |] eqn:Ep; cbn; try discriminate.
  apply PruneFacts.prune_returns in Ep as [-> Hwf].
  destruct (GenerateDataAI.sample_display_items _ _ _) as [its| |]; cbn; try discriminate.
  rewrite PruneFacts.drop_today_well_formed by (apply Forall_filter_keep, Hwf). cbn.
  rewrite filter_filter. fold (survivors now entries). fold (today_entry now its).
  destruct (write_json _ _ fs) as [fs1| |] eqn:Ew; cbn; try discriminate.
  intros [= <- <-]. exists entries. repeat split; assumption.
Qed.

(** Conversely, on a log of records that each carry a string [date],
    with the clock past January of the year 1 and items drawn, the run
    returns. *)
Lemma update_history_well_formed `{C : JsonCodec} dir now draws new_items k fs entries items :
  history_entries fs (history_path dir) = Returns entries ->
  Forall (fun e => is_Some (record_date e)) entries ->
  GenerateDataAI.sample_display_items new_items k draws = Returns items ->
  30 < datetime.toordinal now <= 3652089 ->
  GenerateDataAI.update_history dir now draws new_items k fs =
  fs' ← write_json (history_path dir)
          (JList (today_entry now items :: survivors now entries)) fs;
  mret (items, fs').
Proof.
  intros Hit Hwf Hs Hnow.
  unfold GenerateDataAI.update_history, os_path_join, GenerateDataAI.HISTORY_FILE_NAME.
  fold (history_path dir). unfold history_entries in Hit.
  destruct (load_history fs (history_path dir)) as [history| |]; cbn in Hit; try discriminate.
  cbn. rewrite (sub_days_returns now Hnow). cbn. rewrite Hit. cbn.
  rewrite (PruneFacts.prune_well_formed _ _ Hwf). cbn. rewrite Hs. cbn.
  rewrite PruneFacts.drop_today_well_formed by (apply Forall_filter_keep, Hwf). cbn.
  rewrite filter_filter. reflexivity.
Qed.

(** ** The reference codec decodes what it encodes *)

Lemma json_ind' (P : json -> Prop) :
  P JNull -> (forall b, P (JBool b)) -> (forall n, P (JNum n)) -> (forall s, P (JStr s)) ->
  (forall l, Forall P l -> P (JList l)) ->
  (forall kvs, Forall (fun kv => P (snd kv)) kvs -> P (JObj kvs)) ->
  forall v, P v.
Proof.
  intros Hnull Hbool Hnum Hstr Hlist Hobj.
  fix IH 1. intros [ |b|n|s|l|kvs].
  - exact Hnull.
  - apply Hbool.
  - apply Hnum.
  - apply Hstr.
  - apply Hlist. induction l as [|x l IHl]; constructor; [apply IH|exact IHl].
  - apply Hobj. induction kvs as [|[k x] kvs IHl]; constructor; [apply IH|exact IHl].
Qed.

Module JsonTextFacts.
Import JsonText.

Lemma dumps_list x r : dumps (JList (x :: r)) = String "[" (dumps x +:+ dumps_items r).
Proof.
  reflexivity.
Qed.

Lemma dumps_dict k x r :
  dumps (JObj ((k, x) :: r))
  = String "{" (dumps_str k +:+ String ":" (dumps x) +:+ dumps_members r).
Proof.
  reflexivity.
Qed.

Lemma parse_str_escape s rest :
  parse_str (escape s +:+ String dquote rest) = Some (s, rest).
Proof.
  induction s as [|c s IH]; [reflexivity|].
  cbn [escape]. destruct (Ascii.eqb c dquote || Ascii.eqb c backslash) eqn:E.
  - rewrite !append_String. cbn [parse_str].
    change (Ascii.eqb backslash dquote) with false.
    change (Ascii.eqb backslash backslash) with true. cbn iota.
    rewrite E, IH. reflexivity.
  - rewrite append_String. cbn [parse_str].
    apply orb_false_iff in E as [-> ->]. rewrite IH. reflexivity.
Qed.

Lemma span_digits_uint d rest :
  no_digit_ahead rest ->
  span_digits (NilEmpty.string_of_uint d +:+ rest) = (NilEmpty.string_of_uint d, rest).
Proof.
  intros Hrest.
  induction d; cbn [NilEmpty.string_of_uint]; rewrite ?append_String, ?append_Empty;
    try (cbn [span_digits]; change (is_digit _) with true; cbn iota; rewrite IHd; reflexivity).
  destruct rest as [|c r]; [reflexivity|]. cbn in *. rewrite Hrest. reflexivity.
Qed.

Lemma uint_head d :
  d <> Decimal.Nil ->
  exists c t, NilEmpty.string_of_uint d = String c t /\ is_digit c = true.
Proof. destruct d; intros H; try congruence; eexists _, _; split; reflexivity. Qed.

Lemma is_digit_not_minus c : is_digit c = true -> Ascii.eqb c "-" = false.
Proof.
  destruct c as [[] [] [] [] [] [] [] []]; try reflexivity; discriminate.
Qed.

Lemma to_int_text n :
  exists i, Z.to_int n = i /\ i <> Decimal.Pos Decimal.Nil /\ i <> Decimal.Neg Decimal.Nil /\
    match i with
    | Decimal.Pos d | Decimal.Neg d => d <> Decimal.Nil
    end.
Proof.
  exists (Z.to_int n). split; [reflexivity|].
  destruct n as [|p|p]; cbn.
  - repeat split; discriminate.
  - pose proof (Unsigned.to_uint_nonnil p). repeat split; congruence.
  - pose proof (Unsigned.to_uint_nonnil p). repeat split; congruence.
Qed.

Lemma parse_num_dumps n rest :
  no_digit_ahead rest ->
  parse_num None (dumps (JNum n) +:+ rest) = Scanned (n, rest).
Proof.
  intros Hrest. cbn [dumps]. unfold parse_num.
  destruct (to_int_text n) as (i & Ei & Hp & Hn & Hd).
  assert (Hspan : span_number (NilZero.string_of_int i +:+ rest)
                  = (NilZero.string_of_int i, rest)).
  { destruct i as [d|d]; cbn [NilZero.string_of_int].
    - replace (NilZero.string_of_uint d) with (NilEmpty.string_of_uint d)
        by (destruct d; congruence || reflexivity).
      destruct (uint_head d Hd) as (c & t & E & Hc).
      unfold span_number. rewrite <- (span_digits_uint d rest Hrest).
      rewrite E, append_String, (is_digit_not_minus c Hc). reflexivity.
    - replace (NilZero.string_of_uint d) with (NilEmpty.string_of_uint d)
        by (destruct d; congruence || reflexivity).
      rewrite append_String. cbn [span_number]. change (Ascii.eqb "-" "-") with true.
      cbn iota. rewrite (span_digits_uint d rest Hrest). reflexivity. }
  rewrite Ei, Hspan. cbn [refused]. rewrite NilZero.isi by assumption.
  cbn [scan_option mbind scan_bind].
  rewrite <- Ei, DecimalZ.of_to. reflexivity.
Qed.

Lemma value_start_solid c :
  value_start c = true ->
  is_space c = false /\ Ascii.eqb c "]" = false /\ Ascii.eqb c "}" = false.
Proof.
  destruct c as [[] [] [] [] [] [] [] []]; intros H; try discriminate H;
    repeat split; reflexivity.
Qed.

Lemma number_start c :
  is_digit c = true \/ c = "-"%char ->
  is_space c = false /\ Ascii.eqb c "n" = false /\ Ascii.eqb c "t" = false /\
  Ascii.eqb c "f" = false /\ Ascii.eqb c dquote = false /\
  Ascii.eqb c "[" = false /\ Ascii.eqb c "{" = false.
Proof.
  intros [H| ->]; [|repeat split; reflexivity].
  destruct c as [[] [] [] [] [] [] [] []]; try discriminate H; repeat split; reflexivity.
Qed.

Lemma num_head n :
  exists c t, dumps (JNum n) = String c t /\ (is_digit c = true \/ c = "-"%char).
Proof.
  cbn [dumps]. destruct (to_int_text n) as (i & -> & _ & _ & Hd).
  destruct i as [d|d]; cbn [NilZero.string_of_int].
  - replace (NilZero.string_of_uint d) with (NilEmpty.string_of_uint d)
      by (destruct d; congruence || reflexivity).
    destruct (uint_head d Hd) as (c & t & -> & Hc). eauto.
  - eauto.
Qed.

Lemma dumps_head v : exists c t, dumps v = String c t /\ value_start c = true.
Proof.
  destruct v as [ |[]|n|s|[|x l]|[|[k x] l]]; try (eexists _, _; split; reflexivity).
  destruct (num_head n) as (c & t & -> & [H| ->]); eexists _, _; (split; [reflexivity|]).
  - unfold value_start. rewrite H. reflexivity.
  - reflexivity.
Qed.

Lemma lstrip_solid c r : is_space c = false -> lstrip (String c r) = String c r.
Proof. intros H. cbn [lstrip]. rewrite H. reflexivity. Qed.

Lemma lstrip_dumps v rest : lstrip (dumps v +:+ rest) = dumps v +:+ rest.
Proof.
  destruct (dumps_head v) as (c & t & -> & H). rewrite append_String.
  apply lstrip_solid, value_start_solid, H.
Qed.

Lemma dumps_str_append k rest :
  dumps_str k +:+ rest = String dquote (escape k +:+ String dquote rest).
Proof. unfold dumps_str. rewrite append_String, append_assoc, append_String. reflexivity. Qed.

Lemma no_digit_ahead_items r rest : no_digit_ahead (dumps_items r +:+ rest).
Proof. destruct r; reflexivity. Qed.

Lemma no_digit_ahead_members r rest : no_digit_ahead (dumps_members r +:+ rest).
Proof. destruct r as [|[k x] r]; reflexivity. Qed.

Lemma parse_items_dumps r :
  Forall decodes r ->
  forall fuel rest,
    (String.length (dumps_items r) <= fuel)%nat ->
    parse_items None fuel (dumps_items r +:+ rest) = Scanned (r, rest).
Proof.
  induction 1 as [|y r Hy _ IH]; intros fuel rest Hfuel.
  - destruct fuel; [cbn in Hfuel; lia|]. reflexivity.
  - cbn [dumps_items] in *. cbn [String.length] in Hfuel.
    rewrite string_length_append in Hfuel.
    destruct fuel as [|fuel]; [lia|].
    rewrite append_String, append_assoc. cbn [parse_items lstrip].
    change (is_space ",") with false. cbn iota.
    rewrite Hy by (lia || apply no_digit_ahead_items). cbn.
    rewrite IH by lia. reflexivity.
Qed.

Lemma parse_member_dumps fuel k x tail :
  decodes x -> (String.length (dumps x) <= fuel)%nat -> no_digit_ahead tail ->
  parse_member (parse_value None fuel) (dumps_str k +:+ String ":" (dumps x +:+ tail))
  = Scanned ((k, x), tail).
Proof.
  intros Hx Hfuel Htail. unfold parse_member.
  rewrite dumps_str_append. cbn [lstrip].
  change (is_space dquote) with false. cbn iota.
  change (Ascii.eqb dquote dquote) with true. cbn iota.
  rewrite parse_str_escape. cbn [scan_option mbind scan_bind].
  rewrite (lstrip_solid ":" _ eq_refl).
  rewrite Hx by assumption. reflexivity.
Qed.

Lemma parse_members_dumps r :
  Forall (fun kv => decodes (snd kv)) r ->
  forall fuel rest,
    (String.length (dumps_members r) <= fuel)%nat ->
    parse_members None fuel (dumps_members r +:+ rest) = Scanned (r, rest).
Proof.
  induction 1 as [|[k y] r Hy _ IH]; intros fuel rest Hfuel.
  - destruct fuel; [cbn in Hfuel; lia|]. reflexivity.
  - cbn [dumps_members snd] in *. cbn [String.length] in Hfuel.
    rewrite !string_length_append in Hfuel. cbn [String.length] in Hfuel.
    destruct fuel as [|fuel]; [lia|].
    rewrite append_String, !append_assoc, append_String. cbn [parse_members lstrip].
    change (is_space ",") with false. cbn iota.
    rewrite parse_member_dumps by (assumption || lia || apply no_digit_ahead_members). cbn.
    rewrite IH by lia. reflexivity.
Qed.

Lemma parse_value_dumps v : decodes v.
Proof.
  induction v as [ |b|n|s|l IH|kvs IH] using json_ind'; intros fuel rest Hfuel Hrest.
  - destruct fuel; [cbn in Hfuel; lia|]. reflexivity.
  - destruct fuel; [destruct b; cbn in Hfuel; lia|]. destruct b; reflexivity.
  - destruct (num_head n) as (c & t & E & Hc).
    destruct fuel; [rewrite E in Hfuel; cbn in Hfuel; lia|].
    cbn [parse_value]. rewrite lstrip_dumps.
    pose proof (parse_num_dumps n rest Hrest) as Hnum.
    rewrite E, append_String in *.
    destruct (number_start c Hc) as (_ & -> & -> & -> & -> & -> & ->).
    rewrite Hnum. reflexivity.
  - destruct fuel; [cbn in Hfuel; lia|].
    rewrite (dumps_str_append s rest : dumps (JStr s) +:+ rest = _).
    cbn [parse_value lstrip]. change (is_space dquote) with false. cbn iota.
    change (Ascii.eqb dquote "n") with false. change (Ascii.eqb dquote "t") with false.
    change (Ascii.eqb dquote "f") with false. change (Ascii.eqb dquote dquote) with true.
    cbn iota. rewrite parse_str_escape. reflexivity.
  - destruct l as [|x r].
    + destruct fuel; [cbn in Hfuel; lia|]. reflexivity.
    + rewrite dumps_list in *. cbn [String.length] in Hfuel.
      rewrite string_length_append in Hfuel.
      destruct fuel as [|fuel]; [lia|].
      rewrite append_String, append_assoc.
      cbn [parse_value lstrip]. change (is_space "[") with false. cbn iota.
      change (Ascii.eqb "[" "n") with false. change (Ascii.eqb "[" "t") with false.
      change (Ascii.eqb "[" "f") with false. change (Ascii.eqb "[" dquote) with false.
      change (Ascii.eqb "[" "[") with true. cbn iota.
      rewrite lstrip_dumps.
      destruct (dumps_head x) as (c & t & E & Hc).
      destruct (value_start_solid c Hc) as (_ & Hclose & _).
      rewrite E at 1. rewrite append_String, Hclose.
      inversion IH as [|? ? Hx Hr]; subst.
      rewrite Hx by (lia || apply no_digit_ahead_items). cbn.
      rewrite parse_items_dumps by (assumption || lia). reflexivity.
  - destruct kvs as [|[k x] r].
    + destruct fuel; [cbn in Hfuel; lia|]. reflexivity.
    + rewrite dumps_dict in *. cbn [String.length] in Hfuel.
      rewrite !string_length_append in Hfuel. cbn [String.length] in Hfuel.
      destruct fuel as [|fuel]; [lia|].
      rewrite append_String, !append_assoc, append_String.
      cbn [parse_value lstrip]. change (is_space "{") with false. cbn iota.
      change (Ascii.eqb "{" "n") with false. change (Ascii.eqb "{" "t") with false.
      change (Ascii.eqb "{" "f") with false. change (Ascii.eqb "{" dquote) with false.
      change (Ascii.eqb "{" "[") with false. change (Ascii.eqb "{" "{") with true.
      cbn iota. rewrite dumps_str_append at 1. cbn [lstrip].
      change (is_space dquote) with false. cbn iota.
      change (Ascii.eqb dquote "}") with false. cbn iota.
      inversion IH as [|? ? Hx Hr]; subst. cbn [snd] in Hx.
      rewrite parse_member_dumps by (assumption || lia || apply no_digit_ahead_members). cbn.
      rewrite parse_members_dumps by (assumption || lia). reflexivity.
Qed.

End JsonTextFacts.

(** The reference codec satisfies both laws. *)
Lemma JsonText_loads_dumps v : JsonText.loads (JsonText.dumps v) = Some v.
Proof.
  unfold JsonText.loads, JsonText.decode.
  rewrite <- (append_Empty_r (JsonText.dumps v)) at 2.
  rewrite JsonTextFacts.parse_value_dumps by (lia || exact I). reflexivity.
Qed.

Lemma JsonText_roundtrip : codec_roundtrip JsonText.codec.
Proof.
  intros v. exists (JsonText.dumps v). split; [reflexivity|].
  cbn [json_loads JsonText.codec]. rewrite JsonText_loads_dumps. reflexivity.
Qed.

Lemma JsonText_rejects_empty : codec_rejects_empty JsonText.codec.
Proof. reflexivity. Qed.

(** ** The saved log *)

Lemma load_history_insert `{C : JsonCodec} (fs : filesystem) (path : string * string)
    (text : string) (v : json) :
  json_loads text = Decoded v ->
  load_history (<[path := text]> fs) path = Returns v.
Proof.
  intros Hv. unfold load_history. rewrite lookup_insert_eq, Hv. reflexivity.
Qed.

Lemma write_json_returns `{C : JsonCodec} (path : string * string) (v : json)
    (fs fs' : filesystem) :
  write_json path v fs = Returns fs' <->
  exists text, json_dumps v = Encoded text /\ fs' = <[path := text]> fs.
Proof.
  unfold write_json. destruct (json_dumps v) as [text|e]; split.
  - intros [= <-]. eauto.
  - intros (text' & [= <-] & ->). reflexivity.
  - discriminate.
  - intros (text' & Ht & _). discriminate.
Qed.

(** Under the round-trip law the encoder does not raise, and the file
    written decodes to the value. *)
Lemma write_json_roundtrip `{C : JsonCodec} (path : string * string) (v : json)
    (fs : filesystem) :
  codec_roundtrip C ->
  exists text,
    write_json path v fs = Returns (<[path := text]> fs) /\ json_loads text = Decoded v.
Proof.
  intros Hrt. destruct (Hrt v) as (text & Hd & Hl). exists text.
  unfold write_json. rewrite Hd. auto.
Qed.

Lemma load_history_written `{C : JsonCodec} (path : string * string) (v : json)
    (fs fs' : filesystem) :
  codec_roundtrip C ->
  write_json path v fs = Returns fs' ->
  load_history fs' path = Returns v.
Proof.
  intros Hrt Hw. destruct (write_json_roundtrip path v fs Hrt) as (text & Hw' & Hl).
  rewrite Hw in Hw'. injection Hw' as ->. apply load_history_insert, Hl.
Qed.

Lemma JsonText_loads_dumps_codec v :
  @json_loads JsonText.codec (JsonText.dumps v) = Decoded v.
Proof. cbn [json_loads JsonText.codec]. rewrite JsonText_loads_dumps. reflexivity. Qed.

Lemma write_json_JsonText (path : string * string) (v : json) (fs : filesystem) :
  @write_json JsonText.codec path v fs = Returns (<[path := JsonText.dumps v]> fs).
Proof. reflexivity. Qed.

Lemma retained_parses c e :
  retained c e = true ->
  exists s dt,
    py_getitem e "date" = Returns (JStr s) /\
    strptime s "%Y/%m/%d" = Returns dt /\
    instant_ge (instant_of dt) c = true.
Proof.
  unfold retained, record_instant. destruct (record_date e) as [s|] eqn:Ed; [|discriminate].
  cbn. destruct (strptime s "%Y/%m/%d") as [dt| |] eqn:Es; try discriminate.
  intros H. exists s, dt. auto using PruneFacts.record_date_getitem.
Qed.

Lemma wf_check_date now :
  datetime.wf now = true ->
  datetime.check_date_fields (datetime.year now) (datetime.month now) (datetime.day now) = true.
Proof. unfold datetime.wf. rewrite andb_true_iff. tauto. Qed.

Lemma today_not_older now :
  instant_ge (instant_of (datetime.date now)) (cutoff now) = true.
Proof.
  unfold instant_ge, instant_of, cutoff, datetime.date, datetime.toordinal. cbn.
  apply orb_true_iff. left. apply Z.ltb_lt. lia.
Qed.

Lemma today_entry_parses now items :
  datetime.wf now = true ->
  py_getitem (today_entry now items) "date" = Returns (JStr (strftime now "%Y/%m/%d")) /\
  strptime (strftime now "%Y/%m/%d") "%Y/%m/%d" = Returns (datetime.date now).
Proof.
  intros Hwf. split; [reflexivity|].
  apply strptime_strftime_slashes, wf_check_date, Hwf.
Qed.

Lemma today_entry_instant now items :
  datetime.wf now = true ->
  record_instant (today_entry now items) = Some (instant_of (datetime.date now)).
Proof.
  intros Hwf. unfold record_instant.
  change (record_date (today_entry now items)) with (Some (strftime now "%Y/%m/%d")).
  cbn [mbind option_bind]. rewrite (proj2 (today_entry_parses now items Hwf)). reflexivity.
Qed.

Lemma today_entry_dated now items :
  record_date (today_entry now items) = Some (strftime now "%Y/%m/%d").
Proof. reflexivity. Qed.

(** C1.  Whenever the retention pass of [update_history] returns, every
    record of the log it has saved carries a [date] that parses and is
    not older than the cutoff, thirty days before the moment of the
    run; in particular no record whose date is older than the cutoff is
    in the saved log. *)
Theorem retention_bound `{C : JsonCodec} (dir : string) (now : datetime.t)
    (draws : list nat) (new_items : list json) (target_count : Z)
    (fs fs' : filesystem) (items : list json) :
  codec_roundtrip C ->
  datetime.wf now = true ->
  GenerateDataAI.update_history dir now draws new_items target_count fs
  = Returns (items, fs') ->
  exists log,
    load_history fs' (history_path dir) = Returns (JList log) /\
    Forall (fun e => exists s dt,
              py_getitem e "date" = Returns (JStr s) /\
              strptime s "%Y/%m/%d" = Returns dt /\
              instant_ge (instant_of dt) (cutoff now) = true) log /\
    (forall e i, e ∈ log -> record_instant e = Some i -> instant_lt i (cutoff now) = false).
Proof.
  intros Hrt Hwf Hrun.
  destruct (update_history_returns _ _ _ _ _ _ _ _ Hrun) as (entries & _ & _ & _ & _ & Hw).
  eexists. split; [exact (load_history_written _ _ _ _ Hrt Hw)|].
  assert (Hall : Forall (fun e => retained (cutoff now) e = true)
                   (today_entry now items :: survivors now entries)).
  { constructor.
    - unfold retained. rewrite (today_entry_instant now items Hwf). apply today_not_older.
    - unfold survivors. apply Forall_forall. intros e He.
      apply list_elem_of_In, filter_In in He as [_ He]. apply andb_true_iff in He. tauto. }
  split.
  - eapply Forall_impl; [exact Hall|]. intros e He. apply retained_parses, He.
  - intros e i He Hi. rewrite Forall_forall in Hall.
    specialize (Hall e He).
    unfold retained in Hall. rewrite Hi in Hall. unfold instant_lt. rewrite Hall. reflexivity.
Qed.

(** The sample run: the items drawn and the files it leaves. *)
Lemma demo_run :
  @GenerateDataAI.update_history JsonText.codec demo_dir demo_now demo_draws demo_items 5 demo_fs
  = Returns (demo_picks, demo_fs').
Proof.
  rewrite (@update_history_well_formed JsonText.codec demo_dir demo_now demo_draws demo_items 5
             demo_fs demo_log demo_picks).
  - reflexivity.
  - vm_compute. reflexivity.
  - repeat constructor; eexists; reflexivity.
  - vm_compute. reflexivity.
  - vm_compute. split; [reflexivity|discriminate].
Qed.

Lemma retention_bound_witness :
  exists log,
    @load_history JsonText.codec demo_fs' (history_path demo_dir) = Returns (JList log) /\
    Forall (fun e => exists s dt,
              py_getitem e "date" = Returns (JStr s) /\
              strptime s "%Y/%m/%d" = Returns dt /\
              instant_ge (instant_of dt) (cutoff demo_now) = true) log /\
    (forall e i, e ∈ log -> record_instant e = Some i ->
                 instant_lt i (cutoff demo_now) = false).
Proof.
  exact (@retention_bound JsonText.codec demo_dir demo_now demo_draws demo_items 5
           demo_fs demo_fs' demo_picks JsonText_roundtrip eq_refl demo_run).
Defined.

(** ** Loading a missing, empty or undecodable file *)

(** The call reads the files through the decoded history and changes
    them by overwriting the history file, nothing else. *)
Lemma update_history_ext `{C : JsonCodec} (dir : string) (now : datetime.t)
    (draws : list nat) (new_items : list json) (target_count : Z) (fs1 fs2 : filesystem) :
  load_history fs1 (history_path dir) = load_history fs2 (history_path dir) ->
  (forall text, <[history_path dir := text]> fs1 = <[history_path dir := text]> fs2) ->
  GenerateDataAI.update_history dir now draws new_items target_count fs1
  = GenerateDataAI.update_history dir now draws new_items target_count fs2.
Proof.
  intros Hload Hsave.
  unfold GenerateDataAI.update_history, os_path_join, GenerateDataAI.HISTORY_FILE_NAME.
  fold (history_path dir). rewrite Hload.
  destruct (load_history fs2 (history_path dir)) as [history| |]; cbn; try reflexivity.
  destruct (sub_days now GenerateDataAI.MAX_DAYS); cbn; try reflexivity.
  destruct (py_iter history); cbn; try reflexivity.
  destruct (GenerateDataAI.prune _ _); cbn; try reflexivity.
  destruct (GenerateDataAI.sample_display_items _ _ _); cbn; try reflexivity.
  destruct (GenerateDataAI.drop_today _ _); cbn; try reflexivity.
  unfold write_json. destruct (json_dumps _); [rewrite Hsave|]; reflexivity.
Qed.

(** When the history file does not exist, is empty, or holds a text on
    which [json.load] fails with [JSONDecodeError], the run starts from
    the empty log: the load gives [[]], the call behaves as it does
    without the file, and, once the items of the day are drawn, it goes
    on to write a log holding today's record alone. *)
Lemma corrupt_tolerant_load `{C : JsonCodec} (dir : string) (now : datetime.t)
    (draws : list nat) (new_items : list json) (target_count : Z) (fs : filesystem) :
  codec_rejects_empty C ->
  fs !! history_path dir = None \/
  fs !! history_path dir = Some EmptyString \/
  (exists text, fs !! history_path dir = Some text /\ json_loads text = JSONDecodeError) ->
  load_history fs (history_path dir) = Returns (JList []) /\
  GenerateDataAI.update_history dir now draws new_items target_count fs
  = GenerateDataAI.update_history dir now draws new_items target_count
      (delete (history_path dir) fs) /\
  (forall items,
     GenerateDataAI.sample_display_items new_items target_count draws = Returns items ->
     30 < datetime.toordinal now <= 3652089 ->
     GenerateDataAI.update_history dir now draws new_items target_count fs
     = fs' ← write_json (history_path dir) (JList [today_entry now items]) fs;
       mret (items, fs')).
Proof.
  intros Hempty Hfile.
  assert (Hload : load_history fs (history_path dir) = Returns (JList [])).
  { unfold load_history.
    destruct Hfile as [-> | [-> | (text & -> & ->)]]; [reflexivity| |reflexivity].
    rewrite Hempty. reflexivity. }
  split; [exact Hload|]. split.
  - apply update_history_ext.
    + rewrite Hload. unfold load_history. rewrite lookup_delete_eq. reflexivity.
    + intros text. rewrite insert_delete_eq. reflexivity.
  - intros items Hs Hnow.
    rewrite (update_history_well_formed dir now draws new_items target_count fs [] items);
      [reflexivity|unfold history_entries; rewrite Hload; reflexivity|constructor|exact Hs
      |exact Hnow].
Qed.

Example corrupt_tolerant_load_sample :
  @load_history JsonText.codec {[ history_path demo_dir := "[{ broken" ]} (history_path demo_dir)
  = Returns (JList []) /\
  @GenerateDataAI.update_history JsonText.codec demo_dir demo_now demo_draws demo_items 5
    {[ history_path demo_dir := "[{ broken" ]}
  = Returns (demo_picks,
             <[history_path demo_dir := JsonText.dumps (JList [today_entry demo_now demo_picks])]>
               {[ history_path demo_dir := "[{ broken" ]}).
Proof.
  split; [reflexivity|].
  destruct (@corrupt_tolerant_load JsonText.codec demo_dir demo_now demo_draws demo_items 5
              {[ history_path demo_dir := "[{ broken" ]} JsonText_rejects_empty) as (_ & _ & H).
  { right. right. exists "[{ broken". split; [apply lookup_singleton_eq|reflexivity]. }
  rewrite (H demo_picks); [reflexivity|vm_compute; reflexivity
                          |vm_compute; split; [reflexivity|discriminate]].
Qed.

(** Every other exception of [json.load] leaves the three generations
    of the update, while the sidebar, whose handler is
    [except Exception], starts from the empty history. *)
Lemma load_error_escapes `{C : JsonCodec} (dir : string) (now : datetime.t)
    (draws : list nat) (new_items : list json) (target_count : Z) (fs : filesystem)
    (text : string) (e : exn) :
  fs !! history_path dir = Some text ->
  json_loads text = DecoderRaises e ->
  GenerateDataAI.update_history dir now draws new_items target_count fs = Raises e /\
  GenerateData.update_history dir now draws new_items target_count fs = Raises e /\
  History.update_and_get_history dir now new_items fs = Raises e /\
  load_history_or_empty fs (history_path dir) = JList [].
Proof.
  intros Hfile Hload.
  unfold GenerateDataAI.update_history, GenerateData.update_history,
    History.update_and_get_history, load_history_or_empty, load_history, os_path_join,
    GenerateDataAI.HISTORY_FILE_NAME, GenerateData.HISTORY_FILE, History.HISTORY_FILE.
  fold (history_path dir). rewrite Hfile, Hload. repeat split.
Qed.

(** C3.  A history file that is not valid JSON can make [json.load]
    raise something other than [JSONDecodeError], and then the load
    does not give the empty log: the exception leaves [update_history].
    On a file that breaks off inside a number of 4301 digits the
    decoder raises [ValueError] (the limit of [int]), and so does each
    generation of the update; the sidebar, which reads the same file
    under [except Exception], goes on with the empty history. *)
Theorem long_literal_escapes :
  JsonText.loads demo_long_literal = None /\
  @json_loads limited_codec demo_long_literal = DecoderRaises ValueError /\
  @load_history limited_codec {[ history_path demo_dir := demo_long_literal ]}
    (history_path demo_dir)
  = Raises ValueError /\
  @GenerateDataAI.update_history limited_codec demo_dir demo_now demo_draws demo_items 5
    {[ history_path demo_dir := demo_long_literal ]}
  = Raises ValueError /\
  @GenerateData.update_history limited_codec demo_dir demo_now demo_draws demo_items 5
    {[ history_path demo_dir := demo_long_literal ]}
  = Raises ValueError /\
  @History.update_and_get_history limited_codec demo_dir demo_now demo_items
    {[ history_path demo_dir := demo_long_literal ]}
  = Raises ValueError /\
  @generate_history_html limited_codec demo_interpreter demo_labels demo_dir
    {[ history_path demo_dir := demo_long_literal ]}
  = Completes (sidebar_open demo_labels +:+ "<p>" +:+ label_none demo_labels +:+ "</p>"
               +:+ sidebar_close).
Proof.
  assert (Hraise : @json_loads limited_codec demo_long_literal = DecoderRaises ValueError)
    by (vm_compute; reflexivity).
  split; [vm_compute; reflexivity|]. split; [exact Hraise|].
  destruct (@load_error_escapes limited_codec demo_dir demo_now demo_draws demo_items 5
              {[ history_path demo_dir := demo_long_literal ]} demo_long_literal ValueError
              (lookup_singleton_eq _ _) Hraise) as (H1 & H2 & H3 & H4).
  split; [unfold load_history; rewrite lookup_singleton_eq, Hraise; reflexivity|].
  split; [exact H1|]. split; [exact H2|]. split; [exact H3|].
  unfold generate_history_html, os_path_join. fold (history_path demo_dir).
  rewrite H4. reflexivity.
Qed.

(** The same file under the codec without the limit is a
    [JSONDecodeError], and the run starts from the empty log. *)
Example long_literal_without_limit :
  @load_history JsonText.codec {[ history_path demo_dir := demo_long_literal ]}
    (history_path demo_dir)
  = Returns (JList []).
Proof. vm_compute. reflexivity. Qed.

(** ** Order of the saved log *)

Lemma filter_sublist {A} (f : A -> bool) (l : list A) : sublist (List.filter f l) l.
Proof.
  induction l as [|x l IH]; [constructor|].
  cbn [List.filter]. destruct (f x); [apply sublist_skip|apply sublist_cons]; exact IH.
Qed.

(** C6.  After [update_history] returns, today's record is at index 0
    of the saved log, and the records after it are the surviving
    records of the input log in their input order: a subsequence of the
    input, each record kept or dropped by the prune and the same-day
    filter, nothing moved. *)
Theorem order_invariant `{C : JsonCodec} (dir : string) (now : datetime.t)
    (draws : list nat) (new_items : list json) (target_count : Z)
    (fs fs' : filesystem) (items : list json) :
  codec_roundtrip C ->
  GenerateDataAI.update_history dir now draws new_items target_count fs
  = Returns (items, fs') ->
  exists entries log,
    history_entries fs (history_path dir) = Returns entries /\
    load_history fs' (history_path dir) = Returns (JList log) /\
    log !! 0%nat = Some (today_entry now items) /\
    tail log = survivors now entries /\
    sublist (tail log) entries.
Proof.
  intros Hrt Hrun.
  destruct (update_history_returns _ _ _ _ _ _ _ _ Hrun) as (entries & Hit & _ & _ & _ & Hw).
  exists entries, (today_entry now items :: survivors now entries).
  split; [exact Hit|]. split; [exact (load_history_written _ _ _ _ Hrt Hw)|].
  repeat split. apply filter_sublist.
Qed.

Lemma order_invariant_witness :
  exists entries log,
    @history_entries JsonText.codec demo_fs (history_path demo_dir) = Returns entries /\
    @load_history JsonText.codec demo_fs' (history_path demo_dir) = Returns (JList log) /\
    log !! 0%nat = Some (today_entry demo_now demo_picks) /\
    tail log = survivors demo_now entries /\
    sublist (tail log) entries.
Proof.
  exact (@order_invariant JsonText.codec demo_dir demo_now demo_draws demo_items 5
           demo_fs demo_fs' demo_picks JsonText_roundtrip demo_run).
Defined.

Example demo_saved_log :
  @load_history JsonText.codec demo_fs' (history_path demo_dir)
  = Returns (JList [today_entry demo_now demo_picks;
                    demo_record "2025/10/20" "recommend_20251020.html";
                    demo_record "2025/10/01" "recommend_20251001.html"]).
Proof.
  transitivity
    (Returns (JList (today_entry demo_now demo_picks :: survivors demo_now demo_log))
       : outcome json).
  - apply (@load_history_insert JsonText.codec), JsonText_loads_dumps_codec.
  - vm_compute. reflexivity.
Qed.

(** ** Granularity of the comparison *)

Lemma strptime_midnight s fmt dt :
  strptime s fmt = Returns dt -> datetime.time_of_day dt = 0.
Proof.
  unfold strptime. destruct (re_match _ _ _) as [|[f [|c r]] tl]; try discriminate.
  destruct (datetime.check_date_fields _ _ _); [|discriminate].
  intros [= <-]. reflexivity.
Qed.

Lemma record_instant_midnight e i : record_instant e = Some i -> snd i = 0.
Proof.
  unfold record_instant. destruct (record_date e) as [s|]; [|discriminate]. cbn.
  destruct (strptime s "%Y/%m/%d") as [dt| |] eqn:E; try discriminate.
  intros [= <-]. cbn. eapply strptime_midnight, E.
Qed.

Lemma time_of_day_nonneg now : datetime.wf now = true -> 0 <= datetime.time_of_day now.
Proof.
  unfold datetime.wf, datetime.check_time_fields, datetime.time_of_day.
  rewrite !andb_true_iff, !Z.leb_le, !Z.ltb_lt. lia.
Qed.

Lemma retained_by_age now e age :
  datetime.wf now = true ->
  age_in_days now e = Some age ->
  retained (cutoff now) e = true <->
  age < 30 \/ (age = 30 /\ datetime.time_of_day now = 0).
Proof.
  intros Hwf. unfold age_in_days, retained.
  destruct (record_instant e) as [[d t]|] eqn:Ei; [|discriminate].
  cbn. intros [= <-]. apply record_instant_midnight in Ei. cbn in Ei. subst t.
  pose proof (time_of_day_nonneg now Hwf).
  unfold instant_ge, cutoff. cbn.
  rewrite orb_true_iff, andb_true_iff, Z.ltb_lt, Z.eqb_eq, Z.leb_le. lia.
Qed.

(** C5, as the code has it.  The prune compares the midnight of the
    record's date with the instant thirty days before the run, time of
    day included: a record whose date parses survives exactly when its
    date is fewer than 30 days before the day of the run, or 30 days
    before it with the run at 00:00:00.000000 sharp.  At any other time
    of day the outcome depends on the two calendar dates alone, and 29
    days is the oldest that survives. *)
Theorem retention_granularity (now : datetime.t) (history : list json) (e : json) (age : Z) :
  datetime.wf now = true ->
  Forall (fun r => is_Some (record_date r)) history ->
  age_in_days now e = Some age ->
  exists kept,
    GenerateDataAI.prune (cutoff now) history = Returns kept /\
    (e ∈ kept <->
     e ∈ history /\ (age < 30 \/ (age = 30 /\ datetime.time_of_day now = 0))) /\
    (datetime.time_of_day now <> 0 -> (e ∈ kept <-> e ∈ history /\ age <= 29)).
Proof.
  intros Hwf Hlog Hage. eexists. split; [apply PruneFacts.prune_well_formed, Hlog|].
  assert (Hin : e ∈ List.filter (retained (cutoff now)) history <->
                e ∈ history /\ retained (cutoff now) e = true).
  { rewrite !list_elem_of_In. apply filter_In. }
  rewrite Hin, (retained_by_age now e age Hwf Hage). split; [tauto|].
  intros Ht. split; intros [? ?]; (split; [assumption|lia]).
Qed.

Lemma retention_granularity_witness :
  exists kept,
    GenerateDataAI.prune (cutoff demo_now) [demo_record_30] = Returns kept /\
    (demo_record_30 ∈ kept <->
     demo_record_30 ∈ [demo_record_30] /\
     (30 < 30 \/ (30 = 30 /\ datetime.time_of_day demo_now = 0))) /\
    (datetime.time_of_day demo_now <> 0 ->
     (demo_record_30 ∈ kept <-> demo_record_30 ∈ [demo_record_30] /\ 30 <= 29)).
Proof.
  apply (retention_granularity demo_now [demo_record_30] demo_record_30 30).
  - reflexivity.
  - repeat constructor. eexists. reflexivity.
  - reflexivity.
Defined.

(** The record dated exactly thirty days before the run is dropped by
    the run of 09:30, and kept by a run at midnight of the same day. *)
Lemma retention_granularity_counterexample :
  datetime.wf demo_now = true /\
  age_in_days demo_now demo_record_30 = Some 30 /\
  age_in_days (datetime.date demo_now) demo_record_30 = Some 30 /\
  GenerateDataAI.prune (cutoff demo_now) [demo_record_30] = Returns [] /\
  GenerateDataAI.prune (cutoff (datetime.date demo_now)) [demo_record_30]
  = Returns [demo_record_30] /\
  @GenerateDataAI.update_history JsonText.codec demo_dir demo_now demo_draws demo_items 5
    {[ history_path demo_dir := JsonText.dumps (JList [demo_record_30]) ]}
  = Returns (demo_picks,
             <[history_path demo_dir := JsonText.dumps (JList [today_entry demo_now demo_picks])]>
               {[ history_path demo_dir := JsonText.dumps (JList [demo_record_30]) ]}).
Proof.
  repeat split; vm_compute; reflexivity.
Qed.

(** ** One record per day *)

Lemma filter_none {A} (f : A -> bool) l :
  (forall x, In x l -> f x = false) -> List.filter f l = [].
Proof.
  induction l as [|x l IH]; [reflexivity|]. intros H.
  cbn [List.filter]. rewrite (H x (or_introl eq_refl)). apply IH.
  intros y Hy. apply H. right. exact Hy.
Qed.

Lemma survivors_not_dated now entries :
  List.filter (dated (strftime now "%Y/%m/%d")) (survivors now entries) = [].
Proof.
  apply filter_none. intros e He. unfold survivors in He.
  apply filter_In in He as [_ He]. apply andb_true_iff in He as [_ He].
  apply negb_true_iff in He. exact He.
Qed.

Lemma today_entry_is_dated now items :
  dated (strftime now "%Y/%m/%d") (today_entry now items) = true.
Proof. unfold dated. rewrite today_entry_dated. apply String.eqb_refl. Qed.

(** [strftime] of a calendar format reads the date of its argument
    only. *)
Lemma strftime_date dt fmt : strftime (datetime.date dt) fmt = strftime dt fmt.
Proof.
  unfold strftime. induction (directives fmt) as [|[| | |c] ds IH];
    cbn [strftime_directives]; rewrite ?IH; reflexivity.
Qed.

(** The other records of the saved log that carry their date in the
    form the code writes denote other days of the calendar. *)
Lemma survivors_other_days now entries e s dt :
  e ∈ survivors now entries ->
  record_date e = Some s ->
  strptime s "%Y/%m/%d" = Returns dt ->
  s = strftime dt "%Y/%m/%d" ->
  datetime.date dt <> datetime.date now.
Proof.
  intros He Hs Hdt Hcanon Hsame. unfold survivors in He.
  apply list_elem_of_In, filter_In in He as [_ He].
  apply andb_true_iff in He as [_ He]. apply negb_true_iff in He.
  unfold dated in He. rewrite Hs in He. apply String.eqb_neq in He. apply He.
  rewrite Hcanon, <- (strftime_date dt), Hsame, strftime_date. reflexivity.
Qed.

(** After any number of calls of [update_history] that write the
    same [today] string, each starting from the files the one before
    has left, the saved log holds exactly one record whose [date] is
    that string; it is at the front and its items are those the last
    call has drawn. *)
Lemma single_per_date_string `{C : JsonCodec} (dir : string) (calls : list call)
    (items0 : list json) (fs fs' : filesystem) (items : list json) (today : string) :
  codec_roundtrip C ->
  calls <> [] ->
  Forall (fun c => strftime (call_now c) "%Y/%m/%d" = today) calls ->
  update_history_calls dir calls items0 fs = Returns (items, fs') ->
  exists c log,
    last calls = Some c /\
    GenerateDataAI.sample_display_items (call_items c) (call_target c) (call_draws c)
    = Returns items /\
    load_history fs' (history_path dir) = Returns (JList log) /\
    List.filter (dated today) log = [today_entry (call_now c) items] /\
    log !! 0%nat = Some (today_entry (call_now c) items).
Proof.
  intros Hrt Hne Hday. revert items0 fs.
  induction calls as [|c rest IH]; [congruence|]. intros items0 fs Hrun.
  cbn [update_history_calls] in Hrun.
  destruct (GenerateDataAI.update_history dir (call_now c) (call_draws c) (call_items c)
              (call_target c) fs) as [[items1 fs1]| |] eqn:E1; cbn in Hrun; try discriminate.
  inversion Hday as [|? ? Hc Hrest]; subst.
  destruct rest as [|c2 rest].
  - cbn in Hrun. injection Hrun as <- <-.
    destruct (update_history_returns _ _ _ _ _ _ _ _ E1) as (entries & _ & _ & Hs & _ & Hw).
    exists c. eexists. split; [reflexivity|]. split; [exact Hs|].
    split; [exact (load_history_written _ _ _ _ Hrt Hw)|]. split; [|reflexivity].
    cbn [List.filter]. rewrite today_entry_is_dated, survivors_not_dated. reflexivity.
  - destruct (IH ltac:(discriminate) Hrest items1 fs1 Hrun) as (c' & log & Hl & H).
    exists c', log. split; [|exact H].
    change (last (c :: c2 :: rest)) with (last (c2 :: rest)). exact Hl.
Qed.

(** The two sample calls of 21 October. *)
Lemma demo_two_calls :
  @update_history_calls JsonText.codec demo_dir demo_calls [] demo_fs
  = Returns ([demo_item "collar" (JNum 1200)],
             <[history_path demo_dir :=
                 JsonText.dumps
                   (JList (today_entry demo_evening [demo_item "collar" (JNum 1200)]
                           :: survivors demo_evening
                                (today_entry demo_now demo_picks
                                 :: survivors demo_now demo_log)))]> demo_fs').
Proof.
  unfold demo_calls. cbn [update_history_calls call_now call_draws call_items call_target].
  rewrite demo_run. cbn [mbind outcome_bind].
  rewrite (@update_history_well_formed JsonText.codec demo_dir demo_evening [3]%nat
             [demo_item "collar" (JNum 1200)] 5 demo_fs'
             (today_entry demo_now demo_picks :: survivors demo_now demo_log)
             [demo_item "collar" (JNum 1200)]).
  - reflexivity.
  - unfold history_entries, demo_fs'.
    rewrite (@load_history_insert JsonText.codec _ _ _ _ (JsonText_loads_dumps_codec _)).
    reflexivity.
  - repeat constructor; eexists; reflexivity.
  - vm_compute. reflexivity.
  - vm_compute. split; [reflexivity|discriminate].
Qed.

(** ** [random.sample] *)

Lemma py_index_lt {A} (l : list A) (i : nat) :
  (i < length l)%nat -> exists x, py_index l i = Returns x /\ l !! i = Some x.
Proof.
  intros H. apply lookup_lt_is_Some_2 in H as [x Hx].
  exists x. unfold py_index. rewrite Hx. auto.
Qed.

Lemma py_index_returns {A} (l : list A) (i : nat) x :
  py_index l i = Returns x -> l !! i = Some x.
Proof. unfold py_index. destruct (l !! i); [intros [= ->]; reflexivity|discriminate]. Qed.

Lemma sample_pool_length {A} (k : nat) :
  forall (m : nat) (pool : list A) draws res draws',
    sample_pool k m pool draws = Returns (res, draws') -> length res = k.
Proof.
  induction k as [|k IH]; intros m pool draws res draws'; cbn [sample_pool].
  - intros [= <- _]. reflexivity.
  - destruct (randbelow m draws) as [[j d1]| |]; cbn; try discriminate.
    destruct (py_index pool j) as [x| |]; cbn; try discriminate.
    destruct (py_index pool (m - 1)) as [y| |]; cbn; try discriminate.
    destruct (sample_pool k (m - 1) (<[j:=y]> pool) d1) as [[r d2]| |] eqn:E; cbn;
      try discriminate.
    intros [= <- _]. cbn. f_equal. eapply IH, E.
Qed.

(** The first branch does not raise; it stops short only when fewer
    than [k] numbers are supplied. *)
Lemma sample_pool_total {A} (k : nat) :
  forall (m : nat) (pool : list A) draws,
    (k <= m <= length pool)%nat ->
    match sample_pool k m pool draws with
    | Returns _ => True
    | Raises _ => False
    | Starved => (length draws < k)%nat
    end.
Proof.
  induction k as [|k IH]; intros m pool draws Hm; cbn [sample_pool]; [exact I|].
  destruct draws as [|r rest]; cbn [randbelow mbind outcome_bind]; [cbn; lia|].
  assert (Hj : (r mod m < m)%nat) by (apply Nat.mod_upper_bound; lia).
  destruct (py_index_lt pool (r mod m)%nat ltac:(lia)) as (x & -> & _).
  destruct (py_index_lt pool (m - 1)%nat ltac:(lia)) as (y & -> & _).
  cbn [mbind outcome_bind].
  specialize (IH (m - 1)%nat (<[(r mod m)%nat:=y]> pool) rest).
  rewrite length_insert in IH. specialize (IH ltac:(lia)).
  destruct (sample_pool k (m - 1) _ rest) as [[res d2]| |]; cbn in *; [exact I|exact IH|lia].
Qed.

(** One step of the pool: the cells before the new bound are those
    before the old bound without the pick. *)
Lemma pool_step {A} (pool : list A) (m j : nat) x y :
  (j < m <= length pool)%nat ->
  NoDup (take m pool) ->
  pool !! j = Some x -> pool !! (m - 1)%nat = Some y ->
  NoDup (take (m - 1) (<[j:=y]> pool)) /\
  forall z, z ∈ take (m - 1) (<[j:=y]> pool) -> z ∈ take m pool /\ z <> x.
Proof.
  intros Hjm Hnd Hx Hy.
  assert (Hinj : forall a b z, (a < m)%nat -> (b < m)%nat ->
                   pool !! a = Some z -> pool !! b = Some z -> a = b).
  { intros a b z Ha Hb Hza Hzb. rewrite NoDup_alt in Hnd.
    apply (Hnd a b z); rewrite lookup_take_lt by lia; assumption. }
  assert (Hcell : forall i z, take (m - 1) (<[j:=y]> pool) !! i = Some z ->
                    (i < m - 1)%nat /\
                    ((i = j /\ z = y) \/ (i <> j /\ pool !! i = Some z))).
  { intros i z Hi. apply lookup_take_Some in Hi as [Hi Hlt]. split; [exact Hlt|].
    destruct (decide (i = j)) as [->|Hne].
    - rewrite list_lookup_insert_eq in Hi by lia. left. split; congruence.
    - rewrite list_lookup_insert_ne in Hi by congruence. right. auto. }
  split.
  - apply NoDup_alt. intros a b z Ha Hb.
    apply Hcell in Ha as [Ha [[-> ->]|[Hna Hza]]];
      apply Hcell in Hb as [Hb [[-> Hzb]|[Hnb Hzb]]].
    + reflexivity.
    + pose proof (Hinj b (m - 1)%nat y ltac:(lia) ltac:(lia) Hzb Hy). lia.
    + subst z. pose proof (Hinj a (m - 1)%nat y ltac:(lia) ltac:(lia) Hza Hy). lia.
    + apply (Hinj a b z); (lia || assumption).
  - intros z Hz. apply list_elem_of_lookup in Hz as [i Hi].
    apply Hcell in Hi as [Hi [[-> ->]|[Hne Hzi]]].
    + split.
      * apply elem_of_take. exists (m - 1)%nat. split; [exact Hy|lia].
      * intros ->. pose proof (Hinj j (m - 1)%nat x ltac:(lia) ltac:(lia) Hx Hy). lia.
    + split.
      * apply elem_of_take. exists i. split; [exact Hzi|lia].
      * intros ->. apply Hne. apply (Hinj i j x); (lia || assumption).
Qed.

(** Over a pool of distinct cells the picks are distinct cells. *)
Lemma sample_pool_distinct {A} (k : nat) :
  forall (m : nat) (pool : list A) draws res draws',
    (k <= m <= length pool)%nat ->
    NoDup (take m pool) ->
    sample_pool k m pool draws = Returns (res, draws') ->
    NoDup res /\ forall z, z ∈ res -> z ∈ take m pool.
Proof.
  induction k as [|k IH]; intros m pool draws res draws' Hm Hnd; cbn [sample_pool].
  - intros [= <- _]. split; [constructor|]. intros z Hz. inversion Hz.
  - destruct draws as [|r rest]; cbn [randbelow mbind outcome_bind]; [discriminate|].
    assert (Hj : (r mod m < m)%nat) by (apply Nat.mod_upper_bound; lia).
    destruct (py_index_lt pool (r mod m)%nat ltac:(lia)) as (x & -> & Hx).
    destruct (py_index_lt pool (m - 1)%nat ltac:(lia)) as (y & -> & Hy).
    cbn [mbind outcome_bind].
    destruct (sample_pool k (m - 1) _ rest) as [[res1 d2]| |] eqn:E; cbn; try discriminate.
    intros [= <- _].
    destruct (pool_step pool m (r mod m)%nat x y ltac:(lia) Hnd Hx Hy) as [Hnd' Hsub].
    apply IH in E as [Hres Hin]; [|rewrite length_insert; lia|exact Hnd'].
    split.
    + constructor; [|exact Hres]. intros Hmem. apply Hin, Hsub in Hmem. tauto.
    + intros z Hz. apply elem_of_cons in Hz as [->|Hz].
      * apply elem_of_take. exists (r mod m)%nat. auto.
      * apply Hin, Hsub in Hz. tauto.
Qed.

(** Two pools whose cells are related cell by cell give related
    picks. *)
Lemma sample_pool_related {A B} (R : A -> B -> Prop) (k : nat) :
  forall (m : nat) (pa : list A) (pb : list B) draws ra da,
    Forall2 R pa pb ->
    sample_pool k m pa draws = Returns (ra, da) ->
    exists rb, sample_pool k m pb draws = Returns (rb, da) /\ Forall2 R ra rb.
Proof.
  induction k as [|k IH]; intros m pa pb draws ra da HR; cbn [sample_pool].
  - intros [= <- <-]. exists []. split; [reflexivity|constructor].
  - destruct (randbelow m draws) as [[j d1]| |]; cbn [mbind outcome_bind]; try discriminate.
    destruct (py_index pa j) as [x| |] eqn:Ex; cbn [mbind outcome_bind]; try discriminate.
    destruct (py_index pa (m - 1)) as [y| |] eqn:Ey; cbn [mbind outcome_bind]; try discriminate.
    destruct (sample_pool k (m - 1) (<[j:=y]> pa) d1) as [[r1 d2]| |] eqn:E;
      cbn [mbind outcome_bind]; try discriminate.
    intros [= <- <-].
    apply py_index_returns in Ex, Ey.
    destruct (Forall2_lookup_l _ _ _ _ _ HR Ex) as (x' & Hx' & Rx).
    destruct (Forall2_lookup_l _ _ _ _ _ HR Ey) as (y' & Hy' & Ry).
    unfold py_index. rewrite Hx', Hy'. cbn [mbind outcome_bind].
    destruct (IH (m - 1)%nat (<[j:=y]> pa) (<[j:=y']> pb) d1 r1 d2) as (rb & -> & Hrb);
      [apply Forall2_insert; assumption|exact E|].
    cbn. eexists. split; [reflexivity|]. constructor; assumption.
Qed.

(** The positions a run picks: distinct, and each item is the cell of
    the pool at its position. *)
Lemma sample_pool_positions {A} (k : nat) (pool : list A) draws res draws' :
  (k <= length pool)%nat ->
  sample_pool k (length pool) pool draws = Returns (res, draws') ->
  exists positions, chosen_from pool res positions.
Proof.
  intros Hk Hrun.
  assert (HR : Forall2 (fun x p => pool !! p = Some x) pool (seq 0 (length pool))).
  { apply Forall2_same_length_lookup. split; [rewrite length_seq; reflexivity|].
    intros i x p Hx Hp. apply lookup_seq in Hp as [-> _]. exact Hx. }
  destruct (sample_pool_related _ k _ _ _ _ _ _ HR Hrun) as (ps & Hps & Hrel).
  exists ps. split; [|exact Hrel].
  eapply (sample_pool_distinct k (length pool) (seq 0 (length pool))).
  - rewrite length_seq. lia.
  - rewrite firstn_all2 by (rewrite length_seq; lia). apply NoDup_seq.
  - exact Hps.
Qed.

Lemma draw_unselected_spec (n : nat) (selected : gset nat) draws :
  (0 < n)%nat ->
  match draw_unselected n selected draws with
  | Returns (j, rest) =>
      (j < n)%nat /\ (j ∉ selected) /\
      residues n draws ∖ selected ⊆ {[j]} ∪ residues n rest
  | Raises _ => False
  | Starved => residues n draws ⊆ selected
  end.
Proof.
  intros Hn. unfold residues.
  induction draws as [|r rest IH]; cbn [draw_unselected].
  - cbn. set_solver.
  - destruct (decide ((r mod n)%nat ∈ selected)) as [Hin|Hout].
    + destruct (draw_unselected n selected rest) as [[j d]| |]; cbn in *.
      * destruct IH as (Hj & Hjs & Hsub). repeat split; [exact Hj|exact Hjs|]. set_solver.
      * exact IH.
      * set_solver.
    + repeat split; [apply Nat.mod_upper_bound; lia|exact Hout|]. cbn. set_solver.
Qed.

(** The second branch does not raise; it goes on drawing only when the
    numbers supplied hold fewer than [k] unselected positions. *)
Lemma sample_set_total {A} (k : nat) (population : list A) :
  forall (selected : gset nat) draws,
    (0 < length population)%nat ->
    match sample_set k (length population) population selected draws with
    | Returns _ => True
    | Raises _ => False
    | Starved => (size (residues (length population) draws ∖ selected) < k)%nat
    end.
Proof.
  induction k as [|k IH]; intros selected draws Hn; cbn [sample_set]; [exact I|].
  pose proof (draw_unselected_spec (length population) selected draws Hn) as Hd.
  destruct (draw_unselected _ selected draws) as [[j d1]| |]; cbn [mbind outcome_bind].
  - destruct Hd as (Hj & Hjs & Hsub).
    destruct (py_index_lt population j Hj) as (x & -> & _). cbn [mbind outcome_bind].
    specialize (IH ({[j]} ∪ selected) d1 Hn).
    destruct (sample_set k _ population _ d1) as [[res d2]| |]; cbn in *;
      [exact I|exact IH|].
    set (Y := residues (length population) d1 ∖ ({[j]} ∪ selected)) in *.
    assert (Hle : residues (length population) draws ∖ selected ⊆ {[j]} ∪ Y).
    { intros y Hy. apply Hsub in Hy as Hy'.
      destruct (decide (y = j)) as [->|Hne]; [set_solver|].
      apply elem_of_union_r. subst Y. set_solver. }
    apply subseteq_size in Hle.
    pose proof (size_union_alt (C:=gset nat) {[j]} Y) as E.
    rewrite size_singleton in E.
    pose proof (subseteq_size (Y ∖ {[j]}) Y ltac:(set_solver)) as Hle2.
    lia.
  - exact Hd.
  - cbn. assert (E : residues (length population) draws ∖ selected ≡ ∅) by set_solver.
    rewrite E, size_empty. lia.
Qed.

Lemma sample_set_positions {A} (k : nat) (population : list A) :
  forall (selected : gset nat) draws res draws',
    sample_set k (length population) population selected draws = Returns (res, draws') ->
    length res = k /\
    exists positions,
      chosen_from population res positions /\ forall p, p ∈ positions -> p ∉ selected.
Proof.
  induction k as [|k IH]; intros selected draws res draws'; cbn [sample_set].
  - intros [= <- _]. split; [reflexivity|]. exists []. repeat split; try constructor.
    intros p Hp. inversion Hp.
  - destruct (Nat.eq_dec (length population) 0%nat) as [Hz|Hnz].
    { destruct population; [|discriminate].
      destruct (draw_unselected _ _ _) as [[j d1]| |]; cbn; discriminate. }
    pose proof (draw_unselected_spec (length population) selected draws ltac:(lia)) as Hd.
    destruct (draw_unselected _ selected draws) as [[j d1]| |]; cbn [mbind outcome_bind];
      try discriminate.
    destruct Hd as (Hj & Hjs & _).
    destruct (py_index_lt population j Hj) as (x & -> & Hx). cbn [mbind outcome_bind].
    destruct (sample_set k _ population _ d1) as [[r1 d2]| |] eqn:E; cbn; try discriminate.
    intros [= <- _]. apply IH in E as (Hlen & ps & [Hnd Hrel] & Hsel).
    split; [cbn; lia|]. exists (j :: ps). repeat split.
    + constructor; [|exact Hnd]. intros Hmem. apply Hsel in Hmem. set_solver.
    + constructor; assumption.
    + intros p Hp. apply elem_of_cons in Hp as [->|Hp]; [exact Hjs|].
      apply Hsel in Hp. set_solver.
Qed.

Lemma residues_size (n : nat) draws : (size (residues n draws) <= length draws)%nat.
Proof.
  induction draws as [|r rest IH].
  - unfold residues. cbn. rewrite size_empty. lia.
  - change (residues n (r :: rest)) with ({[(r mod n)%nat]} ∪ residues n rest).
    pose proof (size_union_alt (C:=gset nat) {[(r mod n)%nat]} (residues n rest)) as E.
    rewrite size_singleton in E.
    pose proof (subseteq_size (residues n rest ∖ {[(r mod n)%nat]}) (residues n rest)
                  ltac:(set_solver)) as Hle.
    cbn [length]. lia.
Qed.

Lemma chosen_from_members {A} (pool items : list A) positions :
  chosen_from pool items positions -> forall x, x ∈ items -> x ∈ pool.
Proof.
  intros [_ Hrel] x Hx. apply list_elem_of_lookup in Hx as [i Hi].
  destruct (Forall2_lookup_l _ _ _ _ _ Hrel Hi) as (p & _ & Hp).
  eapply list_elem_of_lookup_2, Hp.
Qed.

(** [random.sample(population, k)] for [0 < k <= len(population)]. *)
Lemma random_sample_spec {A} (population : list A) (k : Z) draws :
  0 < k <= Z.of_nat (length population) ->
  match random_sample population k draws with
  | Returns (items, _) =>
      length items = Z.to_nat k /\ exists positions, chosen_from population items positions
  | Raises _ => False
  | Starved => (size (residues (length population) draws) < Z.to_nat k)%nat
  end.
Proof.
  intros Hk. unfold random_sample.
  replace ((0 <=? k) && (k <=? Z.of_nat (length population))) with true
    by (symmetry; apply andb_true_iff; rewrite !Z.leb_le; lia).
  cbn [negb]. destruct (_ <=? _).
  - pose proof (sample_pool_total (Z.to_nat k) (length population) population draws
                  ltac:(lia)) as Ht.
    destruct (sample_pool _ _ population draws) as [[items d]| |] eqn:E.
    + split; [eapply sample_pool_length, E|].
      eapply (sample_pool_positions (Z.to_nat k)); [lia|exact E].
    + exact Ht.
    + pose proof (residues_size (length population) draws). lia.
  - pose proof (sample_set_total (Z.to_nat k) population ∅ draws ltac:(lia)) as Ht.
    destruct (sample_set _ _ population ∅ draws) as [[items d]| |] eqn:E.
    + apply sample_set_positions in E as (Hlen & ps & Hps & _). eauto.
    + exact Ht.
    + replace (residues (length population) draws ∖ ∅) with (residues (length population) draws)
        in Ht by set_solver.
      exact Ht.
Qed.

(** The sampling step for any target count. *)
Lemma sample_display_items_spec (pool : list json) (k : Z) (draws : list nat) :
  match GenerateDataAI.sample_display_items pool k draws with
  | Returns items =>
      length items = Z.to_nat (Z.min k (Z.of_nat (length pool))) /\
      exists positions, chosen_from pool items positions
  | Raises _ => False
  | Starved =>
      (size (residues (length pool) draws) < Z.to_nat (Z.min k (Z.of_nat (length pool))))%nat
  end.
Proof.
  unfold GenerateDataAI.sample_display_items.
  destruct (0 <? Z.min k (Z.of_nat (length pool))) eqn:Epos.
  - apply Z.ltb_lt in Epos.
    pose proof (random_sample_spec pool (Z.min k (Z.of_nat (length pool))) draws
                  ltac:(lia)) as Hs.
    destruct (random_sample pool _ draws) as [[items d]| |];
      cbn [mbind outcome_bind mret outcome_ret]; exact Hs.
  - apply Z.ltb_ge in Epos. cbn.
    replace (Z.to_nat (Z.min k (Z.of_nat (length pool)))) with 0%nat by lia.
    split; [reflexivity|]. exists []. split; constructor.
Qed.

(** C8.  With the target count 5 the sampling step of [update_history]
    never raises.  When it returns, it returns [min(5, len(pool))]
    items taken at distinct positions of the pool, each one a member of
    the pool, and nothing when the pool is empty.  It is still drawing
    only when the random numbers supplied hold fewer than
    [min(5, len(pool))] different positions. *)
Theorem sampler_bound (pool : list json) (draws : list nat) :
  match GenerateDataAI.sample_display_items pool 5 draws with
  | Returns items =>
      length items = Nat.min 5 (length pool) /\
      (exists positions, chosen_from pool items positions) /\
      (forall x, x ∈ items -> x ∈ pool) /\
      (pool = [] -> items = [])
  | Raises _ => False
  | Starved => (size (residues (length pool) draws) < Nat.min 5 (length pool))%nat
  end.
Proof.
  pose proof (sample_display_items_spec pool 5 draws) as Hs.
  replace (Z.to_nat (Z.min 5 (Z.of_nat (length pool)))) with (Nat.min 5 (length pool))
    in Hs by lia.
  destruct (GenerateDataAI.sample_display_items pool 5 draws) as [items| |];
    [|exact Hs|exact Hs].
  destruct Hs as (Hlen & ps & Hps). repeat split.
  - exact Hlen.
  - exists ps. exact Hps.
  - eapply chosen_from_members, Hps.
  - intros ->. destruct items; [reflexivity|cbn in Hlen; lia].
Qed.

Example sample_of_25 :
  GenerateDataAI.sample_display_items (JNum <$> seqZ 0 25) 5 [30; 5; 55; 7; 7; 32; 24; 0; 1]%nat
  = Returns [JNum 5; JNum 7; JNum 24; JNum 0; JNum 1].
Proof. vm_compute. reflexivity. Qed.

Example sample_of_25_starved :
  GenerateDataAI.sample_display_items (JNum <$> seqZ 0 25) 5 [30; 5; 55; 7; 7; 32; 24]%nat
  = Starved.
Proof. vm_compute. reflexivity. Qed.

(** ** Malformed entries *)

(** C4, as the code has it.  On a history file that decodes to a list
    whose entries are all dicts with a string [date], the prune loop
    and the same-day filter of [update_history] run to their end
    without an exception, and every entry whose date does not parse as
    a calendar date is dropped.  The call then writes today's record
    and the survivors and returns the items of the day; if it raises,
    the items were drawn and it is [json.dump] that has raised, on the
    log to be written. *)
Theorem well_formed_log_pruned `{C : JsonCodec} (dir : string) (now : datetime.t)
    (draws : list nat) (new_items : list json) (target_count : Z) (fs : filesystem)
    (text : string) (entries : list json) :
  fs !! history_path dir = Some text ->
  json_loads text = Decoded (JList entries) ->
  Forall (fun e => is_Some (record_date e)) entries ->
  30 < datetime.toordinal now <= 3652089 ->
  GenerateDataAI.prune (cutoff now) entries
  = Returns (List.filter (retained (cutoff now)) entries) /\
  GenerateDataAI.drop_today (strftime now "%Y/%m/%d")
    (List.filter (retained (cutoff now)) entries)
  = Returns (survivors now entries) /\
  (forall e, e ∈ entries -> record_instant e = None -> e ∉ survivors now entries) /\
  match GenerateDataAI.update_history dir now draws new_items target_count fs with
  | Returns (items, fs') =>
      GenerateDataAI.sample_display_items new_items target_count draws = Returns items /\
      write_json (history_path dir) (JList (today_entry now items :: survivors now entries)) fs
      = Returns fs'
  | Raises e =>
      exists items,
        GenerateDataAI.sample_display_items new_items target_count draws = Returns items /\
        json_dumps (JList (today_entry now items :: survivors now entries)) = EncoderRaises e
  | Starved =>
      (size (residues (length new_items) draws)
       < Z.to_nat (Z.min target_count (Z.of_nat (length new_items))))%nat
  end.
Proof.
  intros Hfile Hdec Hwf Hnow.
  assert (Hit : history_entries fs (history_path dir) = Returns entries).
  { unfold history_entries, load_history. rewrite Hfile, Hdec. reflexivity. }
  split; [apply PruneFacts.prune_well_formed, Hwf|].
  split.
  { rewrite PruneFacts.drop_today_well_formed by (apply Forall_filter_keep, Hwf).
    rewrite filter_filter. reflexivity. }
  split.
  { intros e _ Hnone Hin. unfold survivors in Hin.
    apply list_elem_of_In, filter_In in Hin as [_ Hin].
    apply andb_true_iff in Hin as [Hin _]. unfold retained in Hin.
    rewrite Hnone in Hin. discriminate. }
  pose proof (sample_display_items_spec new_items target_count draws) as Hs.
  destruct (GenerateDataAI.sample_display_items new_items target_count draws)
    as [items| |] eqn:Es.
  - rewrite (update_history_well_formed dir now draws new_items target_count fs entries items
               Hit Hwf Es Hnow).
    unfold write_json.
    destruct (json_dumps (JList (today_entry now items :: survivors now entries)))
      as [out|e] eqn:Ed; cbn [mbind outcome_bind mret outcome_ret].
    + rewrite Ed. split; reflexivity.
    + exists items. split; [reflexivity|exact Ed].
  - destruct Hs.
  - unfold GenerateDataAI.update_history, os_path_join, GenerateDataAI.HISTORY_FILE_NAME.
    fold (history_path dir). unfold load_history. rewrite Hfile, Hdec.
    cbn [mbind outcome_bind]. rewrite (sub_days_returns now Hnow). cbn [mbind outcome_bind py_iter].
    rewrite (PruneFacts.prune_well_formed _ _ Hwf). cbn [mbind outcome_bind].
    rewrite Es. exact Hs.
Qed.

Lemma well_formed_log_pruned_witness :
  GenerateDataAI.prune (cutoff demo_now) demo_log_feb30
  = Returns (List.filter (retained (cutoff demo_now)) demo_log_feb30) /\
  GenerateDataAI.drop_today (strftime demo_now "%Y/%m/%d")
    (List.filter (retained (cutoff demo_now)) demo_log_feb30)
  = Returns (survivors demo_now demo_log_feb30) /\
  (forall e, e ∈ demo_log_feb30 -> record_instant e = None ->
             e ∉ survivors demo_now demo_log_feb30) /\
  match @GenerateDataAI.update_history JsonText.codec demo_dir demo_now demo_draws demo_items 5
          demo_fs_feb30 with
  | Returns (items, fs') =>
      GenerateDataAI.sample_display_items demo_items 5 demo_draws = Returns items /\
      @write_json JsonText.codec (history_path demo_dir)
        (JList (today_entry demo_now items :: survivors demo_now demo_log_feb30)) demo_fs_feb30
      = Returns fs'
  | Raises e =>
      exists items,
        GenerateDataAI.sample_display_items demo_items 5 demo_draws = Returns items /\
        @json_dumps JsonText.codec
          (JList (today_entry demo_now items :: survivors demo_now demo_log_feb30))
        = EncoderRaises e
  | Starved =>
      (size (residues (length demo_items) demo_draws)
       < Z.to_nat (Z.min 5 (Z.of_nat (length demo_items))))%nat
  end.
Proof.
  apply (@well_formed_log_pruned JsonText.codec demo_dir demo_now demo_draws demo_items 5
           demo_fs_feb30 (JsonText.dumps (JList demo_log_feb30)) demo_log_feb30).
  - reflexivity.
  - apply JsonText_loads_dumps_codec.
  - repeat constructor; eexists; reflexivity.
  - vm_compute. split; [reflexivity|discriminate].
Defined.

(** The sample run on the log with the record of 30 February: the
    record is gone from the saved log. *)
Example demo_run_feb30 :
  @GenerateDataAI.update_history JsonText.codec demo_dir demo_now demo_draws demo_items 5
    demo_fs_feb30
  = Returns (demo_picks,
             <[history_path demo_dir :=
                 JsonText.dumps (JList [today_entry demo_now demo_picks;
                                        demo_record "2025/10/20" "recommend_20251020.html"])]>
               demo_fs_feb30).
Proof. vm_compute. reflexivity. Qed.

(** A history that decodes, with an entry that has no [date], and one
    whose [date] is a number: the call raises [KeyError], and
    [TypeError]. *)
Lemma malformed_entry_counterexample :
  JsonText.loads (JsonText.dumps (JList [demo_undated])) = Some (JList [demo_undated]) /\
  @GenerateDataAI.update_history JsonText.codec demo_dir demo_now demo_draws demo_items 5
    {[ history_path demo_dir := JsonText.dumps (JList [demo_undated]) ]}
  = Raises KeyError /\
  JsonText.loads (JsonText.dumps (JList [demo_numeric_date]))
  = Some (JList [demo_numeric_date]) /\
  @GenerateDataAI.update_history JsonText.codec demo_dir demo_now demo_draws demo_items 5
    {[ history_path demo_dir := JsonText.dumps (JList [demo_numeric_date]) ]}
  = Raises TypeError.
Proof. repeat split; vm_compute; reflexivity. Qed.

(** ** What the janitor's pattern matches *)

Lemma strip_prefix_iff p s r : strip_prefix p s = Some r <-> s = p +:+ r.
Proof.
  revert s. induction p as [|a p IH]; intros s; cbn [strip_prefix].
  - rewrite append_Empty. split; [intros [= ->]; reflexivity|intros ->; reflexivity].
  - rewrite append_String. destruct s as [|b s]; [split; discriminate|].
    destruct (Ascii.eqb_spec a b) as [->|Hne].
    + rewrite IH. split; [intros ->; reflexivity|intros [= ->]; reflexivity].
    + split; [discriminate|intros [= Hab _]; congruence].
Qed.

Lemma take_digits_iff n s g r :
  take_digits n s = Some (g, r) <->
  s = g +:+ r /\ String.length g = n /\ all_digits g = true.
Proof.
  split.
  - revert s g r. induction n as [|n IH]; intros s g r; cbn [take_digits].
    + intros [= <- <-]. auto.
    + destruct s as [|c s]; [discriminate|].
      destruct (is_digit c) eqn:Hc; [|discriminate].
      destruct (take_digits n s) as [[g' r']|] eqn:E; [|discriminate].
      cbn [mbind option_bind]. intros [= <- <-].
      apply IH in E as (-> & Hlen & Hdig).
      rewrite append_String. cbn [String.length all_digits]. rewrite Hc, Hdig, Hlen. auto.
  - intros (-> & <- & Hdig). apply take_digits_all, Hdig.
Qed.

(** A name matches when it starts with [recommend_], eight digits and
    [.html]; what follows is free. *)
Lemma date_pattern_match_iff name g :
  date_pattern_match name = Some g <->
  exists rest,
    name = "recommend_" +:+ g +:+ ".html" +:+ rest /\
    String.length g = 8%nat /\ all_digits g = true.
Proof.
  unfold date_pattern_match. split.
  - destruct (strip_prefix "recommend_" name) as [r1|] eqn:E1; [|discriminate].
    cbn [mbind option_bind].
    destruct (take_digits 8 r1) as [[g' r2]|] eqn:E2; [|discriminate].
    cbn [mbind option_bind].
    destruct (strip_prefix ".html" r2) as [r3|] eqn:E3; [|discriminate].
    cbn [mbind option_bind]. intros [= ->].
    apply strip_prefix_iff in E1, E3. apply take_digits_iff in E2 as (E2 & Hlen & Hdig).
    exists r3. subst. auto.
  - intros (rest & -> & Hlen & Hdig).
    rewrite (proj2 (strip_prefix_iff "recommend_" _ _) eq_refl). cbn [mbind option_bind].
    rewrite (proj2 (take_digits_iff 8 (g +:+ ".html" +:+ rest) g (".html" +:+ rest))
               (conj eq_refl (conj Hlen Hdig))).
    cbn [mbind option_bind].
    rewrite (proj2 (strip_prefix_iff ".html" _ _) eq_refl). reflexivity.
Qed.

(** ** The janitor *)

Lemma strptime_compact_outcome s :
  (exists dt, strptime s "%Y%m%d" = Returns dt) \/ strptime s "%Y%m%d" = Raises ValueError.
Proof. apply strptime_outcome. Qed.

Module JanitorFacts.
Import GenerateDataAI.

(** The loop removes the expired names of the listing, one by one, and
    counts them. *)
Lemma cleanup_loop_spec (c : instant) (dir : string) (listing : list string) :
  forall (fs : filesystem) n,
    cleanup_loop c dir listing fs n =
    Returns (foldl (fun acc name => delete (dir, name) acc) fs (List.filter (expired c) listing),
             n + Z.of_nat (length (List.filter (expired c) listing))).
Proof.
  induction listing as [|name rest IH]; intros fs n.
  - cbn. do 2 f_equal. lia.
  - cbn [cleanup_loop List.filter].
    assert (Hbody : expired c name =
                    match date_pattern_match name with
                    | Some date_str =>
                        match strptime date_str "%Y%m%d" with
                        | Returns file_date => instant_lt (instant_of file_date) c
                        | _ => false
                        end
                    | None => false
                    end) by reflexivity.
    destruct (date_pattern_match name) as [date_str|].
    + destruct (strptime_compact_outcome date_str) as [[dt E]|E]; rewrite E in *.
      * rewrite Hbody. destruct (instant_lt (instant_of dt) c).
        -- rewrite IH. cbn [foldl length]. unfold os_path_join.
           rewrite Nat2Z.inj_succ. f_equal. f_equal. lia.
        -- apply IH.
      * rewrite Hbody. apply IH.
    + rewrite Hbody. apply IH.
Qed.

Lemma lookup_foldl_delete (dir : string) (names : list string) :
  forall (fs : filesystem) d name,
    foldl (fun acc name => delete (dir, name) acc) fs names !! (d, name)
    = if decide (d = dir /\ name ∈ names) then None else fs !! (d, name).
Proof.
  induction names as [|x names IH]; intros fs d name; cbn [foldl].
  - destruct (decide _) as [[_ H]|_]; [inversion H|reflexivity].
  - rewrite IH. destruct (decide (d = dir /\ name ∈ names)) as [[-> Hin]|Hout].
    + rewrite decide_True by (split; [reflexivity|right; exact Hin]). reflexivity.
    + destruct (decide ((d, name) = (dir, x))) as [[= -> ->]|Hne].
      * rewrite lookup_delete_eq, decide_True; [reflexivity|]. split; [reflexivity|left].
      * rewrite lookup_delete_ne by congruence.
        destruct (decide (d = dir /\ name ∈ x :: names)) as [[-> Hin]|_]; [|reflexivity].
        apply elem_of_cons in Hin as [->|Hin]; [congruence|]. tauto.
Qed.

Lemma elem_of_os_listdir (fs : filesystem) dir name :
  name ∈ os_listdir fs dir <-> is_Some (fs !! (dir, name)).
Proof.
  unfold os_listdir. rewrite list_elem_of_omap. split.
  - intros ([[d n] text] & Hin & Heq). apply elem_of_map_to_list in Hin.
    destruct (decide (d = dir)) as [->|]; [|discriminate]. injection Heq as ->. eauto.
  - intros [text Ht]. exists ((dir, name), text). split; [apply elem_of_map_to_list, Ht|].
    rewrite decide_True by reflexivity. reflexivity.
Qed.

(** The janitor leaves exactly the files [janitor_keeps] describes. *)
Lemma cleanup_old_html_files_filter (dir : string) (now : datetime.t) (fs : filesystem) :
  30 < datetime.toordinal now <= 3652089 ->
  exists n,
    cleanup_old_html_files dir now fs
    = Returns (filter (janitor_keeps (cutoff now) dir) fs, n).
Proof.
  intros Hnow. unfold cleanup_old_html_files.
  rewrite (sub_days_returns now Hnow). cbn [mbind outcome_bind].
  rewrite cleanup_loop_spec. eexists. do 2 f_equal.
  apply map_eq. intros [d name]. rewrite lookup_foldl_delete.
  destruct (decide (d = dir /\ name ∈ List.filter (expired (cutoff now)) (os_listdir fs dir)))
    as [[-> Hin]|Hout].
  - symmetry. apply map_lookup_filter_None. right. intros text _ Hkeep. apply Hkeep.
    apply list_elem_of_In, filter_In in Hin. tauto.
  - destruct (fs !! (d, name)) as [text|] eqn:Ef.
    + symmetry. apply map_lookup_filter_Some. split; [exact Ef|].
      intros [Hd Hexp]. cbn in Hd, Hexp. subst d. apply Hout. split; [reflexivity|].
      apply list_elem_of_In, filter_In. split; [|exact Hexp].
      apply list_elem_of_In, elem_of_os_listdir. eauto.
    + symmetry. apply map_lookup_filter_None. left. exact Ef.
Qed.

End JanitorFacts.

Lemma expired_iff c name :
  expired c name = true <->
  exists date_str file_date,
    date_pattern_match name = Some date_str /\
    strptime date_str "%Y%m%d" = Returns file_date /\
    instant_lt (instant_of file_date) c = true.
Proof.
  unfold expired. split.
  - destruct (date_pattern_match name) as [date_str|]; [|discriminate].
    destruct (strptime date_str "%Y%m%d") as [dt| |] eqn:E; try discriminate. eauto.
  - intros (date_str & dt & -> & -> & H). exact H.
Qed.

(** What the janitor does: it returns, and of the files of its
    directory it deletes exactly those whose name [date_pattern.match]
    accepts, with a group that parses as a date older than the cutoff.
    A name that does not match stays, a name whose eight digits are not
    a date of the calendar stays, the files that stay keep their
    content, and other directories are not touched.  The match is
    anchored at the start of the name only ([date_pattern_match_iff]). *)
Lemma janitor_deletes_exactly (dir : string) (now : datetime.t) (fs : filesystem) :
  30 < datetime.toordinal now <= 3652089 ->
  exists fs' deleted_count,
    GenerateDataAI.cleanup_old_html_files dir now fs = Returns (fs', deleted_count) /\
    (forall name text,
       fs !! (dir, name) = Some text ->
       (fs' !! (dir, name) = None <->
        exists date_str file_date,
          date_pattern_match name = Some date_str /\
          strptime date_str "%Y%m%d" = Returns file_date /\
          instant_lt (instant_of file_date) (cutoff now) = true) /\
       (fs' !! (dir, name) = None \/ fs' !! (dir, name) = Some text)) /\
    (forall name,
       date_pattern_match name = None -> fs' !! (dir, name) = fs !! (dir, name)) /\
    (forall name date_str,
       date_pattern_match name = Some date_str ->
       strptime date_str "%Y%m%d" = Raises ValueError ->
       fs' !! (dir, name) = fs !! (dir, name)) /\
    (forall d name, d <> dir -> fs' !! (d, name) = fs !! (d, name)) /\
    (forall path, fs !! path = None -> fs' !! path = None).
Proof.
  intros Hnow.
  destruct (JanitorFacts.cleanup_old_html_files_filter dir now fs Hnow) as [n Hrun].
  eexists _, n. split; [exact Hrun|].
  set (c := cutoff now).
  assert (Hkept : forall d name, ~ (d = dir /\ expired c name = true) ->
                    filter (janitor_keeps c dir) fs !! (d, name) = fs !! (d, name)).
  { intros d name Hk. destruct (fs !! (d, name)) as [text|] eqn:Ef.
    - apply map_lookup_filter_Some. split; [exact Ef|exact Hk].
    - apply map_lookup_filter_None. left. exact Ef. }
  assert (Hgone : forall name, expired c name = true ->
                    filter (janitor_keeps c dir) fs !! (dir, name) = None).
  { intros name Hexp. apply map_lookup_filter_None. right. intros text _ Hk.
    apply Hk. split; [reflexivity|exact Hexp]. }
  repeat split.
  - intros Hnone. apply expired_iff. destruct (expired c name) eqn:Hexp; [reflexivity|].
    rewrite Hkept in Hnone by (intros [_ ?]; congruence). congruence.
  - intros Hexp. apply Hgone, expired_iff, Hexp.
  - destruct (expired c name) eqn:Hexp; [left; apply Hgone, Hexp|right].
    rewrite Hkept by (intros [_ ?]; congruence). exact H.
  - intros name Hno. apply Hkept. intros [_ Hexp]. unfold expired in Hexp.
    rewrite Hno in Hexp. discriminate.
  - intros name date_str Hm Hbad. apply Hkept. intros [_ Hexp]. unfold expired in Hexp.
    rewrite Hm, Hbad in Hexp. discriminate.
  - intros d name Hd. apply Hkept. tauto.
  - intros path Hnone. apply map_lookup_filter_None. left. exact Hnone.
Qed.

Lemma janitor_deletes_exactly_witness :
  exists fs' deleted_count,
    GenerateDataAI.cleanup_old_html_files demo_dir demo_now demo_fs
    = Returns (fs', deleted_count) /\
    (forall name text,
       demo_fs !! (demo_dir, name) = Some text ->
       (fs' !! (demo_dir, name) = None <->
        exists date_str file_date,
          date_pattern_match name = Some date_str /\
          strptime date_str "%Y%m%d" = Returns file_date /\
          instant_lt (instant_of file_date) (cutoff demo_now) = true) /\
       (fs' !! (demo_dir, name) = None \/ fs' !! (demo_dir, name) = Some text)) /\
    (forall name,
       date_pattern_match name = None -> fs' !! (demo_dir, name) = demo_fs !! (demo_dir, name)) /\
    (forall name date_str,
       date_pattern_match name = Some date_str ->
       strptime date_str "%Y%m%d" = Raises ValueError ->
       fs' !! (demo_dir, name) = demo_fs !! (demo_dir, name)) /\
    (forall d name, d <> demo_dir -> fs' !! (d, name) = demo_fs !! (d, name)) /\
    (forall path, demo_fs !! path = None -> fs' !! path = None).
Proof.
  apply (janitor_deletes_exactly demo_dir demo_now demo_fs).
  vm_compute. split; [reflexivity|discriminate].
Defined.

(** On the sample files the janitor deletes the page of 6 September,
    45 days old, and nothing else. *)
Example demo_cleanup :
  files_after demo_dir
    ["history.json"; "recommend_20251020.html"; "recommend_20250906.html";
     "recommend_20251001.html"; "index.html"]
    (GenerateDataAI.cleanup_old_html_files demo_dir demo_now demo_fs)
  = Returns ([true; true; false; true; true], 1).
Proof. vm_compute. reflexivity. Qed.

(** A page whose eight digits are no date stays; a page whose name
    starts with a capital stays. *)
Example demo_cleanup_names :
  files_after demo_dir
    ["recommend_20250230.html"; "Recommend_20250101.html"]
    (GenerateDataAI.cleanup_old_html_files demo_dir demo_now
       {[ (demo_dir, "recommend_20250230.html") := "a";
          (demo_dir, "Recommend_20250101.html") := "c" ]})
  = Returns ([true; true], 0).
Proof. vm_compute. reflexivity. Qed.

(** The names of pages are among the names the pattern accepts. *)
Lemma page_name_date_match (name g : string) :
  page_name_date name = Some g -> date_pattern_match name = Some g.
Proof.
  unfold page_name_date, date_pattern_match.
  destruct (strip_prefix "recommend_" name) as [r1|]; [|discriminate].
  cbn [mbind option_bind].
  destruct (take_digits 8 r1) as [[g' r2]|]; [|discriminate].
  cbn [mbind option_bind].
  destruct (strip_prefix ".html" r2) as [[|c r3]|]; cbn [mbind option_bind];
    [intros [= ->]; reflexivity|discriminate..].
Qed.

Lemma page_name_date_iff (name g : string) :
  page_name_date name = Some g <->
  name = "recommend_" +:+ g +:+ ".html" /\ String.length g = 8%nat /\ all_digits g = true.
Proof.
  split.
  - intros H. pose proof (page_name_date_match name g H) as Hm.
    apply date_pattern_match_iff in Hm as (rest & -> & Hlen & Hdig).
    unfold page_name_date in H.
    rewrite (proj2 (strip_prefix_iff "recommend_" _ _) eq_refl) in H.
    cbn [mbind option_bind] in H.
    rewrite (proj2 (take_digits_iff 8 (g +:+ ".html" +:+ rest) g (".html" +:+ rest))
               (conj eq_refl (conj Hlen Hdig))) in H.
    cbn [mbind option_bind] in H.
    rewrite (proj2 (strip_prefix_iff ".html" _ _) eq_refl) in H.
    cbn [mbind option_bind] in H.
    destruct rest; [|discriminate]. rewrite append_Empty_r. auto.
  - intros (-> & Hlen & Hdig). unfold page_name_date.
    rewrite (proj2 (strip_prefix_iff "recommend_" _ _) eq_refl). cbn [mbind option_bind].
    rewrite (proj2 (take_digits_iff 8 (g +:+ ".html") g ".html")
               (conj eq_refl (conj Hlen Hdig))).
    reflexivity.
Qed.

(** C7.  The janitor does not stop at the names of the form
    [recommend_<8 digits>.html]: its pattern is applied with [match]
    and has no anchor at the end, so a name that goes on after [.html]
    matches as well, and its file is deleted when the digits are a date
    older than the cutoff.  On the sample day the janitor of either
    revision deletes [recommend_20250101.html.bak] and
    [recommend_20250101.htmlx] along with [recommend_20250101.html],
    and counts three files. *)
Theorem janitor_deletes_suffixed_names :
  page_name_date "recommend_20250101.html" = Some "20250101" /\
  page_name_date "recommend_20250101.html.bak" = None /\
  page_name_date "recommend_20250101.htmlx" = None /\
  date_pattern_match "recommend_20250101.html.bak" = Some "20250101" /\
  date_pattern_match "recommend_20250101.htmlx" = Some "20250101" /\
  files_after demo_dir
    ["recommend_20250101.html"; "recommend_20250101.html.bak"; "recommend_20250101.htmlx";
     "index.html"]
    (GenerateDataAI.cleanup_old_html_files demo_dir demo_now
       {[ (demo_dir, "recommend_20250101.html") := "a";
          (demo_dir, "recommend_20250101.html.bak") := "b";
          (demo_dir, "recommend_20250101.htmlx") := "c";
          (demo_dir, "index.html") := "d" ]})
  = Returns ([false; false; false; true], 3) /\
  files_after demo_dir
    ["recommend_20250101.html"; "recommend_20250101.html.bak"; "recommend_20250101.htmlx";
     "index.html"]
    (GenerateData.cleanup_old_html_files demo_dir demo_now
       {[ (demo_dir, "recommend_20250101.html") := "a";
          (demo_dir, "recommend_20250101.html.bak") := "b";
          (demo_dir, "recommend_20250101.htmlx") := "c";
          (demo_dir, "index.html") := "d" ]})
  = Returns ([false; false; false; true], 3).
Proof. repeat split; vm_compute; reflexivity. Qed.

(** ** The janitor and the retention pass together *)

Lemma cleanup_old_html_files_eq (dir : string) (now : datetime.t) (fs : filesystem) :
  GenerateDataAI.cleanup_old_html_files dir now fs =
  c ← sub_days now GenerateDataAI.MAX_DAYS;
  mret (filter (janitor_keeps c dir) fs,
        Z.of_nat (length (List.filter (expired c) (os_listdir fs dir)))).
Proof.
  destruct (sub_days now GenerateDataAI.MAX_DAYS) as [c|e|] eqn:Ec.
  - assert (Hnow : 30 < datetime.toordinal now <= 3652089).
    { unfold sub_days, GenerateDataAI.MAX_DAYS, datetime._MAXORDINAL in Ec.
      destruct (_ && _) eqn:E; [|discriminate].
      apply andb_true_iff in E as [E1 E2]. apply Z.ltb_lt in E1. apply Z.leb_le in E2. lia. }
    destruct (JanitorFacts.cleanup_old_html_files_filter dir now fs Hnow) as [n Hrun].
    apply sub_days_cutoff in Ec as ->. rewrite Hrun. cbn [mbind outcome_bind mret outcome_ret].
    unfold GenerateDataAI.cleanup_old_html_files in Hrun.
    rewrite (sub_days_returns now Hnow) in Hrun. cbn [mbind outcome_bind] in Hrun.
    rewrite JanitorFacts.cleanup_loop_spec in Hrun. injection Hrun as _ <-. reflexivity.
  - unfold GenerateDataAI.cleanup_old_html_files. rewrite Ec. reflexivity.
  - unfold GenerateDataAI.cleanup_old_html_files. rewrite Ec. reflexivity.
Qed.

Lemma history_not_expired c : expired c "history.json" = false.
Proof. reflexivity. Qed.

Lemma janitor_keeps_history c dir text : janitor_keeps c dir (history_path dir, text).
Proof. intros [_ H]. cbn in H. discriminate. Qed.

Lemma lookup_history_filter (c : instant) (dir : string) (fs : filesystem) :
  filter (janitor_keeps c dir) fs !! history_path dir = fs !! history_path dir.
Proof.
  destruct (fs !! history_path dir) as [text|] eqn:E.
  - apply map_lookup_filter_Some. split; [exact E|apply janitor_keeps_history].
  - apply map_lookup_filter_None. left. exact E.
Qed.

Lemma load_history_filter `{C : JsonCodec} (c : instant) (dir : string) (fs : filesystem) :
  load_history (filter (janitor_keeps c dir) fs) (history_path dir)
  = load_history fs (history_path dir).
Proof. unfold load_history. rewrite lookup_history_filter. reflexivity. Qed.

(** The two passes commute, once the clock is past January of the
    year 1.  (Before that, the pass that runs first is the one whose
    exception is seen: [OverflowError] from the janitor, or what
    [json.load] raises from the update.) *)
Lemma janitor_policy_commute `{C : JsonCodec} (dir : string) (now : datetime.t)
    (draws : list nat) (new_items : list json) (target_count : Z) (fs : filesystem)
    (c : instant) :
  sub_days now GenerateDataAI.MAX_DAYS = Returns c ->
  janitor_then_policy dir now draws new_items target_count fs
  = policy_then_janitor dir now draws new_items target_count fs.
Proof.
  intros Ec.
  unfold janitor_then_policy, policy_then_janitor.
  rewrite cleanup_old_html_files_eq, Ec. cbn [mbind outcome_bind mret outcome_ret].
  unfold GenerateDataAI.update_history, os_path_join, GenerateDataAI.HISTORY_FILE_NAME.
  fold (history_path dir).
  rewrite load_history_filter.
  destruct (load_history fs (history_path dir)) as [history| |];
    cbn [mbind outcome_bind mret outcome_ret]; try reflexivity.
  rewrite Ec. cbn [mbind outcome_bind mret outcome_ret].
  destruct (py_iter history); cbn [mbind outcome_bind mret outcome_ret]; try reflexivity.
  destruct (GenerateDataAI.prune _ _); cbn [mbind outcome_bind mret outcome_ret]; try reflexivity.
  destruct (GenerateDataAI.sample_display_items _ _ _);
    cbn [mbind outcome_bind mret outcome_ret]; try reflexivity.
  destruct (GenerateDataAI.drop_today _ _); cbn [mbind outcome_bind mret outcome_ret];
    try reflexivity.
  unfold write_json. destruct (json_dumps _) as [text|e];
    cbn [mbind outcome_bind mret outcome_ret]; [|reflexivity].
  rewrite cleanup_old_html_files_eq, Ec. cbn [mbind outcome_bind mret outcome_ret].
  rewrite map_filter_insert_True by apply janitor_keeps_history. reflexivity.
Qed.

Lemma strptime_returns_date s fmt dt :
  strptime s fmt = Returns dt ->
  datetime.check_date_fields (datetime.year dt) (datetime.month dt) (datetime.day dt) = true /\
  dt = datetime.date dt.
Proof.
  unfold strptime. destruct (re_match _ _ _) as [|[f [|c r]] tl]; try discriminate.
  destruct (datetime.check_date_fields _ _ _) eqn:E; [|discriminate].
  intros [= <-]. split; [exact E|reflexivity].
Qed.

(** Whether the janitor takes the page of a date is the comparison of
    that date with the cutoff. *)
Lemma artifact_expired c dt :
  datetime.check_date_fields (datetime.year dt) (datetime.month dt) (datetime.day dt) = true ->
  dt = datetime.date dt ->
  expired c (strftime dt "recommend_%Y%m%d.html") = instant_lt (instant_of dt) c.
Proof.
  intros Hok Hmid. unfold expired.
  rewrite date_pattern_match_strftime, (strptime_compact _ _ _ Hok).
  fold (datetime.date dt). rewrite <- Hmid. reflexivity.
Qed.

Lemma artifact_not_history dt dir :
  (dir, strftime dt "recommend_%Y%m%d.html") <> history_path dir.
Proof. unfold history_path, strftime. cbn [directives strftime_directives]. congruence. Qed.

Lemma saved_log_retained now items entries :
  datetime.wf now = true ->
  Forall (fun e => retained (cutoff now) e = true)
    (today_entry now items :: survivors now entries).
Proof.
  intros Hwf. constructor.
  - unfold retained. rewrite (today_entry_instant now items Hwf). apply today_not_older.
  - unfold survivors. apply Forall_forall. intros e He.
    apply list_elem_of_In, filter_In in He as [_ He]. apply andb_true_iff in He. tauto.
Qed.

(** C9.  The janitor and the retention pass, run on the same reading
    of the clock, give the same files in either order.  Afterwards no
    page of the directory whose name carries a date is older than the
    cutoff, every record of the saved log is dated at or after the
    cutoff, and the page named after the date of such a record is as it
    was before: the janitor has not deleted it. *)
Theorem janitor_policy_consistent `{C : JsonCodec} (dir : string) (now : datetime.t)
    (draws : list nat) (new_items : list json) (target_count : Z)
    (fs fs'' : filesystem) (items : list json) :
  codec_roundtrip C ->
  datetime.wf now = true ->
  policy_then_janitor dir now draws new_items target_count fs = Returns (items, fs'') ->
  janitor_then_policy dir now draws new_items target_count fs = Returns (items, fs'') /\
  (forall name text date_str file_date,
     fs'' !! (dir, name) = Some text ->
     date_pattern_match name = Some date_str ->
     strptime date_str "%Y%m%d" = Returns file_date ->
     instant_ge (instant_of file_date) (cutoff now) = true) /\
  exists log,
    load_history fs'' (history_path dir) = Returns (JList log) /\
    forall e s dt,
      e ∈ log -> record_date e = Some s -> strptime s "%Y/%m/%d" = Returns dt ->
      instant_ge (instant_of dt) (cutoff now) = true /\
      fs'' !! (dir, strftime dt "recommend_%Y%m%d.html")
      = fs !! (dir, strftime dt "recommend_%Y%m%d.html").
Proof.
  intros Hrt Hwf Hrun.
  assert (Hrun' := Hrun).
  unfold policy_then_janitor in Hrun.
  destruct (GenerateDataAI.update_history dir now draws new_items target_count fs)
    as [[items1 fs1]| |] eqn:Eu; cbn [mbind outcome_bind] in Hrun; try discriminate.
  destruct (update_history_returns _ _ _ _ _ _ _ _ Eu) as (entries & _ & _ & _ & Hc & Hw).
  split; [rewrite (janitor_policy_commute _ _ _ _ _ _ _ Hc); exact Hrun'|]. clear Hrun'.
  pose proof (load_history_written _ _ _ _ Hrt Hw) as Hsaved.
  apply write_json_returns in Hw as (text & _ & ->).
  rewrite cleanup_old_html_files_eq in Hrun.
  change GenerateDataAI.MAX_DAYS with 30 in Hrun. rewrite Hc in Hrun.
  cbn [mbind outcome_bind mret outcome_ret] in Hrun. injection Hrun as <- <-.
  set (c := cutoff now).
  split.
  - intros name txt date_str file_date Hfile Hm Hp.
    apply map_lookup_filter_Some in Hfile as [_ Hk].
    destruct (instant_ge (instant_of file_date) c) eqn:Hge; [reflexivity|].
    exfalso. apply Hk. split; [reflexivity|]. cbn [fst snd]. unfold expired.
    rewrite Hm, Hp. unfold instant_lt. rewrite Hge. reflexivity.
  - eexists. split.
    { rewrite load_history_filter. exact Hsaved. }
    intros e s dt He Hs Hdt.
    pose proof (saved_log_retained now items1 entries Hwf) as Hall.
    rewrite Forall_forall in Hall. specialize (Hall e He).
    unfold retained, record_instant in Hall. rewrite Hs in Hall. cbn in Hall.
    rewrite Hdt in Hall. split; [exact Hall|].
    destruct (strptime_returns_date _ _ _ Hdt) as [Hok Hmid].
    assert (Hkeep : forall t, janitor_keeps c dir
                      ((dir, strftime dt "recommend_%Y%m%d.html"), t)).
    { intros t [_ Hexp]. cbn [fst snd] in Hexp. rewrite (artifact_expired c dt Hok Hmid) in Hexp.
      unfold instant_lt in Hexp. fold c in Hall. rewrite Hall in Hexp. discriminate. }
    destruct (fs !! (dir, strftime dt "recommend_%Y%m%d.html")) as [t|] eqn:Ef.
    + apply map_lookup_filter_Some. split; [|apply Hkeep].
      rewrite lookup_insert_ne by (intros E; symmetry in E; revert E; apply artifact_not_history).
      exact Ef.
    + apply map_lookup_filter_None. left.
      rewrite lookup_insert_ne by (intros E; symmetry in E; revert E; apply artifact_not_history).
      exact Ef.
Qed.

(** The sample files after both passes. *)
Lemma demo_both_passes :
  @policy_then_janitor JsonText.codec demo_dir demo_now demo_draws demo_items 5 demo_fs
  = Returns (demo_picks, filter (janitor_keeps (cutoff demo_now) demo_dir) demo_fs').
Proof.
  unfold policy_then_janitor. rewrite demo_run. cbn [mbind outcome_bind].
  rewrite cleanup_old_html_files_eq.
  replace (sub_days demo_now GenerateDataAI.MAX_DAYS) with (Returns (cutoff demo_now))
    by (vm_compute; reflexivity).
  reflexivity.
Qed.

Lemma janitor_policy_consistent_witness :
  @janitor_then_policy JsonText.codec demo_dir demo_now demo_draws demo_items 5 demo_fs
  = Returns (demo_picks, filter (janitor_keeps (cutoff demo_now) demo_dir) demo_fs') /\
  (forall name text date_str file_date,
     filter (janitor_keeps (cutoff demo_now) demo_dir) demo_fs' !! (demo_dir, name) = Some text ->
     date_pattern_match name = Some date_str ->
     strptime date_str "%Y%m%d" = Returns file_date ->
     instant_ge (instant_of file_date) (cutoff demo_now) = true) /\
  exists log,
    @load_history JsonText.codec (filter (janitor_keeps (cutoff demo_now) demo_dir) demo_fs')
      (history_path demo_dir) = Returns (JList log) /\
    forall e s dt,
      e ∈ log -> record_date e = Some s -> strptime s "%Y/%m/%d" = Returns dt ->
      instant_ge (instant_of dt) (cutoff demo_now) = true /\
      filter (janitor_keeps (cutoff demo_now) demo_dir) demo_fs'
        !! (demo_dir, strftime dt "recommend_%Y%m%d.html")
      = demo_fs !! (demo_dir, strftime dt "recommend_%Y%m%d.html").
Proof.
  exact (@janitor_policy_consistent JsonText.codec demo_dir demo_now demo_draws demo_items 5
           demo_fs _ demo_picks JsonText_roundtrip eq_refl demo_both_passes).
Defined.

(** ** The two revisions of [update_history] *)

Lemma prune_copies c l : GenerateData.prune c l = GenerateDataAI.prune c l.
Proof.
  induction l as [|e rest IH]; [reflexivity|].
  cbn [GenerateData.prune GenerateDataAI.prune]. rewrite IH. reflexivity.
Qed.

Lemma drop_today_copies today l :
  GenerateData.drop_today today l = GenerateDataAI.drop_today today l.
Proof.
  induction l as [|e rest IH]; [reflexivity|].
  cbn [GenerateData.drop_today GenerateDataAI.drop_today]. rewrite IH. reflexivity.
Qed.

Lemma sample_display_items_copies new_items k draws :
  GenerateData.sample_display_items new_items k draws
  = GenerateDataAI.sample_display_items new_items k draws.
Proof. reflexivity. Qed.

(** C10.  Given the same arguments, clock, random numbers and content
    of the history file, each in the directory where it looks for the
    file, the two revisions of [update_history] end the same way: both
    return the same items and write the same record list, or both raise
    the same exception.  Only the place of the file differs. *)
Theorem update_history_copies_agree `{C : JsonCodec} (cwd SCRIPT_DIR : string)
    (now : datetime.t) (draws : list nat) (new_items : list json) (target_count : Z)
    (fs1 fs2 : filesystem) :
  fs1 !! (cwd, "history.json") = fs2 !! (SCRIPT_DIR, "history.json") ->
  match GenerateData.update_history cwd now draws new_items target_count fs1,
        GenerateDataAI.update_history SCRIPT_DIR now draws new_items target_count fs2 with
  | Returns (items1, fs1'), Returns (items2, fs2') =>
      items1 = items2 /\
      exists new_history,
        write_json (cwd, "history.json") (JList new_history) fs1 = Returns fs1' /\
        write_json (SCRIPT_DIR, "history.json") (JList new_history) fs2 = Returns fs2'
  | Raises e1, Raises e2 => e1 = e2
  | Starved, Starved => True
  | _, _ => False
  end.
Proof.
  intros Hfile.
  unfold GenerateData.update_history, GenerateDataAI.update_history, os_path_join,
    GenerateData.HISTORY_FILE, GenerateDataAI.HISTORY_FILE_NAME.
  assert (Hload : load_history fs1 (cwd, "history.json")
                  = load_history fs2 (SCRIPT_DIR, "history.json"))
    by (unfold load_history; rewrite Hfile; reflexivity).
  rewrite Hload. change GenerateData.MAX_DAYS with GenerateDataAI.MAX_DAYS.
  destruct (load_history fs2 (SCRIPT_DIR, "history.json")) as [history| |];
    cbn [mbind outcome_bind]; try reflexivity.
  destruct (sub_days now GenerateDataAI.MAX_DAYS); cbn [mbind outcome_bind]; try reflexivity.
  destruct (py_iter history); cbn [mbind outcome_bind]; try reflexivity.
  rewrite prune_copies.
  destruct (GenerateDataAI.prune _ _); cbn [mbind outcome_bind]; try reflexivity.
  rewrite sample_display_items_copies.
  destruct (GenerateDataAI.sample_display_items _ _ _) as [items| |]; cbn [mbind outcome_bind];
    try reflexivity.
  rewrite drop_today_copies.
  destruct (GenerateDataAI.drop_today _ _) as [kept| |]; cbn [mbind outcome_bind mret outcome_ret];
    try reflexivity.
  set (new_history := _ :: kept).
  unfold write_json.
  destruct (json_dumps (JList new_history)) as [text|e] eqn:Ed;
    cbn [mbind outcome_bind mret outcome_ret]; [|reflexivity].
  split; [reflexivity|]. exists new_history. rewrite Ed. split; reflexivity.
Qed.

Lemma update_history_copies_agree_witness :
  match @GenerateData.update_history JsonText.codec "/home/bot" demo_now demo_draws
          demo_items 5 {[ ("/home/bot", "history.json") := JsonText.dumps (JList demo_log) ]},
        @GenerateDataAI.update_history JsonText.codec demo_dir demo_now demo_draws
          demo_items 5 demo_fs with
  | Returns (items1, fs1'), Returns (items2, fs2') =>
      items1 = items2 /\
      exists new_history,
        @write_json JsonText.codec ("/home/bot", "history.json") (JList new_history)
          {[ ("/home/bot", "history.json") := JsonText.dumps (JList demo_log) ]}
        = Returns fs1' /\
        @write_json JsonText.codec (demo_dir, "history.json") (JList new_history) demo_fs
        = Returns fs2'
  | Raises e1, Raises e2 => e1 = e2
  | Starved, Starved => True
  | _, _ => False
  end.
Proof.
  apply (@update_history_copies_agree JsonText.codec "/home/bot" demo_dir demo_now demo_draws
           demo_items 5).
  vm_compute. reflexivity.
Defined.

(** Run from the directory of the script, the two revisions are the
    same function. *)
Lemma update_history_copies_same_directory `{C : JsonCodec} (dir : string)
    (now : datetime.t) (draws : list nat) (new_items : list json) (target_count : Z)
    (fs : filesystem) :
  GenerateData.update_history dir now draws new_items target_count fs
  = GenerateDataAI.update_history dir now draws new_items target_count fs.
Proof.
  unfold GenerateData.update_history, GenerateDataAI.update_history, os_path_join,
    GenerateData.HISTORY_FILE, GenerateDataAI.HISTORY_FILE_NAME.
  change GenerateData.MAX_DAYS with GenerateDataAI.MAX_DAYS.
  destruct (load_history fs (dir, "history.json")) as [history| |]; cbn [mbind outcome_bind];
    [|reflexivity..].
  destruct (sub_days now GenerateDataAI.MAX_DAYS); cbn [mbind outcome_bind]; [|reflexivity..].
  destruct (py_iter history); cbn [mbind outcome_bind]; [|reflexivity..].
  rewrite prune_copies.
  destruct (GenerateDataAI.prune _ _); cbn [mbind outcome_bind]; [|reflexivity..].
  rewrite sample_display_items_copies.
  destruct (GenerateDataAI.sample_display_items _ _ _); cbn [mbind outcome_bind];
    [|reflexivity..].
  rewrite drop_today_copies. reflexivity.
Qed.

(** The janitor is the same in both revisions. *)
Lemma cleanup_copies (dir : string) (now : datetime.t) (fs : filesystem) :
  GenerateData.cleanup_old_html_files dir now fs
  = GenerateDataAI.cleanup_old_html_files dir now fs.
Proof. reflexivity. Qed.


(** ** Instants order datetimes as Python does *)

Lemma is_leap_cases y :
  (datetime._is_leap y = true /\ y mod 4 = 0 /\ (y mod 100 <> 0 \/ y mod 400 = 0)) \/
  (datetime._is_leap y = false /\ (y mod 4 <> 0 \/ (y mod 100 = 0 /\ y mod 400 <> 0))).
Proof.
  unfold datetime._is_leap.
  destruct (Z.eqb_spec (y mod 4) 0), (Z.eqb_spec (y mod 100) 0), (Z.eqb_spec (y mod 400) 0);
    cbn; intuition lia.
Qed.

Lemma days_before_year_step y1 y2 :
  y1 < y2 ->
  datetime._days_before_year y1 + 365 + (if datetime._is_leap y1 then 1 else 0)
  <= datetime._days_before_year y2.
Proof.
  intros Hlt. unfold datetime._days_before_year.
  destruct (is_leap_cases y1) as [(-> & H4 & H100)|(-> & H)];
    Z.to_euclidean_division_equations; lia.
Qed.

Lemma days_before_month_step y m1 m2 :
  1 <= m1 -> m1 < m2 -> m2 <= 12 ->
  datetime._days_before_month y m1 + datetime._days_in_month y m1
  <= datetime._days_before_month y m2.
Proof.
  intros H1 Hlt H2. unfold datetime._days_before_month, datetime._days_in_month.
  destruct (datetime._is_leap y); enum_Z m1 1 11; enum_Z m2 2 12;
    try lia; cbv [datetime._DAYS_BEFORE_MONTH datetime._DAYS_IN_MONTH]; simpl; lia.
Qed.

Lemma days_in_year_bound y m d :
  1 <= m <= 12 -> d <= datetime._days_in_month y m ->
  datetime._days_before_month y m + d <= 365 + (if datetime._is_leap y then 1 else 0).
Proof.
  intros Hm Hd. unfold datetime._days_before_month, datetime._days_in_month in *.
  destruct (datetime._is_leap y); enum_Z m 1 12;
    cbv [datetime._DAYS_BEFORE_MONTH datetime._DAYS_IN_MONTH] in *; simpl in *; lia.
Qed.

Lemma days_before_month_nonneg y m : 1 <= m <= 12 -> 0 <= datetime._days_before_month y m.
Proof.
  intros Hm. unfold datetime._days_before_month.
  destruct (datetime._is_leap y); enum_Z m 1 12;
    cbv [datetime._DAYS_BEFORE_MONTH]; simpl; lia.
Qed.

(** An earlier date of the calendar has a smaller ordinal. *)
Lemma ymd2ord_lt y1 m1 d1 y2 m2 d2 :
  datetime.check_date_fields y1 m1 d1 = true ->
  datetime.check_date_fields y2 m2 d2 = true ->
  y1 < y2 \/ (y1 = y2 /\ (m1 < m2 \/ (m1 = m2 /\ d1 < d2))) ->
  datetime._ymd2ord y1 m1 d1 < datetime._ymd2ord y2 m2 d2.
Proof.
  intros H1 H2 Hlt.
  apply check_date_fields_bounds in H1 as (Hy1 & Hm1 & Hd1 & Hdim1).
  apply check_date_fields_bounds in H2 as (Hy2 & Hm2 & Hd2 & Hdim2).
  unfold datetime._ymd2ord.
  pose proof (days_in_year_bound y1 m1 d1 Hm1 Hdim1).
  pose proof (days_before_month_nonneg y2 m2 Hm2).
  destruct Hlt as [Hy|[-> [Hm|[-> Hd]]]].
  - pose proof (days_before_year_step y1 y2 Hy). lia.
  - pose proof (days_before_month_step y2 m1 m2 ltac:(lia) Hm ltac:(lia)). lia.
  - lia.
Qed.

(** For the values datetimes can hold, comparing instants is comparing
    the tuples of fields. *)
Lemma instant_ge_fields a b :
  datetime.wf a = true -> datetime.wf b = true ->
  instant_ge (instant_of a) (instant_of b) = datetime.ge a b.
Proof.
  intros Ha Hb.
  unfold datetime.wf in Ha, Hb. apply andb_true_iff in Ha as [Hda Hta], Hb as [Hdb Htb].
  pose proof (ymd2ord_lt _ _ _ _ _ _ Hda Hdb) as Hab.
  pose proof (ymd2ord_lt _ _ _ _ _ _ Hdb Hda) as Hba.
  unfold datetime.check_time_fields in Hta, Htb.
  rewrite !andb_true_iff, !Z.leb_le, !Z.ltb_lt in Hta, Htb.
  apply eq_true_iff_eq.
  unfold instant_ge, instant_of, datetime.ge, datetime.fields, datetime.toordinal,
    datetime.time_of_day. cbn [fst snd datetime.tuple_ge].
  destruct a as [y1 m1 d1 h1 i1 s1 u1], b as [y2 m2 d2 h2 i2 s2 u2]. cbn in *.
  rewrite !orb_true_iff, !andb_true_iff, !orb_true_iff, !andb_true_iff, !Z.ltb_lt, !Z.eqb_eq,
    !Z.leb_le.
  assert (Hsame : y1 = y2 -> m1 = m2 -> d1 = d2 ->
                  datetime._ymd2ord y1 m1 d1 = datetime._ymd2ord y2 m2 d2)
    by (intros -> -> ->; reflexivity).
  lia.
Qed.


(** ** The first generation *)



(** ** What a run leaves for the next one *)

Lemma sub_days_range now c :
  sub_days now 30 = Returns c -> 30 < datetime.toordinal now <= 3652089.
Proof.
  unfold sub_days, datetime._MAXORDINAL.
  destruct (Z.ltb_spec 0 (datetime.toordinal now - 30)),
    (Z.leb_spec (datetime.toordinal now - 30) 3652059); cbn; try discriminate.
  lia.
Qed.

Lemma survivors_well_formed now entries :
  Forall (fun e => is_Some (record_date e)) entries ->
  Forall (fun e => is_Some (record_date e)) (survivors now entries).
Proof. apply Forall_filter_keep. Qed.

Lemma saved_log_well_formed now items entries :
  Forall (fun e => is_Some (record_date e)) entries ->
  Forall (fun e => is_Some (record_date e)) (today_entry now items :: survivors now entries).
Proof.
  intros Hwf. constructor; [|apply survivors_well_formed, Hwf].
  rewrite today_entry_dated. eauto.
Qed.

(** X1.  A history file written by a run of [update_history] is read
    by the next run without an exception, whatever the clock, the
    items and the random numbers of either run: the next run returns
    and saves its record in front of the records of the saved log it
    keeps, or it is still drawing random numbers. *)
Theorem update_history_log_accepted `{C : JsonCodec} (dir : string) (now : datetime.t)
    (draws : list nat) (new_items : list json) (target_count : Z) (fs fs1 : filesystem)
    (items : list json) (now2 : datetime.t) (draws2 : list nat) (new_items2 : list json)
    (target_count2 : Z) :
  codec_roundtrip C ->
  GenerateDataAI.update_history dir now draws new_items target_count fs = Returns (items, fs1) ->
  30 < datetime.toordinal now2 <= 3652089 ->
  match GenerateDataAI.update_history dir now2 draws2 new_items2 target_count2 fs1 with
  | Returns (items2, fs2) =>
      exists log,
        load_history fs1 (history_path dir) = Returns (JList log) /\
        write_json (history_path dir) (JList (today_entry now2 items2 :: survivors now2 log)) fs1
        = Returns fs2
  | Raises _ => False
  | Starved =>
      (size (residues (length new_items2) draws2)
       < Z.to_nat (Z.min target_count2 (Z.of_nat (length new_items2))))%nat
  end.
Proof.
  intros Hrt Hrun Hnow2.
  apply update_history_returns in Hrun as (entries & Hload & Hwf & _ & _ & Hw).
  pose proof (load_history_written _ _ _ _ Hrt Hw) as Hsaved.
  assert (Hit : history_entries fs1 (history_path dir)
                = Returns (today_entry now items :: survivors now entries))
    by (unfold history_entries; rewrite Hsaved; reflexivity).
  pose proof (sample_display_items_spec new_items2 target_count2 draws2) as Hs.
  destruct (GenerateDataAI.sample_display_items new_items2 target_count2 draws2)
    as [items2| |] eqn:Es.
  - rewrite (update_history_well_formed dir now2 draws2 new_items2 target_count2 fs1 _ items2
               Hit (saved_log_well_formed now items entries Hwf) Es Hnow2).
    destruct (write_json_roundtrip (history_path dir)
                (JList (today_entry now2 items2
                        :: survivors now2 (today_entry now items :: survivors now entries)))
                fs1 Hrt) as (text & Hw2 & _).
    rewrite Hw2. cbn [mbind outcome_bind mret outcome_ret].
    eexists. split; [exact Hsaved|exact Hw2].
  - destruct Hs.
  - unfold GenerateDataAI.update_history, os_path_join, GenerateDataAI.HISTORY_FILE_NAME.
    fold (history_path dir). rewrite Hsaved. cbn [mbind outcome_bind].
    rewrite sub_days_returns by exact Hnow2.
    cbn [py_iter mbind outcome_bind].
    rewrite PruneFacts.prune_well_formed by (apply saved_log_well_formed, Hwf).
    cbn [mbind outcome_bind]. rewrite Es. cbn [mbind outcome_bind]. exact Hs.
Qed.

Lemma update_history_log_accepted_witness :
  match @GenerateDataAI.update_history JsonText.codec demo_dir demo_evening [3]%nat
          [demo_item "collar" (JNum 1200)] 5 demo_fs' with
  | Returns (items2, fs2) =>
      exists log,
        @load_history JsonText.codec demo_fs' (history_path demo_dir) = Returns (JList log) /\
        @write_json JsonText.codec (history_path demo_dir)
          (JList (today_entry demo_evening items2 :: survivors demo_evening log)) demo_fs'
        = Returns fs2
  | Raises _ => False
  | Starved =>
      (size (residues (length [demo_item "collar" (JNum 1200)]) [3]%nat)
       < Z.to_nat (Z.min 5 (Z.of_nat (length [demo_item "collar" (JNum 1200)]))))%nat
  end.
Proof.
  apply (@update_history_log_accepted JsonText.codec demo_dir demo_now demo_draws demo_items 5
           demo_fs demo_fs' demo_picks demo_evening [3]%nat [demo_item "collar" (JNum 1200)] 5).
  - exact JsonText_roundtrip.
  - exact demo_run.
  - vm_compute. split; [reflexivity|discriminate].
Defined.

Lemma filter_idem {A} (f : A -> bool) l : List.filter f (List.filter f l) = List.filter f l.
Proof.
  rewrite filter_filter. apply List.filter_ext. intros x. destruct (f x); reflexivity.
Qed.

Lemma survivors_idem now entries : survivors now (survivors now entries) = survivors now entries.
Proof. apply filter_idem. Qed.

Lemma survivors_today now items entries :
  survivors now (today_entry now items :: entries) = survivors now entries.
Proof.
  unfold survivors. cbn [List.filter]. rewrite today_entry_is_dated, andb_false_r. reflexivity.
Qed.

(** X2.  Running [update_history] again on the files it has left, with
    the same reading of the clock, the same random numbers and the same
    items, returns the same items and leaves the files as they are. *)
Theorem update_history_idempotent `{C : JsonCodec} (dir : string) (now : datetime.t)
    (draws : list nat) (new_items : list json) (target_count : Z) (fs fs1 : filesystem)
    (items : list json) :
  codec_roundtrip C ->
  GenerateDataAI.update_history dir now draws new_items target_count fs = Returns (items, fs1) ->
  GenerateDataAI.update_history dir now draws new_items target_count fs1 = Returns (items, fs1).
Proof.
  intros Hrt Hrun.
  apply update_history_returns in Hrun as (entries & Hload & Hwf & Hs & Hc & Hw).
  pose proof (load_history_written _ _ _ _ Hrt Hw) as Hsaved.
  assert (Hit : history_entries fs1 (history_path dir)
                = Returns (today_entry now items :: survivors now entries))
    by (unfold history_entries; rewrite Hsaved; reflexivity).
  rewrite (update_history_well_formed dir now draws new_items target_count fs1 _ items
             Hit (saved_log_well_formed now items entries Hwf) Hs (sub_days_range _ _ Hc)).
  rewrite survivors_today, survivors_idem.
  apply write_json_returns in Hw as (text & Hd & ->).
  unfold write_json. rewrite Hd. cbn [mbind outcome_bind mret outcome_ret].
  rewrite insert_insert_eq. reflexivity.
Qed.

Lemma update_history_idempotent_witness :
  @GenerateDataAI.update_history JsonText.codec demo_dir demo_now demo_draws demo_items 5 demo_fs'
  = Returns (demo_picks, demo_fs').
Proof.
  apply (@update_history_idempotent JsonText.codec demo_dir demo_now demo_draws demo_items 5
           demo_fs demo_fs' demo_picks).
  - exact JsonText_roundtrip.
  - exact demo_run.
Defined.

(** ** The first generation, as a whole *)



Lemma survivors_retained now entries :
  Forall (fun e => retained (cutoff now) e = true) (survivors now entries).
Proof.
  unfold survivors. rewrite List.Forall_forall. intros e He.
  apply filter_In in He as [_ He]. apply andb_true_iff in He as [He _]. exact He.
Qed.




(** ** The size of the log *)

(** Two dates of the calendar with the same ordinal are the same date. *)
Lemma ymd2ord_inj y1 m1 d1 y2 m2 d2 :
  datetime.check_date_fields y1 m1 d1 = true ->
  datetime.check_date_fields y2 m2 d2 = true ->
  datetime._ymd2ord y1 m1 d1 = datetime._ymd2ord y2 m2 d2 ->
  y1 = y2 /\ m1 = m2 /\ d1 = d2.
Proof.
  intros H1 H2 Heq.
  pose proof (ymd2ord_lt _ _ _ _ _ _ H1 H2) as Hab.
  pose proof (ymd2ord_lt _ _ _ _ _ _ H2 H1) as Hba.
  lia.
Qed.

Lemma today_entry_day now items :
  datetime.wf now = true ->
  record_day (today_entry now items) = Some (datetime.toordinal now).
Proof.
  intros Hwf. unfold record_day. rewrite today_entry_instant by exact Hwf. reflexivity.
Qed.

Lemma today_entry_canonical now items :
  datetime.wf now = true -> canonical_date (today_entry now items).
Proof.
  intros Hwf. exists (strftime now "%Y/%m/%d"), (datetime.date now).
  split; [apply today_entry_dated|].
  split; [apply strptime_strftime_slashes, wf_check_date, Hwf|].
  symmetry. apply strftime_date.
Qed.

(** The day of a record a run keeps from a tidy log: one of the thirty
    days before the day of the run, of the last twenty-nine when the
    run is not at midnight sharp. *)
Lemma survivor_day now entries e :
  datetime.wf now = true ->
  e ∈ survivors now entries ->
  canonical_date e ->
  (forall d, record_day e = Some d -> d <= datetime.toordinal now) ->
  exists d,
    record_day e = Some d /\
    datetime.toordinal now - 30 <= d <= datetime.toordinal now - 1 /\
    (datetime.time_of_day now <> 0 -> datetime.toordinal now - 29 <= d).
Proof.
  intros Hwf He (s & dt & Hs & Hp & Hcanon) Hle.
  pose proof (survivors_other_days now entries e s dt He Hs Hp Hcanon) as Hother.
  assert (Hday : record_day e = Some (datetime.toordinal dt)).
  { unfold record_day, record_instant. rewrite Hs. cbn [mbind option_bind]. rewrite Hp.
    reflexivity. }
  specialize (Hle _ Hday).
  exists (datetime.toordinal dt). split; [exact Hday|].
  assert (Hret : retained (cutoff now) e = true).
  { pose proof (survivors_retained now entries) as Hall.
    rewrite List.Forall_forall in Hall. apply Hall, list_elem_of_In, He. }
  unfold retained, record_instant in Hret. rewrite Hs in Hret. cbn [mbind option_bind] in Hret.
  rewrite Hp in Hret.
  pose proof (strptime_midnight _ _ _ Hp) as Hmid.
  pose proof (time_of_day_nonneg now Hwf) as Htod.
  unfold instant_ge, instant_of, cutoff in Hret. cbn [fst snd] in Hret. rewrite Hmid in Hret.
  assert (Hne : datetime.toordinal dt <> datetime.toordinal now).
  { intros Heq. apply Hother.
    apply strptime_returns_date in Hp as [Hchk _].
    destruct (ymd2ord_inj _ _ _ _ _ _ Hchk (wf_check_date now Hwf) Heq) as (Hy & Hm & Hd).
    unfold datetime.date. rewrite Hy, Hm, Hd. reflexivity. }
  apply orb_true_iff in Hret as [Hlt|Heq].
  - apply Z.ltb_lt in Hlt. split; [lia|]. intros _. lia.
  - apply andb_true_iff in Heq as [Heq Hz]. apply Z.eqb_eq in Heq. apply Z.leb_le in Hz.
    split; [lia|]. intros Hnz. lia.
Qed.

(** Distinct values, all among [count] consecutive integers. *)
Lemma length_days (l : list (option Z)) (first count : Z) :
  NoDup l ->
  (forall x, x ∈ l -> exists d, x = Some d /\ first <= d < first + count) ->
  (length l <= Z.to_nat count)%nat.
Proof.
  intros Hnd Hin.
  rewrite <- (length_seqZ first count), <- (length_fmap Some (seqZ first count)).
  apply submseteq_length, NoDup_submseteq; [exact Hnd|].
  intros x Hx. destruct (Hin x Hx) as (d & -> & Hd).
  apply list_elem_of_fmap. exists d. split; [reflexivity|]. apply elem_of_seqZ. exact Hd.
Qed.

Lemma tidy_later now later log :
  datetime.toordinal now <= datetime.toordinal later -> tidy now log -> tidy later log.
Proof.
  intros Hle (Hc & Hnd & Hpast). repeat split; [exact Hc|exact Hnd|].
  eapply Forall_impl; [exact Hpast|]. cbn. intros e He d Hd. specialize (He d Hd). lia.
Qed.

Lemma canonical_date_well_formed l :
  Forall canonical_date l -> Forall (fun e => is_Some (record_date e)) l.
Proof.
  intros H. eapply Forall_impl; [exact H|].
  intros e (s & dt & Hs & _). rewrite Hs. eauto.
Qed.

(** What a run makes of a tidy log. *)
Lemma saved_log_tidy now items entries :
  datetime.wf now = true ->
  tidy now entries ->
  tidy now (today_entry now items :: survivors now entries) /\
  (length (today_entry now items :: survivors now entries) <= 31)%nat /\
  (datetime.time_of_day now <> 0 ->
   (length (today_entry now items :: survivors now entries) <= 30)%nat).
Proof.
  intros Hwf (Hc & Hnd & Hpast).
  assert (Hsub : sublist (survivors now entries) entries) by apply filter_sublist.
  assert (Hc' : Forall canonical_date (survivors now entries))
    by (apply Forall_filter_keep, Hc).
  assert (Hpast' : Forall (fun e => forall d, record_day e = Some d ->
                                    d <= datetime.toordinal now) (survivors now entries))
    by (apply Forall_filter_keep, Hpast).
  assert (Hnd' : NoDup (record_day <$> survivors now entries)).
  { eapply sublist_NoDup; [exact Hnd|]. apply fmap_sublist, Hsub. }
  assert (Hdays : forall x, x ∈ record_day <$> survivors now entries ->
            exists d, x = Some d /\
              datetime.toordinal now - 30 <= d <= datetime.toordinal now - 1 /\
              (datetime.time_of_day now <> 0 -> datetime.toordinal now - 29 <= d)).
  { intros x Hx. apply list_elem_of_fmap in Hx as (e & -> & He).
    rewrite Forall_forall in Hc', Hpast'.
    destruct (survivor_day now entries e Hwf He (Hc' e He) (Hpast' e He)) as (d & Hd & Hr).
    exists d. split; [exact Hd|exact Hr]. }
  split; [|split].
  - split; [|split].
    + constructor; [apply today_entry_canonical, Hwf|exact Hc'].
    + rewrite fmap_cons. constructor; [|exact Hnd'].
      rewrite today_entry_day by exact Hwf. intros Hin.
      destruct (Hdays _ Hin) as (d & [= <-] & Hr & _). lia.
    + constructor; [|exact Hpast'].
      intros d. rewrite today_entry_day by exact Hwf. intros [= <-]. lia.
  - cbn [length]. rewrite <- (length_fmap record_day).
    pose proof (length_days _ (datetime.toordinal now - 30) 30 Hnd') as Hlen.
    cut (length (record_day <$> survivors now entries) <= 30)%nat; [lia|].
    apply Hlen. intros x Hx. destruct (Hdays x Hx) as (d & -> & Hr & _).
    exists d. split; [reflexivity|lia].
  - intros Hnz. cbn [length]. rewrite <- (length_fmap record_day).
    pose proof (length_days _ (datetime.toordinal now - 29) 29 Hnd') as Hlen.
    cut (length (record_day <$> survivors now entries) <= 29)%nat; [lia|].
    apply Hlen. intros x Hx. destruct (Hdays x Hx) as (d & -> & Hr & Hr').
    specialize (Hr' Hnz). exists d. split; [reflexivity|lia].
Qed.

(** ** One record per calendar day *)

(** Two clocks on the same day write the same date. *)
Lemma same_day_same_date a b fmt :
  datetime.wf a = true -> datetime.wf b = true ->
  datetime.toordinal a = datetime.toordinal b ->
  strftime a fmt = strftime b fmt.
Proof.
  intros Ha Hb Heq.
  destruct (ymd2ord_inj _ _ _ _ _ _ (wf_check_date a Ha) (wf_check_date b Hb) Heq)
    as (Hy & Hm & Hd).
  rewrite <- (strftime_date a), <- (strftime_date b).
  unfold datetime.date. rewrite Hy, Hm, Hd. reflexivity.
Qed.

(** A record dated today in the way the code writes dates carries
    today's string, and a record that carries today's string is dated
    today. *)
Lemma canonical_on_day now e :
  datetime.wf now = true ->
  canonical_date e ->
  record_day e = Some (datetime.toordinal now) ->
  dated (strftime now "%Y/%m/%d") e = true.
Proof.
  intros Hwf (s & dt & Hs & Hp & Hcanon) Hday.
  unfold record_day, record_instant in Hday. rewrite Hs in Hday.
  cbn [mbind option_bind] in Hday. rewrite Hp in Hday. injection Hday as Hday.
  destruct (strptime_returns_date _ _ _ Hp) as [Hchk Hmid].
  destruct (ymd2ord_inj _ _ _ _ _ _ Hchk (wf_check_date now Hwf) Hday) as (Hy & Hm & Hd).
  unfold dated. rewrite Hs. apply String.eqb_eq.
  rewrite Hcanon, <- (strftime_date dt), <- (strftime_date now).
  unfold datetime.date. rewrite Hy, Hm, Hd. reflexivity.
Qed.

Lemma dated_on_day now e :
  datetime.wf now = true ->
  dated (strftime now "%Y/%m/%d") e = true ->
  record_day e = Some (datetime.toordinal now).
Proof.
  intros Hwf Hd. unfold dated in Hd.
  destruct (record_date e) as [s|] eqn:Hs; [|discriminate].
  apply String.eqb_eq in Hd. subst s.
  unfold record_day, record_instant. rewrite Hs. cbn [mbind option_bind].
  rewrite strptime_strftime_slashes by (apply wf_check_date, Hwf). reflexivity.
Qed.

(** What holds of the records of the file and of every record a run
    inserts holds of the records of the log the last run has saved. *)
Lemma update_history_calls_invariant `{C : JsonCodec} (P : json -> Prop) (dir : string)
    (calls : list call) :
  codec_roundtrip C ->
  calls <> [] ->
  (forall c items, c ∈ calls -> P (today_entry (call_now c) items)) ->
  forall (items0 : list json) (fs fs' : filesystem) (items entries : list json),
    history_entries fs (history_path dir) = Returns entries ->
    Forall P entries ->
    update_history_calls dir calls items0 fs = Returns (items, fs') ->
    exists log, load_history fs' (history_path dir) = Returns (JList log) /\ Forall P log.
Proof.
  intros Hrt Hne Hnew. induction calls as [|c rest IH]; [congruence|].
  intros items0 fs fs' items entries Hit HP Hrun.
  cbn [update_history_calls] in Hrun.
  destruct (GenerateDataAI.update_history dir (call_now c) (call_draws c) (call_items c)
              (call_target c) fs) as [[items1 fs1]| |] eqn:E1;
    cbn [mbind outcome_bind] in Hrun; try discriminate.
  destruct (update_history_returns _ _ _ _ _ _ _ _ E1) as (entries' & Hit' & _ & _ & _ & Hw).
  rewrite Hit in Hit'. injection Hit' as <-.
  pose proof (load_history_written _ _ _ _ Hrt Hw) as Hsaved.
  assert (HP1 : Forall P (today_entry (call_now c) items1 :: survivors (call_now c) entries)).
  { constructor; [apply Hnew; left|apply Forall_filter_keep, HP]. }
  destruct rest as [|c2 rest].
  - cbn [update_history_calls] in Hrun. injection Hrun as <- <-. eauto.
  - apply (IH ltac:(discriminate)
              (fun c' its Hc' => Hnew c' its (list_elem_of_further _ _ _ Hc'))
              items1 fs1 fs' items
              (today_entry (call_now c) items1 :: survivors (call_now c) entries));
      [|exact HP1|exact Hrun].
    unfold history_entries. rewrite Hsaved. reflexivity.
Qed.

(** C2, as the code has it.  After any number of calls of
    [update_history] on one calendar day, each starting from the files
    the one before has left, and the first from a history whose records
    of that day carry their date in the form the code writes, the
    saved log holds exactly one record dated that day; it is at the
    front and its items are those the last call has drawn.  The
    records the day already had are gone. *)
Theorem single_per_calendar_day `{C : JsonCodec} (dir : string) (calls : list call)
    (items0 : list json) (fs fs' : filesystem) (items entries : list json) (day : Z) :
  codec_roundtrip C ->
  calls <> [] ->
  Forall (fun c => datetime.wf (call_now c) = true /\
                   datetime.toordinal (call_now c) = day) calls ->
  history_entries fs (history_path dir) = Returns entries ->
  Forall (fun e => record_day e = Some day -> canonical_date e) entries ->
  update_history_calls dir calls items0 fs = Returns (items, fs') ->
  exists c log,
    last calls = Some c /\
    GenerateDataAI.sample_display_items (call_items c) (call_target c) (call_draws c)
    = Returns items /\
    load_history fs' (history_path dir) = Returns (JList log) /\
    List.filter (on_day day) log = [today_entry (call_now c) items] /\
    log !! 0%nat = Some (today_entry (call_now c) items).
Proof.
  intros Hrt Hne Hday Hit Hcanon Hrun.
  destruct calls as [|c0 rest]; [congruence|].
  pose proof (Forall_inv Hday) as [Hwf0 Hday0]. cbn beta in Hwf0, Hday0.
  set (today := strftime (call_now c0) "%Y/%m/%d").
  assert (Hsame : Forall (fun c => strftime (call_now c) "%Y/%m/%d" = today) (c0 :: rest)).
  { eapply Forall_impl; [exact Hday|]. cbn beta. intros c [Hwf Hd].
    apply same_day_same_date; [exact Hwf|exact Hwf0|congruence]. }
  destruct (single_per_date_string dir (c0 :: rest) items0 fs fs' items today Hrt Hne Hsame Hrun)
    as (c & log & Hlast & Hs & Hload & Hone & Hfront).
  assert (Hnew : forall c' its, c' ∈ c0 :: rest ->
                   record_day (today_entry (call_now c') its) = Some day ->
                   dated today (today_entry (call_now c') its) = true).
  { intros c' its Hc' _. rewrite Forall_forall in Hsame.
    rewrite <- (Hsame c' Hc'). apply today_entry_is_dated. }
  assert (Hold : Forall (fun e => record_day e = Some day -> dated today e = true) entries).
  { eapply Forall_impl; [exact Hcanon|]. cbn beta. intros e He Hd.
    apply canonical_on_day; [exact Hwf0|apply He, Hd|congruence]. }
  destruct (update_history_calls_invariant
              (fun e => record_day e = Some day -> dated today e = true)
              dir (c0 :: rest) Hrt Hne Hnew items0 fs fs' items entries Hit Hold Hrun)
    as (log' & Hload' & Hinv).
  rewrite Hload in Hload'. injection Hload' as <-.
  exists c, log. repeat split; try assumption.
  rewrite <- Hone. apply List.filter_ext_in. intros e He.
  rewrite Forall_forall in Hinv. specialize (Hinv e (proj2 (list_elem_of_In _ _) He)).
  unfold on_day. destruct (dated today e) eqn:Hd.
  - rewrite (dated_on_day (call_now c0) e Hwf0 Hd), Hday0. apply Z.eqb_refl.
  - destruct (record_day e) as [d|] eqn:Hr; [|reflexivity].
    destruct (Z.eqb_spec d day) as [->|Hne']; [|reflexivity].
    specialize (Hinv eq_refl). congruence.
Qed.

(** X4.  A tidy log (dates written the way the code writes them, no
    two records of one day, none dated after today) is still tidy
    after a run of [update_history], for the clock of the run and for
    any later one, and it holds at most 31 records: at most 30 unless
    the run is at midnight sharp. *)
Theorem update_history_keeps_log_tidy `{C : JsonCodec} (dir : string) (now : datetime.t)
    (draws : list nat) (new_items : list json) (target_count : Z) (fs fs1 : filesystem)
    (items entries : list json) :
  codec_roundtrip C ->
  datetime.wf now = true ->
  history_entries fs (history_path dir) = Returns entries ->
  tidy now entries ->
  GenerateDataAI.update_history dir now draws new_items target_count fs = Returns (items, fs1) ->
  exists log,
    load_history fs1 (history_path dir) = Returns (JList log) /\
    tidy now log /\
    (forall later, datetime.toordinal now <= datetime.toordinal later -> tidy later log) /\
    (length log <= 31)%nat /\
    (datetime.time_of_day now <> 0 -> (length log <= 30)%nat).
Proof.
  intros Hrt Hwf Hload Htidy Hrun.
  apply update_history_returns in Hrun as (entries' & Hload' & _ & _ & _ & Hw).
  rewrite Hload in Hload'. injection Hload' as <-.
  destruct (saved_log_tidy now items entries Hwf Htidy) as (Ht & H31 & H30).
  exists (today_entry now items :: survivors now entries).
  split; [exact (load_history_written _ _ _ _ Hrt Hw)|].
  split; [exact Ht|].
  split; [intros later Hle; eapply tidy_later; [exact Hle|exact Ht]|].
  split; [exact H31|exact H30].
Qed.

Lemma demo_log_tidy : tidy demo_now demo_log.
Proof.
  split; [|split].
  - repeat constructor.
    + exists "2025/10/20", (datetime.midnight 2025 10 20). repeat split.
    + exists "2025/09/06", (datetime.midnight 2025 9 6). repeat split.
    + exists "2025/10/01", (datetime.midnight 2025 10 1). repeat split.
  - apply (bool_decide_unpack _). vm_compute. exact I.
  - repeat constructor; intros d Hd; vm_compute in Hd; injection Hd as <-; vm_compute;
      discriminate.
Defined.

Lemma update_history_keeps_log_tidy_witness :
  exists log,
    @load_history JsonText.codec demo_fs' (history_path demo_dir) = Returns (JList log) /\
    tidy demo_now log /\
    (forall later, datetime.toordinal demo_now <= datetime.toordinal later -> tidy later log) /\
    (length log <= 31)%nat /\
    (datetime.time_of_day demo_now <> 0 -> (length log <= 30)%nat).
Proof.
  apply (@update_history_keeps_log_tidy JsonText.codec demo_dir demo_now demo_draws demo_items 5
           demo_fs demo_fs' demo_picks demo_log).
  - exact JsonText_roundtrip.
  - reflexivity.
  - vm_compute. reflexivity.
  - exact demo_log_tidy.
  - exact demo_run.
Defined.

(** The two sample calls of 21 October, and a run on a history edited
    by hand. *)
Lemma single_per_calendar_day_witness :
  exists c log,
    last demo_calls = Some c /\
    GenerateDataAI.sample_display_items (call_items c) (call_target c) (call_draws c)
    = Returns [demo_item "collar" (JNum 1200)] /\
    @load_history JsonText.codec
      (<[history_path demo_dir :=
           JsonText.dumps
             (JList (today_entry demo_evening [demo_item "collar" (JNum 1200)]
                     :: survivors demo_evening
                          (today_entry demo_now demo_picks :: survivors demo_now demo_log)))]>
         demo_fs') (history_path demo_dir) = Returns (JList log) /\
    List.filter (on_day (datetime.toordinal demo_now)) log
    = [today_entry (call_now c) [demo_item "collar" (JNum 1200)]] /\
    log !! 0%nat = Some (today_entry (call_now c) [demo_item "collar" (JNum 1200)]).
Proof.
  apply (@single_per_calendar_day JsonText.codec demo_dir demo_calls [] demo_fs _ _ demo_log
           (datetime.toordinal demo_now) JsonText_roundtrip).
  - discriminate.
  - repeat constructor.
  - vm_compute. reflexivity.
  - eapply Forall_impl; [exact (proj1 demo_log_tidy)|]. intros e He _. exact He.
  - exact demo_two_calls.
Defined.

(** A history edited by hand holds a record dated [2025/10/5].  The run
    of 5 October 2025 keeps it, its date not being the string
    [2025/10/05], and the saved log holds two records of that day. *)
Lemma single_per_day_counterexample :
  @update_history_calls JsonText.codec demo_dir
    [mk_call demo_october_5 demo_draws demo_items 5] [] demo_fs_unpadded
  = Returns (demo_picks,
             <[history_path demo_dir := JsonText.dumps (JList demo_log_october_5)]>
               demo_fs_unpadded) /\
  @load_history JsonText.codec
    (<[history_path demo_dir := JsonText.dumps (JList demo_log_october_5)]> demo_fs_unpadded)
    (history_path demo_dir)
  = Returns (JList demo_log_october_5) /\
  record_day <$> demo_log_october_5
  = [Some (datetime.toordinal demo_october_5); Some (datetime.toordinal demo_october_5)] /\
  List.filter (on_day (datetime.toordinal demo_october_5)) demo_log_october_5
  = demo_log_october_5 /\
  length demo_log_october_5 = 2%nat.
Proof.
  split; [vm_compute; reflexivity|].
  split; [apply (@load_history_insert JsonText.codec), JsonText_loads_dumps_codec|].
  repeat split; vm_compute; reflexivity.
Qed.

(** ** The janitor, run again, and what it counts *)

Lemma os_listdir_empty dir : os_listdir ∅ dir = [].
Proof. unfold os_listdir. rewrite map_to_list_empty. reflexivity. Qed.

Lemma os_listdir_insert (fs : filesystem) (d name text dir : string) :
  fs !! (d, name) = None ->
  os_listdir (<[(d, name) := text]> fs) dir
  ≡ₚ (if decide (d = dir) then [name] else []) ++ os_listdir fs dir.
Proof.
  intros Hnone. unfold os_listdir.
  rewrite (map_to_list_insert fs (d, name) text Hnone). cbn [omap list_omap].
  destruct (decide (d = dir)); reflexivity.
Qed.

Lemma filter_length_Permutation {A} (f : A -> bool) (l k : list A) :
  l ≡ₚ k -> length (List.filter f l) = length (List.filter f k).
Proof.
  induction 1 as [|x l k _ IH|x y l|l k m _ IH1 _ IH2]; cbn [List.filter].
  - reflexivity.
  - destruct (f x); cbn [length]; rewrite IH; reflexivity.
  - destruct (f x), (f y); reflexivity.
  - rewrite IH1. exact IH2.
Qed.

(** The files the janitor keeps and the names it counts make up the
    files there were. *)
Lemma janitor_partition (c : instant) (dir : string) (fs : filesystem) :
  size fs
  = (size (filter (janitor_keeps c dir) fs)
     + length (List.filter (expired c) (os_listdir fs dir)))%nat.
Proof.
  induction fs as [|[d name] text fs Hnone _ IH] using map_first_key_ind.
  - rewrite map_filter_empty, os_listdir_empty, map_size_empty. reflexivity.
  - rewrite map_size_insert_None by exact Hnone.
    rewrite (filter_length_Permutation _ _ _ (os_listdir_insert fs d name text dir Hnone)).
    rewrite map_filter_insert.
    destruct (decide (janitor_keeps c dir (d, name, text))) as [Hk|Hk].
    + rewrite map_size_insert_None by (rewrite map_lookup_filter, Hnone; reflexivity).
      unfold janitor_keeps in Hk. cbn [fst snd] in Hk.
      destruct (decide (d = dir)) as [->|Hne]; cbn [app List.filter].
      * destruct (expired c name) eqn:Ee; [exfalso; apply Hk; split; reflexivity|].
        rewrite IH. reflexivity.
      * rewrite IH. reflexivity.
    + rewrite delete_id by exact Hnone.
      unfold janitor_keeps in Hk. cbn [fst snd] in Hk.
      apply dec_stable in Hk as [-> He].
      rewrite decide_True by reflexivity. cbn [app List.filter]. rewrite He. cbn [length].
      rewrite IH. lia.
Qed.

(** X5.  The number [cleanup_old_html_files] reports is the number of
    files that are gone: the files after the call are among the files
    before it, and there are [deleted_count] fewer of them. *)
Theorem cleanup_old_html_files_count (dir : string) (now : datetime.t)
    (fs fs' : filesystem) (deleted_count : Z) :
  GenerateDataAI.cleanup_old_html_files dir now fs = Returns (fs', deleted_count) ->
  fs' ⊆ fs /\ Z.of_nat (size fs) = Z.of_nat (size fs') + deleted_count.
Proof.
  rewrite cleanup_old_html_files_eq.
  destruct (sub_days now GenerateDataAI.MAX_DAYS) as [c| |]; cbn [mbind outcome_bind];
    try discriminate.
  cbn [mret outcome_ret]. intros [= <- <-].
  split; [apply map_filter_subseteq|].
  rewrite (janitor_partition c dir fs). lia.
Qed.

Lemma cleanup_old_html_files_count_witness :
  filter (janitor_keeps (cutoff demo_now) demo_dir) demo_fs ⊆ demo_fs /\
  Z.of_nat (size demo_fs)
  = Z.of_nat (size (filter (janitor_keeps (cutoff demo_now) demo_dir) demo_fs)) + 1.
Proof.
  apply (cleanup_old_html_files_count demo_dir demo_now).
  rewrite cleanup_old_html_files_eq. vm_compute sub_days. cbn [mbind outcome_bind].
  f_equal.
Defined.

(** X6.  A second pass of the janitor on the same reading of the clock
    deletes nothing and reports zero. *)
Theorem cleanup_old_html_files_idempotent (dir : string) (now : datetime.t)
    (fs fs' : filesystem) (deleted_count : Z) :
  GenerateDataAI.cleanup_old_html_files dir now fs = Returns (fs', deleted_count) ->
  GenerateDataAI.cleanup_old_html_files dir now fs' = Returns (fs', 0).
Proof.
  rewrite !cleanup_old_html_files_eq.
  destruct (sub_days now GenerateDataAI.MAX_DAYS) as [c| |]; cbn [mbind outcome_bind];
    try discriminate.
  cbn [mret outcome_ret]. intros [= <- <-].
  assert (Hidem : filter (janitor_keeps c dir) (filter (janitor_keeps c dir) fs)
                  = filter (janitor_keeps c dir) fs).
  { rewrite map_filter_filter. apply map_filter_ext. intros i x _. tauto. }
  pose proof (janitor_partition c dir (filter (janitor_keeps c dir) fs)) as Hp.
  rewrite Hidem in Hp.
  rewrite Hidem. do 2 f_equal. lia.
Qed.

Lemma cleanup_old_html_files_idempotent_witness :
  GenerateDataAI.cleanup_old_html_files demo_dir demo_now
    (filter (janitor_keeps (cutoff demo_now) demo_dir) demo_fs)
  = Returns (filter (janitor_keeps (cutoff demo_now) demo_dir) demo_fs, 0).
Proof.
  apply (cleanup_old_html_files_idempotent demo_dir demo_now demo_fs _ 1).
  rewrite cleanup_old_html_files_eq. vm_compute sub_days. cbn [mbind outcome_bind].
  f_equal.
Defined.

(** ** The pool without repeated URLs *)

Lemma key_norm_idem v : key_norm (key_norm v) = key_norm v.
Proof. destruct v; reflexivity. Qed.

Lemma key_eqb_norm a b :
  hashable a = true -> hashable b = true ->
  key_eqb a b = true <-> key_norm a = key_norm b.
Proof.
  intros Ha Hb. unfold key_eqb.
  destruct a as [|x|n|s|l|kvs], b as [|y|m|t|l'|kvs']; try discriminate Ha; try discriminate Hb;
    cbn [key_norm]; try (split; [discriminate|intros [=]]); try (split; reflexivity).
  all: try (rewrite Z.eqb_eq; split; [intros ->; reflexivity|intros [= ->]; reflexivity]).
  all: try (rewrite String.eqb_eq; split; [intros ->; reflexivity|intros [= ->]; reflexivity]).
Qed.

Lemma url_of_Some item k :
  url_of item = Some k ->
  exists url, py_getitem item "url" = Returns url /\ hashable url = true /\ k = key_norm url.
Proof.
  unfold url_of. destruct (py_getitem item "url") as [url| |]; try discriminate.
  destruct (hashable url) eqn:Hh; [|discriminate]. intros [= <-]. eauto.
Qed.

Lemma dict_set_keys k v d key :
  key ∈ (fun kv => key_norm (fst kv)) <$> dict_set k v d ->
  key = key_norm k \/ key ∈ (fun kv => key_norm (fst kv)) <$> d.
Proof.
  induction d as [|[k' v'] r IH]; cbn [dict_set].
  - rewrite fmap_cons, fmap_nil. cbn [fst]. intros Hin. apply list_elem_of_singleton in Hin. auto.
  - destruct (key_eqb k' k).
    + rewrite !fmap_cons. cbn [fst]. auto.
    + rewrite !fmap_cons. cbn [fst]. rewrite !elem_of_cons. intros [->|Hin]; [auto|].
      destruct (IH Hin); auto.
Qed.

Lemma dict_set_filed (url item : json) (d : list (json * json)) :
  hashable url = true ->
  url_of item = Some (key_norm url) ->
  filed_by_url d ->
  filed_by_url (dict_set url item d) /\
  forall y, y ∈ (dict_set url item d).*2 <->
            y = item \/ (y ∈ d.*2 /\ url_of y <> Some (key_norm url)).
Proof.
  intros Hh Hitem. induction d as [|[k' v'] r IH]; intros [Hall Hnd].
  - cbn [dict_set]. split.
    + split; [repeat constructor; assumption|]. rewrite fmap_cons, fmap_nil.
      apply NoDup_singleton.
    + intros y. rewrite fmap_cons, fmap_nil. cbn [snd].
      rewrite list_elem_of_singleton, elem_of_nil. tauto.
  - apply Forall_cons in Hall as [[Hk' Hv'] Hall]. cbn [fst snd] in Hk', Hv'.
    rewrite fmap_cons in Hnd. apply NoDup_cons in Hnd as [Hnotin Hnd]. cbn [fst] in Hnotin.
    assert (Hvals : forall y, y ∈ r.*2 -> url_of y <> Some (key_norm k')).
    { intros y Hy Heq. apply Hnotin.
      apply list_elem_of_fmap in Hy as ([ky vy] & -> & Hin). cbn [snd] in Heq.
      rewrite Forall_forall in Hall. destruct (Hall _ Hin) as [_ Hvy]. cbn [fst snd] in Hvy.
      rewrite Hvy in Heq. injection Heq as Heq.
      apply list_elem_of_fmap. exists (ky, vy). split; [symmetry; exact Heq|exact Hin]. }
    cbn [dict_set]. destruct (key_eqb k' url) eqn:Ek.
    + apply key_eqb_norm in Ek; [|assumption..]. split.
      * split; [|rewrite fmap_cons; apply NoDup_cons; split; assumption].
        constructor; [|exact Hall]. cbn [fst snd]. split; [exact Hk'|]. rewrite Ek. exact Hitem.
      * intros y. rewrite !fmap_cons. cbn [snd]. rewrite !elem_of_cons, <- Ek. split.
        -- intros [->|Hy]; [auto|]. right. split; [auto|]. apply Hvals, Hy.
        -- intros [->|[[->|Hy] Hne]]; [auto| |auto]. contradiction.
    + assert (Hne : key_norm k' <> key_norm url).
      { intros Heq. apply key_eqb_norm in Heq; [|assumption..]. congruence. }
      destruct (IH (conj Hall Hnd)) as [[Hall' Hnd'] Hmem]. split.
      * split; [constructor; [split; assumption|exact Hall']|].
        rewrite fmap_cons. apply NoDup_cons. split; [|exact Hnd']. cbn [fst].
        intros Hin. apply dict_set_keys in Hin as [Heq|Hin]; [contradiction|]. apply Hnotin, Hin.
      * intros y. rewrite !fmap_cons. cbn [snd]. rewrite !elem_of_cons, Hmem. split.
        -- intros [->|[->|[Hy Hn]]]; [|auto|auto]. right. split; [auto|].
           rewrite Hv'. intros [= Heq]. contradiction.
        -- intros [->|[[->|Hy] Hn]]; auto.
Qed.

Lemma by_url_spec (all_items : list json) :
  forall d r,
    filed_by_url d ->
    by_url all_items d = Returns r ->
    filed_by_url r /\
    Forall (fun item => is_Some (url_of item)) all_items /\
    forall item,
      item ∈ r.*2 <->
      (exists before after,
         all_items = before ++ item :: after /\ url_of item ∉ url_of <$> after) \/
      (item ∈ d.*2 /\ url_of item ∉ url_of <$> all_items).
Proof.
  induction all_items as [|x rest IH]; intros d r Hd; cbn [by_url].
  - intros [= <-]. split; [exact Hd|]. split; [constructor|].
    intros item. split.
    + intros Hin. right. split; [exact Hin|]. rewrite fmap_nil. apply not_elem_of_nil.
    + intros [(before & after & Habs & _)|[Hin _]]; [|exact Hin].
      destruct before; discriminate.
  - destruct (py_getitem x "url") as [url| |] eqn:Eu; cbn [mbind outcome_bind]; try discriminate.
    destruct (hashable url) eqn:Hh; [|discriminate].
    assert (Hx : url_of x = Some (key_norm url)) by (unfold url_of; rewrite Eu, Hh; reflexivity).
    destruct (dict_set_filed url x d Hh Hx Hd) as [Hd' Hmem].
    intros Hrun. destruct (IH _ _ Hd' Hrun) as (Hr & Hall & Hiff).
    split; [exact Hr|]. split; [constructor; [rewrite Hx; eauto|exact Hall]|].
    intros item. rewrite Hiff, Hmem. rewrite fmap_cons, not_elem_of_cons, Hx. split.
    + intros [(before & after & -> & Hlast)|[[->|[Hin Hne]] Hnot]].
      * left. exists (x :: before), after. split; [reflexivity|exact Hlast].
      * left. exists [], rest. split; [reflexivity|exact Hnot].
      * right. split; [exact Hin|]. split; [exact Hne|exact Hnot].
    + intros [(before & after & Heq & Hlast)|[Hin [Hne Hnot]]].
      * destruct before as [|b before]; cbn in Heq; injection Heq as -> ->.
        -- right. split; [left; reflexivity|exact Hlast].
        -- left. exists before, after. split; [reflexivity|exact Hlast].
      * right. split; [right; split; assumption|exact Hnot].
Qed.

(** Where [by_url] raises: at the first item without a URL that can be
    a key. *)
Lemma by_url_raises (all_items : list json) :
  forall d e,
    by_url all_items d = Raises e ->
    exists before item after,
      all_items = before ++ item :: after /\
      Forall (fun item => is_Some (url_of item)) before /\
      url_of item = None /\
      match py_getitem item "url" with
      | Returns _ => e = TypeError
      | Raises e' => e = e'
      | Starved => False
      end.
Proof.
  induction all_items as [|x rest IH]; intros d e; cbn [by_url]; [discriminate|].
  destruct (py_getitem x "url") as [url|e'|] eqn:Eu; cbn [mbind outcome_bind].
  - destruct (hashable url) eqn:Hh.
    + intros Hrun. destruct (IH _ _ Hrun) as (before & item & after & -> & Hall & Hnone & He).
      exists (x :: before), item, after. split; [reflexivity|].
      split; [|split; assumption]. constructor; [|exact Hall].
      unfold url_of. rewrite Eu, Hh. eauto.
    + intros [= <-]. exists [], x, rest. split; [reflexivity|]. split; [constructor|].
      unfold url_of. rewrite Eu, Hh. split; reflexivity.
  - intros [= <-]. exists [], x, rest. split; [reflexivity|]. split; [constructor|].
    unfold url_of. rewrite Eu. split; reflexivity.
  - discriminate.
Qed.

Lemma by_url_not_starved all_items : forall d, by_url all_items d <> Starved.
Proof.
  induction all_items as [|x rest IH]; intros d; cbn [by_url]; [discriminate|].
  destruct (py_getitem x "url") as [url|e'|] eqn:Eu; cbn [mbind outcome_bind]; try discriminate.
  - destruct (hashable url); [apply IH|discriminate].
  - unfold py_getitem in Eu. destruct x as [| | | | |kvs]; try discriminate.
    destruct (dict_get "url" kvs); discriminate.
Qed.

Lemma filed_by_url_nil : filed_by_url [].
Proof. split; [constructor|rewrite fmap_nil; constructor]. Qed.

Lemma filed_by_url_NoDup d : filed_by_url d -> NoDup (url_of <$> d.*2).
Proof.
  intros [Hall Hnd].
  assert (Heq : url_of <$> d.*2 = Some <$> ((fun kv => key_norm (fst kv)) <$> d)).
  { clear Hnd. induction Hall as [|[k v] r [_ Hv] _ IH]; [reflexivity|].
    rewrite !fmap_cons. cbn [fst snd] in *. rewrite Hv, IH. reflexivity. }
  rewrite Heq. apply NoDup_fmap_2; [|exact Hnd]. intros a b [=]. assumption.
Qed.

Lemma key_eqb_norm_l a b : key_eqb (key_norm a) b = key_eqb a b.
Proof. unfold key_eqb. rewrite key_norm_idem. reflexivity. Qed.

Lemma key_eqb_norm_r a b : key_eqb a (key_norm b) = key_eqb a b.
Proof. unfold key_eqb. rewrite key_norm_idem. reflexivity. Qed.

Lemma key_eqb_sym a b : key_eqb a b = key_eqb b a.
Proof.
  unfold key_eqb. destruct (key_norm a), (key_norm b); try reflexivity.
  - apply Z.eqb_sym.
  - apply String.eqb_sym.
Qed.

Lemma first_occurrences_ext (keys : list json) :
  forall seen1 seen2,
    (forall k, existsb (key_eqb k) seen1 = existsb (key_eqb k) seen2) ->
    first_occurrences seen1 keys = first_occurrences seen2 keys.
Proof.
  induction keys as [|k r IH]; intros seen1 seen2 Hext; cbn [first_occurrences]; [reflexivity|].
  rewrite Hext. destruct (existsb (key_eqb k) seen2); [apply IH, Hext|].
  f_equal. apply IH. intros k'. cbn [existsb]. rewrite Hext. reflexivity.
Qed.

(** A new key goes behind the keys there are; a key that is there
    keeps its place. *)
Lemma dict_set_order (k v : json) (d : list (json * json)) :
  (fun kv => key_norm (fst kv)) <$> dict_set k v d
  = ((fun kv => key_norm (fst kv)) <$> d)
    ++ (if existsb (key_eqb (key_norm k)) ((fun kv => key_norm (fst kv)) <$> d)
        then [] else [key_norm k]).
Proof.
  induction d as [|[k' v'] r IH]; cbn [dict_set]; [reflexivity|].
  rewrite (fmap_cons _ (k', v') r). cbn [existsb fst].
  rewrite key_eqb_norm_l, key_eqb_norm_r, (key_eqb_sym k k').
  destruct (key_eqb k' k); cbn [orb].
  - rewrite fmap_cons, app_nil_r. reflexivity.
  - rewrite fmap_cons, IH. reflexivity.
Qed.

Lemma by_url_order (all_items : list json) :
  forall d r,
    by_url all_items d = Returns r ->
    (fun kv => key_norm (fst kv)) <$> r
    = ((fun kv => key_norm (fst kv)) <$> d)
      ++ first_occurrences ((fun kv => key_norm (fst kv)) <$> d) (omap url_of all_items).
Proof.
  induction all_items as [|x rest IH]; intros d r; cbn [by_url].
  - intros [= <-]. cbn. rewrite app_nil_r. reflexivity.
  - destruct (py_getitem x "url") as [url| |] eqn:Eu; cbn [mbind outcome_bind]; try discriminate.
    destruct (hashable url) eqn:Hh; [|discriminate].
    intros Hrun. rewrite (IH _ _ Hrun), dict_set_order.
    cbn [omap list_omap]. unfold url_of at 2. rewrite Eu, Hh. cbn [first_occurrences].
    fold (omap url_of rest).
    destruct (existsb (key_eqb (key_norm url)) ((fun kv => key_norm (fst kv)) <$> d)).
    + rewrite app_nil_r. reflexivity.
    + rewrite <- app_assoc. cbn [app]. do 2 f_equal.
      apply first_occurrences_ext. intros k.
      rewrite existsb_app. cbn [existsb]. rewrite orb_false_r. apply orb_comm.
Qed.

Lemma filed_by_url_keys d :
  filed_by_url d -> url_of <$> d.*2 = Some <$> ((fun kv => key_norm (fst kv)) <$> d).
Proof.
  intros [Hall _]. induction Hall as [|[k v] r [_ Hv] _ IH]; [reflexivity|].
  rewrite !fmap_cons. cbn [fst snd] in *. rewrite Hv, IH. reflexivity.
Qed.

(** X7.  The pool without repeated URLs,
    [list({item['url']: item for item in all_items}.values())]: when it
    is built, every fetched item has a URL that can be a key, no two
    items of the pool have the same URL, the items of the pool are
    exactly the items fetched last for their URL, and they stand in the
    order in which their URLs first came.  It raises at the first item
    that has no [url] ([KeyError]), is not a dict ([TypeError]), or
    whose URL is a list or a dict ([TypeError]). *)
Theorem unique_items_last_per_url (all_items : list json) :
  match unique_items all_items with
  | Returns unique =>
      Forall (fun item => is_Some (url_of item)) all_items /\
      NoDup (url_of <$> unique) /\
      (forall item,
         item ∈ unique <->
         exists before after,
           all_items = before ++ item :: after /\ url_of item ∉ url_of <$> after) /\
      url_of <$> unique = Some <$> first_occurrences [] (omap url_of all_items)
  | Raises e =>
      exists before item after,
        all_items = before ++ item :: after /\
        Forall (fun item => is_Some (url_of item)) before /\
        url_of item = None /\
        match py_getitem item "url" with
        | Returns _ => e = TypeError
        | Raises e' => e = e'
        | Starved => False
        end
  | Starved => False
  end.
Proof.
  unfold unique_items.
  destruct (by_url all_items []) as [d|e|] eqn:Erun; cbn [mbind outcome_bind].
  - destruct (by_url_spec all_items [] d filed_by_url_nil Erun) as (Hd & Hall & Hiff).
    change (List.map snd d) with (d.*2).
    split; [exact Hall|]. split; [apply filed_by_url_NoDup, Hd|]. split.
    + intros item. rewrite Hiff. split; [|auto].
      intros [H|[Hin _]]; [exact H|]. rewrite fmap_nil in Hin. apply elem_of_nil in Hin as [].
    + rewrite (filed_by_url_keys d Hd), (by_url_order all_items [] d Erun). reflexivity.
  - apply (by_url_raises all_items [] e Erun).
  - apply (by_url_not_starved all_items [] Erun).
Qed.

Example unique_items_sample :
  unique_items [JObj [("url", JStr "a"); ("price", JNum 1)];
                JObj [("url", JStr "b"); ("price", JNum 2)];
                JObj [("url", JStr "a"); ("price", JNum 3)]]
  = Returns [JObj [("url", JStr "a"); ("price", JNum 3)];
             JObj [("url", JStr "b"); ("price", JNum 2)]].
Proof. reflexivity. Qed.

(** ** The items of a response *)

Lemma int_of_string_outcome s :
  (exists n, int_of_string s = Returns n) \/ int_of_string s = Raises ValueError.
Proof.
  unfold int_of_string.
  destruct (match py_strip s with
            | String "-" r => (true, r)
            | String "+" r => (false, r)
            | _ => (false, py_strip s)
            end) as [negative digits].
  destruct (literal_digits 0 0 false digits) as [[n count]|]; [|auto].
  destruct (max_str_digits <? count)%nat; eauto.
Qed.

Lemma py_int_of_outcome v :
  (exists n, py_int_of v = Returns n) \/ py_int_of v = Raises ValueError \/
  py_int_of v = Raises TypeError.
Proof.
  destruct v as [|b|n|s|l|kvs]; cbn [py_int_of]; eauto.
  destruct (int_of_string_outcome s) as [[n ->]| ->]; eauto.
Qed.

(** The check of the price changes nothing: the price is the one of
    the response, and a price [int] does not take ([None], a list, a
    dict) is a [TypeError]. *)
Lemma response_price_inert unknown item :
  response_price unknown item =
  match raw_price unknown item with
  | Completes price =>
      match py_int_of price with
      | Raises TypeError => Throws (Builtin TypeError)
      | _ => Completes price
      end
  | other => other
  end.
Proof.
  unfold response_price, raw_price.
  destruct (py_get item "prices" (JObj [])) as [prices| |] eqn:E1; cbn [mbind completion_bind];
    try reflexivity.
  destruct (py_get prices "price" (JStr unknown)) as [price| |] eqn:E2;
    cbn [mbind completion_bind]; try reflexivity.
  destruct (py_int_of_outcome price) as [[n ->]|[-> | ->]]; reflexivity.
Qed.

Lemma py_get_dict kvs key default :
  py_get (JObj kvs) key default = Completes (dict_get_default key default kvs).
Proof. reflexivity. Qed.

Lemma py_get_outcome v key default :
  match py_get v key default with
  | Completes x => exists kvs, v = JObj kvs /\ x = dict_get_default key default kvs
  | Throws e => e = AttributeError
  | Stalls => False
  end.
Proof. destruct v; cbn [py_get]; eauto. Qed.

Lemma raw_price_outcome unknown item :
  match raw_price unknown item with
  | Completes price =>
      exists kvs prices,
        item = JObj kvs /\
        dict_get_default "prices" (JObj []) kvs = JObj prices /\
        price = dict_get_default "price" (JStr unknown) prices
  | Throws e => e = AttributeError
  | Stalls => False
  end.
Proof.
  unfold raw_price. destruct item as [| | | | |kvs]; cbn [py_get mbind completion_bind]; auto.
  fold (dict_get_default "prices" (JObj []) kvs).
  destruct (dict_get_default "prices" (JObj []) kvs) as [| | | | |prices] eqn:Ep;
    cbn [py_get mbind completion_bind]; auto.
  exists kvs, prices. repeat split. exact Ep.
Qed.

(** What the later revision makes of one item of the response. *)
Lemma response_item_spec unknown entry :
  match FetchAI.response_item unknown entry with
  | Completes item =>
      exists kvs image_urls price,
        entry = JObj kvs /\
        dict_get_default "imageURL" (JObj []) kvs = JObj image_urls /\
        raw_price unknown entry = Completes price /\
        item = pooled_item
                 (dict_get_default "title" (JStr unknown) kvs)
                 (dict_get_default "URL" (JStr EmptyString) kvs)
                 (py_or (dict_get_default "list" (JStr EmptyString) image_urls)
                    (py_or (dict_get_default "small" (JStr EmptyString) image_urls)
                       (dict_get_default "large" (JStr EmptyString) image_urls)))
                 price
  | Throws e => e = AttributeError \/ e = Builtin TypeError
  | Stalls => False
  end.
Proof.
  unfold FetchAI.response_item. rewrite response_price_inert.
  pose proof (raw_price_outcome unknown entry) as Hraw.
  destruct (raw_price unknown entry) as [price|e|]; cbn [mbind completion_bind];
    [|left; exact Hraw|exact Hraw].
  destruct Hraw as (kvs & prices & -> & Hprices & ->).
  destruct (py_int_of_outcome (dict_get_default "price" (JStr unknown) prices))
    as [[n ->]|[-> | ->]]; cbn [mbind completion_bind]; auto.
  all: rewrite !py_get_dict; cbn [mbind completion_bind].
  all: destruct (dict_get_default "imageURL" (JObj []) kvs) as [| | | | |image_urls] eqn:Eimg;
    try (cbn [py_get mbind completion_bind]; auto; fail).
  all: rewrite !py_get_dict; cbn [mbind completion_bind].
  all: destruct (py_truthy (dict_get_default "list" (JStr EmptyString) image_urls)) eqn:El;
    cbn [mbind completion_bind];
    [|destruct (py_truthy (dict_get_default "small" (JStr EmptyString) image_urls)) eqn:Es;
      cbn [mbind completion_bind]].
  all: eexists kvs, image_urls, _; split; [reflexivity|]; split; [exact Eimg|];
    split; [reflexivity|]; unfold py_or; rewrite El, ?Es; reflexivity.
Qed.

Lemma for_each_spec {A B} (f : A -> completion B) (P : A -> B -> Prop) (Q : error -> Prop)
    (l : list A) :
  (forall x, match f x with
             | Completes y => P x y
             | Throws e => Q e
             | Stalls => False
             end) ->
  match for_each f l with
  | Completes ys => Forall2 P l ys
  | Throws e => Q e
  | Stalls => False
  end.
Proof.
  intros Hf. induction l as [|x r IH]; cbn [for_each]; [constructor|].
  specialize (Hf x). destruct (f x) as [y|e|]; cbn [mbind completion_bind]; auto.
  destruct (for_each f r) as [ys|e|]; cbn [mbind completion_bind]; auto.
Qed.

Lemma py_contains_outcome key v :
  (exists b, py_contains key v = Returns b) \/ py_contains key v = Raises TypeError.
Proof. destruct v; cbn [py_contains]; eauto. Qed.

Lemma py_getitem_outcome v key :
  (exists x, py_getitem v key = Returns x) \/ py_getitem v key = Raises KeyError \/
  py_getitem v key = Raises TypeError.
Proof.
  destruct v as [| | | | |kvs]; cbn [py_getitem]; auto.
  destruct (dict_get key kvs); eauto.
Qed.

Lemma py_iter_outcome v :
  (exists l, py_iter v = Returns l) \/ py_iter v = Raises TypeError.
Proof. destruct v; cbn [py_iter]; eauto. Qed.

(** When the test finds items, the first subscript succeeds, and the
    second one unless the result is a list or a string. *)
Lemma has_items_spec data :
  match has_items data with
  | Completes true =>
      exists result,
        py_getitem data "result" = Returns result /\
        ((exists listing, py_getitem result "items" = Returns listing) \/
         py_getitem result "items" = Raises TypeError)
  | Completes false => True
  | Throws e => e = Builtin TypeError
  | Stalls => False
  end.
Proof.
  unfold has_items.
  destruct (py_contains_outcome "result" data) as [[b Hb]|Hb]; rewrite Hb;
    cbn [of_outcome mbind completion_bind]; [|reflexivity].
  destruct b; [|exact I].
  destruct data as [| | |s|l|kvs]; try discriminate Hb;
    cbn [py_getitem of_outcome mbind completion_bind]; try reflexivity.
  cbn [py_contains] in Hb. injection Hb as Hb. apply bool_decide_eq_true in Hb as [result Hr].
  rewrite Hr. cbn [of_outcome mbind completion_bind].
  destruct (py_contains_outcome "items" result) as [[b Hb]|Hb]; rewrite Hb;
    cbn [of_outcome]; [|reflexivity].
  destruct b; [|exact I].
  exists result. split; [reflexivity|].
  destruct result as [| | |s|l|kvs']; try discriminate Hb; cbn [py_getitem]; auto.
  cbn [py_contains] in Hb. injection Hb as Hb. apply bool_decide_eq_true in Hb as [listing Hl].
  rewrite Hl. eauto.
Qed.

(** X8.  [get_dmm_items] of the later revision, on the decoded
    response: when it returns, either the response has no items and the
    result is empty, or the result has one item for each entry of
    [data["result"]["items"]], in order, each with the keys [title],
    [url], [image], [price] and [source]; the price is the one the
    response gives, or the default, whether it reads as a number or
    not, and the image is the first of the [list], [small] and [large]
    URLs that is not empty.  The function does not wait for random
    numbers; of the exceptions it can raise nothing is said here. *)
Theorem get_dmm_items_items (unknown : string) (data : json) :
  match FetchAI.get_dmm_items unknown data with
  | Completes items =>
      exists entries,
        (has_items data = Completes false /\ entries = [] \/
         exists result listing,
           py_getitem data "result" = Returns result /\
           py_getitem result "items" = Returns listing /\
           py_iter listing = Returns entries) /\
        Forall2 (fun entry item =>
                   exists kvs image_urls price,
                     entry = JObj kvs /\
                     dict_get_default "imageURL" (JObj []) kvs = JObj image_urls /\
                     raw_price unknown entry = Completes price /\
                     item = pooled_item
                              (dict_get_default "title" (JStr unknown) kvs)
                              (dict_get_default "URL" (JStr EmptyString) kvs)
                              (py_or (dict_get_default "list" (JStr EmptyString) image_urls)
                                 (py_or (dict_get_default "small" (JStr EmptyString) image_urls)
                                    (dict_get_default "large" (JStr EmptyString) image_urls)))
                              price)
                entries items
  | Throws _ => True
  | Stalls => False
  end.
Proof.
  unfold FetchAI.get_dmm_items.
  pose proof (has_items_spec data) as Hhas.
  destruct (has_items data) as [[|]|e|]; cbn [mbind completion_bind]; [| |auto|exact Hhas].
  - destruct Hhas as (result & Hr & Hl). rewrite Hr. cbn [of_outcome mbind completion_bind].
    destruct Hl as [[listing Hl]|Hl]; rewrite Hl; cbn [of_outcome mbind completion_bind];
      [|auto].
    destruct (py_iter_outcome listing) as [[entries Hit]|Hit]; rewrite Hit;
      cbn [of_outcome mbind completion_bind]; [|auto].
    pose proof (for_each_spec (FetchAI.response_item unknown) _ _ entries
                  (response_item_spec unknown)) as Hfor.
    destruct (for_each (FetchAI.response_item unknown) entries) as [items|e|];
      [|exact I|exact Hfor].
    exists entries. split; [|exact Hfor]. right. exists result, listing. auto.
  - exists []. split; [auto|constructor].
Qed.

(** What the first revision makes of one item, beside the later one. *)
Lemma response_item_revisions unknown entry :
  match Fetch.response_item unknown entry, FetchAI.response_item unknown entry with
  | Completes item1, Completes item2 =>
      exists title url image1 image2 price,
        item1 = pooled_item title url image1 price /\
        item2 = pooled_item title url image2 price
  | Throws e1, Throws e2 => e1 = e2
  | Stalls, Stalls => True
  | _, _ => False
  end.
Proof.
  unfold Fetch.response_item, FetchAI.response_item. rewrite response_price_inert.
  pose proof (raw_price_outcome unknown entry) as Hraw.
  destruct (raw_price unknown entry) as [price|e|]; cbn [mbind completion_bind];
    [|reflexivity|exact I].
  destruct Hraw as (kvs & prices & -> & Hprices & ->).
  destruct (py_int_of_outcome (dict_get_default "price" (JStr unknown) prices))
    as [[n ->]|[-> | ->]]; cbn [mbind completion_bind]; [| |reflexivity].
  all: rewrite !py_get_dict; cbn [mbind completion_bind].
  all: destruct (dict_get_default "imageURL" (JObj []) kvs) as [| | | | |image_urls] eqn:Eimg;
    try (cbn [py_get mbind completion_bind]; reflexivity).
  all: rewrite !py_get_dict; cbn [mbind completion_bind].
  all: destruct (py_truthy (dict_get_default "list" (JStr EmptyString) image_urls)) eqn:El;
    cbn [mbind completion_bind];
    [|destruct (py_truthy (dict_get_default "small" (JStr EmptyString) image_urls)) eqn:Es;
      cbn [mbind completion_bind]].
  all: do 5 eexists; split; reflexivity.
Qed.

Lemma for_each_related {A B} (f g : A -> completion B) (R : B -> B -> Prop) (l : list A) :
  (forall x, match f x, g x with
             | Completes y1, Completes y2 => R y1 y2
             | Throws e1, Throws e2 => e1 = e2
             | Stalls, Stalls => True
             | _, _ => False
             end) ->
  match for_each f l, for_each g l with
  | Completes ys1, Completes ys2 => Forall2 R ys1 ys2
  | Throws e1, Throws e2 => e1 = e2
  | Stalls, Stalls => True
  | _, _ => False
  end.
Proof.
  intros Hfg. induction l as [|x r IH]; cbn [for_each]; [constructor|].
  specialize (Hfg x). destruct (f x) as [y1|e1|], (g x) as [y2|e2|]; try contradiction;
    cbn [mbind completion_bind]; try assumption.
  destruct (for_each f r) as [ys1|e1|], (for_each g r) as [ys2|e2|]; try contradiction;
    cbn [mbind completion_bind]; try assumption.
  constructor; assumption.
Qed.

(** X9.  The two revisions of [get_dmm_items] agree on every response
    but for the image: both raise the same exception, or both return,
    and then their items differ in the [image] only. *)
Theorem get_dmm_items_revisions (unknown : string) (data : json) :
  match Fetch.get_dmm_items unknown data, FetchAI.get_dmm_items unknown data with
  | Completes items1, Completes items2 =>
      Forall2 (fun item1 item2 =>
                 exists title url image1 image2 price,
                   item1 = pooled_item title url image1 price /\
                   item2 = pooled_item title url image2 price) items1 items2
  | Throws e1, Throws e2 => e1 = e2
  | Stalls, Stalls => True
  | _, _ => False
  end.
Proof.
  unfold Fetch.get_dmm_items, FetchAI.get_dmm_items.
  destruct (has_items data) as [[|]|e|]; cbn [mbind completion_bind];
    [|constructor|reflexivity|exact I].
  destruct (of_outcome (py_getitem data "result")) as [result|e|]; cbn [mbind completion_bind];
    [|reflexivity|exact I].
  destruct (of_outcome (py_getitem result "items")) as [listing|e|]; cbn [mbind completion_bind];
    [|reflexivity|exact I].
  destruct (of_outcome (py_iter listing)) as [entries|e|]; cbn [mbind completion_bind];
    [|reflexivity|exact I].
  apply for_each_related, response_item_revisions.
Qed.

(** ** The data step as a whole *)

Lemma current_week_not_expired c : expired c "current_week.json" = false.
Proof. reflexivity. Qed.

(** X10.  When [save_items_to_json] returns: if the requests gave no
    item it has changed no file; otherwise [current_week.json] holds
    the items drawn for the day, [history.json] holds the record of the
    day with these items in front of the records kept, and every other
    file is as it was or is a file of the script's directory that the
    janitor takes for expired. *)
Theorem save_items_to_json_files `{C : JsonCodec} (unknown cwd script_dir : string)
    (responses : list json) (now_update now_cleanup : datetime.t) (draws : list nat)
    (fs fs' : filesystem) :
  save_items_to_json unknown cwd script_dir responses now_update now_cleanup draws fs
  = Completes fs' ->
  exists fetched unique,
    for_each (Fetch.get_dmm_items unknown) responses = Completes fetched /\
    unique_items (concat fetched) = Returns unique /\
    (unique = [] -> fs' = fs) /\
    (unique <> [] ->
     exists today_recommendations entries current history,
       GenerateData.sample_display_items unique 5 draws = Returns today_recommendations /\
       history_entries fs (cwd, "history.json") = Returns entries /\
       json_dumps (JList today_recommendations) = Encoded current /\
       fs' !! (cwd, "current_week.json") = Some current /\
       json_dumps (JList (today_entry now_update today_recommendations
                            :: survivors now_update entries)) = Encoded history /\
       fs' !! (cwd, "history.json") = Some history /\
       forall path,
         path <> (cwd, "current_week.json") -> path <> (cwd, "history.json") ->
         fs' !! path = fs !! path \/
         (fs' !! path = None /\ fst path = script_dir /\
          expired (cutoff now_cleanup) (snd path) = true)).
Proof.
  unfold save_items_to_json.
  destruct (for_each (Fetch.get_dmm_items unknown) responses) as [fetched| |];
    cbn [mbind completion_bind]; try discriminate.
  destruct (unique_items (concat fetched)) as [unique| |] eqn:Eu;
    cbn [of_outcome mbind completion_bind]; try discriminate.
  intros Hrun. exists fetched, unique. split; [reflexivity|]. split; [exact Eu|].
  destruct unique as [|item unique].
  - split; [|intros []; reflexivity]. intros _. congruence.
  - split; [discriminate|]. intros _.
    rewrite update_history_copies_same_directory in Hrun.
    destruct (GenerateDataAI.update_history cwd now_update draws (item :: unique) 5 fs)
      as [[today_recommendations fs1]| |] eqn:Eup; cbn [of_outcome mbind completion_bind] in Hrun;
      try discriminate.
    apply update_history_returns in Eup as (entries & Hload & _ & Hs & _ & Hw).
    apply write_json_returns in Hw as (history & Hdh & ->).
    unfold write_json in Hrun.
    destruct (json_dumps (JList today_recommendations)) as [current|e] eqn:Edc;
      cbn [of_outcome mbind completion_bind] in Hrun; try discriminate.
    rewrite cleanup_copies, cleanup_old_html_files_eq in Hrun.
    destruct (sub_days now_cleanup GenerateDataAI.MAX_DAYS) as [c| |] eqn:Ec;
      cbn [of_outcome mbind completion_bind mret outcome_ret] in Hrun; try discriminate.
    apply sub_days_cutoff in Ec as ->. injection Hrun as <-.
    exists today_recommendations, entries, current, history.
    split; [rewrite sample_display_items_copies; exact Hs|]. split; [exact Hload|].
    split; [exact Edc|]. split; [|split; [exact Hdh|split]].
    + apply map_lookup_filter_Some. split; [apply lookup_insert_eq|].
      unfold janitor_keeps. cbn [fst snd]. rewrite current_week_not_expired.
      intros [_ [=]].
    + apply map_lookup_filter_Some. split.
      * rewrite lookup_insert_ne by discriminate. apply lookup_insert_eq.
      * unfold janitor_keeps. cbn [fst snd]. rewrite history_not_expired. intros [_ [=]].
    + intros [d name] Hcw Hh.
      destruct (decide (janitor_keeps (cutoff now_cleanup) script_dir
                          ((d, name), default EmptyString (fs !! (d, name))))) as [Hk|Hk].
      * left. apply option_eq. intros text. rewrite map_lookup_filter_Some.
        rewrite !lookup_insert_ne by (unfold history_path; congruence).
        split; [intros [H _]; exact H|]. intros H. split; [exact H|].
        unfold janitor_keeps in *. cbn [fst snd] in *. exact Hk.
      * right. unfold janitor_keeps in Hk. cbn [fst snd] in Hk. apply dec_stable in Hk as [-> He].
        split; [|split; [reflexivity|exact He]].
        apply map_lookup_filter_None. right. intros text _.
        unfold janitor_keeps. cbn [fst snd]. tauto.
Qed.

Example demo_fetch :
  Fetch.get_dmm_items "?" demo_response
  = Completes [pooled_item (JStr "leash") (JStr "https://shop.test/leash")
                 (JStr "https://shop.test/leash/l.jpg") (JStr "1980");
               pooled_item (JStr "bowl") (JStr "https://shop.test/bowl")
                 (JStr "https://shop.test/bowl/l.jpg") (JStr "550~");
               pooled_item (JStr "leash, red") (JStr "https://shop.test/leash")
                 (JStr "https://shop.test/leash/l.jpg") (JStr "2200")].
Proof. reflexivity. Qed.

Example demo_fetch_later :
  FetchAI.get_dmm_items "?" demo_response
  = Completes [pooled_item (JStr "leash") (JStr "https://shop.test/leash")
                 (JStr "https://shop.test/leash/s.jpg") (JStr "1980");
               pooled_item (JStr "bowl") (JStr "https://shop.test/bowl")
                 (JStr "https://shop.test/bowl/s.jpg") (JStr "550~");
               pooled_item (JStr "leash, red") (JStr "https://shop.test/leash")
                 (JStr "https://shop.test/leash/s.jpg") (JStr "2200")].
Proof. reflexivity. Qed.

(** A response without items, one that is not a container, and an
    item whose price is [null]. *)
Example demo_fetch_edges :
  Fetch.get_dmm_items "?" (JObj [("result", JObj [("status", JNum 400)])]) = Completes [] /\
  Fetch.get_dmm_items "?" JNull = Throws (Builtin TypeError) /\
  Fetch.get_dmm_items "?" (JObj [("result", JObj [("items", JList [JStr "x"])])])
  = Throws AttributeError /\
  Fetch.get_dmm_items "?"
    (JObj [("result", JObj [("items", JList [JObj [("prices", JObj [("price", JNull)])]])])])
  = Throws (Builtin TypeError).
Proof. repeat split. Qed.

(** The data step on the sample files, with the sample response to
    each of two requests. *)
Lemma demo_save :
  @save_items_to_json JsonText.codec "?" demo_dir demo_dir [demo_response; demo_response]
    demo_now demo_now demo_draws demo_fs
  = Completes demo_saved.
Proof.
  unfold save_items_to_json.
  assert (Hu : exists fetched,
             for_each (Fetch.get_dmm_items "?") [demo_response; demo_response]
             = Completes fetched /\
             unique_items (concat fetched) = Returns demo_pool)
    by (eexists; split; reflexivity).
  destruct Hu as (fetched & -> & Hu). cbn [mbind completion_bind].
  rewrite Hu. cbn [of_outcome mbind completion_bind].
  rewrite update_history_copies_same_directory.
  rewrite (@update_history_well_formed JsonText.codec demo_dir demo_now demo_draws demo_pool 5
             demo_fs demo_log (rev demo_pool));
    [|vm_compute; reflexivity|repeat constructor; eexists; reflexivity|reflexivity
     |vm_compute; split; [reflexivity|discriminate]].
  rewrite !write_json_JsonText.
  cbn [of_outcome mbind completion_bind outcome_bind mret outcome_ret].
  rewrite write_json_JsonText. cbn [of_outcome mbind completion_bind].
  rewrite cleanup_copies, cleanup_old_html_files_eq.
  rewrite sub_days_returns by (vm_compute; split; [reflexivity|discriminate]).
  reflexivity.
Qed.

Lemma save_items_to_json_files_witness :
  exists fetched unique,
    for_each (Fetch.get_dmm_items "?") [demo_response; demo_response] = Completes fetched /\
    unique_items (concat fetched) = Returns unique /\
    (unique = [] -> demo_saved = demo_fs) /\
    (unique <> [] ->
     exists today_recommendations entries current history,
       GenerateData.sample_display_items unique 5 demo_draws = Returns today_recommendations /\
       @history_entries JsonText.codec demo_fs (demo_dir, "history.json") = Returns entries /\
       @json_dumps JsonText.codec (JList today_recommendations) = Encoded current /\
       demo_saved !! (demo_dir, "current_week.json") = Some current /\
       @json_dumps JsonText.codec
         (JList (today_entry demo_now today_recommendations :: survivors demo_now entries))
       = Encoded history /\
       demo_saved !! (demo_dir, "history.json") = Some history /\
       forall path,
         path <> (demo_dir, "current_week.json") -> path <> (demo_dir, "history.json") ->
         demo_saved !! path = demo_fs !! path \/
         (demo_saved !! path = None /\
          fst path = demo_dir /\ expired (cutoff demo_now) (snd path) = true)).
Proof.
  apply (@save_items_to_json_files JsonText.codec "?" demo_dir demo_dir
           [demo_response; demo_response] demo_now demo_now demo_draws demo_fs).
  exact demo_save.
Defined.

(** The items of the first revision are built the same way. *)
Lemma fetch_items_pooled unknown data items :
  Fetch.get_dmm_items unknown data = Completes items ->
  Forall (fun item => exists title url image price, item = pooled_item title url image price)
    items.
Proof.
  unfold Fetch.get_dmm_items.
  destruct (has_items data) as [[|]|e|]; cbn [mbind completion_bind]; try discriminate;
    [|intros [= <-]; constructor].
  destruct (of_outcome (py_getitem data "result")) as [result|e|]; cbn [mbind completion_bind];
    try discriminate.
  destruct (of_outcome (py_getitem result "items")) as [listing|e|]; cbn [mbind completion_bind];
    try discriminate.
  destruct (of_outcome (py_iter listing)) as [entries|e|]; cbn [mbind completion_bind];
    try discriminate.
  intros Hrun.
  pose proof (for_each_spec (Fetch.response_item unknown)
                (fun _ item => exists title url image price,
                     item = pooled_item title url image price)
                (fun _ => True) entries) as Hfor.
  rewrite Hrun in Hfor. eapply Forall2_Forall_r; [apply Hfor|].
  - intros entry. pose proof (response_item_revisions unknown entry) as Hrev.
    pose proof (response_item_spec unknown entry) as Hspec.
    destruct (Fetch.response_item unknown entry) as [item| |]; [|exact I|].
    + destruct (FetchAI.response_item unknown entry); try contradiction.
      destruct Hrev as (title & url & image & _ & price & -> & _). eauto.
    + destruct (FetchAI.response_item unknown entry); contradiction.
  - apply Forall_true. auto.
Qed.

Lemma for_each_Forall {A B} (f : A -> completion B) (P : B -> Prop) (l : list A) ys :
  (forall x y, f x = Completes y -> P y) ->
  for_each f l = Completes ys -> Forall P ys.
Proof.
  intros Hf. revert ys. induction l as [|x r IH]; cbn [for_each]; intros ys.
  - intros [= <-]. constructor.
  - destruct (f x) as [y| |] eqn:Ex; cbn [mbind completion_bind]; try discriminate.
    destruct (for_each f r) as [ys'| |]; cbn [mbind completion_bind]; try discriminate.
    intros [= <-]. constructor; [eapply Hf, Ex|apply IH; reflexivity].
Qed.

(** X11.  On the items [get_dmm_items] returns, building the pool
    raises no [KeyError]: it returns a pool of items with the five
    keys, empty only when nothing was fetched, or it raises
    [TypeError] because the response gave a list or a dict for a
    URL. *)
Theorem fetched_pool (unknown : string) (responses : list json) (fetched : list (list json)) :
  for_each (Fetch.get_dmm_items unknown) responses = Completes fetched ->
  match unique_items (concat fetched) with
  | Returns unique =>
      Forall (fun item => exists title url image price,
                  item = pooled_item title url image price /\ hashable url = true) unique /\
      (unique = [] <-> concat fetched = [])
  | Raises e =>
      e = TypeError /\
      exists title url image price,
        pooled_item title url image price ∈ concat fetched /\ hashable url = false
  | Starved => False
  end.
Proof.
  intros Hfetch.
  assert (Hall : Forall (fun item => exists title url image price,
                           item = pooled_item title url image price) (concat fetched)).
  { apply Forall_concat.
    apply (for_each_Forall _ _ _ _ (fetch_items_pooled unknown) Hfetch). }
  unfold unique_items.
  destruct (by_url (concat fetched) []) as [d|e|] eqn:Erun; cbn [mbind outcome_bind].
  - destruct (by_url_spec _ [] d filed_by_url_nil Erun) as (Hd & Hurls & Hiff).
    change (List.map snd d) with (d.*2). split.
    + apply Forall_forall. intros item Hin.
      apply Hiff in Hin as [(before & after & Heq & _)|[Hin _]];
        [|rewrite fmap_nil in Hin; apply elem_of_nil in Hin as []].
      rewrite Forall_forall in Hall, Hurls.
      assert (Hmem : item ∈ concat fetched) by (rewrite Heq; set_solver).
      destruct (Hall _ Hmem) as (title & url & image & price & ->).
      destruct (Hurls _ Hmem) as [k Hk].
      exists title, url, image, price. split; [reflexivity|].
      unfold url_of, pooled_item in Hk. cbn in Hk. destruct (hashable url); [reflexivity|].
      discriminate.
    + split.
      * intros Hnil. destruct (concat fetched) as [|x l] eqn:Ec; [reflexivity|].
        exfalso.
        destruct (exists_last (l:=x :: l) ltac:(discriminate)) as (before & item & Heq).
        assert (Hin : item ∈ d.*2).
        { apply Hiff. left. exists before, []. split; [exact Heq|].
          rewrite fmap_nil. apply not_elem_of_nil. }
        rewrite Hnil in Hin. apply elem_of_nil in Hin as [].
      * intros Hnil. rewrite Hnil in Erun. cbn in Erun. injection Erun as <-. reflexivity.
  - destruct (by_url_raises _ [] e Erun) as (before & item & after & Heq & _ & Hnone & He).
    rewrite Forall_forall in Hall.
    assert (Hmem : item ∈ concat fetched) by (rewrite Heq; set_solver).
    destruct (Hall _ Hmem) as (title & url & image & price & ->).
    unfold url_of, pooled_item in Hnone, He. cbn in Hnone, He.
    destruct (hashable url) eqn:Hh; [discriminate|].
    split; [exact He|]. exists title, url, image, price. split; [exact Hmem|exact Hh].
  - apply (by_url_not_starved _ [] Erun).
Qed.

Lemma fetched_pool_witness :
  match unique_items
          (concat [[pooled_item (JStr "leash") (JStr "https://shop.test/leash")
                      (JStr "https://shop.test/leash/l.jpg") (JStr "1980");
                    pooled_item (JStr "bowl") (JStr "https://shop.test/bowl")
                      (JStr "https://shop.test/bowl/l.jpg") (JStr "550~");
                    pooled_item (JStr "leash, red") (JStr "https://shop.test/leash")
                      (JStr "https://shop.test/leash/l.jpg") (JStr "2200")]]) with
  | Returns unique =>
      Forall (fun item => exists title url image price,
                  item = pooled_item title url image price /\ hashable url = true) unique /\
      (unique = [] <->
       concat [[pooled_item (JStr "leash") (JStr "https://shop.test/leash")
                  (JStr "https://shop.test/leash/l.jpg") (JStr "1980");
                pooled_item (JStr "bowl") (JStr "https://shop.test/bowl")
                  (JStr "https://shop.test/bowl/l.jpg") (JStr "550~");
                pooled_item (JStr "leash, red") (JStr "https://shop.test/leash")
                  (JStr "https://shop.test/leash/l.jpg") (JStr "2200")]] = [])
  | Raises e =>
      e = TypeError /\
      exists title url image price,
        pooled_item title url image price
        ∈ concat [[pooled_item (JStr "leash") (JStr "https://shop.test/leash")
                     (JStr "https://shop.test/leash/l.jpg") (JStr "1980");
                   pooled_item (JStr "bowl") (JStr "https://shop.test/bowl")
                     (JStr "https://shop.test/bowl/l.jpg") (JStr "550~");
                   pooled_item (JStr "leash, red") (JStr "https://shop.test/leash")
                     (JStr "https://shop.test/leash/l.jpg") (JStr "2200")]] /\
        hashable url = false
  | Starved => False
  end.
Proof.
  apply (fetched_pool "?" [demo_response]). reflexivity.
Defined.

(** ** The price on a page *)

Example group_thousands_samples :
  group_thousands "0" = "0" /\ group_thousands "550" = "550" /\
  group_thousands "1980" = "1,980" /\ group_thousands "123456" = "123,456" /\
  group_thousands "1234567" = "1,234,567".
Proof. repeat split. Qed.

Example formatted_price_samples :
  formatted_price "n/a" " yen" (JObj [("price", JStr "1980")]) = Completes (JStr "1,980 yen") /\
  formatted_price "n/a" " yen" (JObj [("price", JNum 1234567)])
  = Completes (JStr "1,234,567 yen") /\
  formatted_price "n/a" " yen" (JObj [("price", JNum (-1500))]) = Completes (JStr "-1,500 yen") /\
  formatted_price "n/a" " yen" (JObj [("price", JStr "550~")]) = Completes (JStr "550~") /\
  formatted_price "n/a" " yen" (JObj [("price", JNull)]) = Completes JNull /\
  formatted_price "n/a" " yen" (JObj [("title", JStr "bowl")]) = Throws (Builtin KeyError) /\
  formatted_price "n/a" " yen" (JStr "bowl") = Throws AttributeError.
Proof. repeat split. Qed.

Lemma group_thousands_short (digits : string) :
  (String.length digits <= 3)%nat -> group_thousands digits = digits.
Proof.
  destruct digits as [|a [|b [|c [|d r]]]]; cbn; intros H; try reflexivity. lia.
Qed.

Lemma group_thousands_append (high low : string) :
  high <> EmptyString -> String.length low = 3%nat ->
  group_thousands (high +:+ low) = group_thousands high +:+ "," +:+ low.
Proof.
  intros Hne Hlow. induction high as [|c high IH]; [contradiction|]. clear Hne.
  rewrite append_String. cbn [group_thousands]. rewrite string_length_append, Hlow.
  destruct high as [|c' high].
  - rewrite append_Empty. cbn [String.length Nat.add Nat.ltb Nat.leb Nat.modulo Nat.eqb andb].
    rewrite (group_thousands_short low) by lia.
    cbn. rewrite !append_String, append_Empty. reflexivity.
  - rewrite IH by discriminate.
    replace ((String.length (String c' high) + 3) mod 3)%nat
      with (String.length (String c' high) mod 3)%nat
      by (replace (String.length (String c' high) + 3)%nat
            with (String.length (String c' high) + 1 * 3)%nat by lia;
          rewrite Nat.Div0.mod_add; reflexivity).
    replace (0 <? String.length (String c' high) + 3)%nat with true
      by (symmetry; apply Nat.ltb_lt; lia).
    replace (0 <? String.length (String c' high))%nat with true
      by (symmetry; apply Nat.ltb_lt; cbn [String.length]; lia).
    cbn [andb].
    destruct (String.length (String c' high) mod 3 =? 0)%nat;
      rewrite !append_String; reflexivity.
Qed.

(** X12.  The commas of a price, [f"{price_value:,}"]: up to three
    digits are left as they are, and a longer number is its last three
    digits behind a comma and the grouping of the digits before
    them. *)
Theorem group_thousands_spec (digits : string) :
  ((String.length digits <= 3)%nat -> group_thousands digits = digits) /\
  (forall high low,
     digits = high +:+ low -> high <> EmptyString -> String.length low = 3%nat ->
     group_thousands digits = group_thousands high +:+ "," +:+ low).
Proof.
  split; [apply group_thousands_short|].
  intros high low -> Hne Hlow. apply group_thousands_append; assumption.
Qed.



Example demo_sidebar :
  @generate_history_html JsonText.codec demo_interpreter demo_labels demo_dir demo_fs
  = Completes
      (sidebar_open demo_labels
       +:+ link_line demo_labels "recommend_20251020.html" "2025/10/20"
       +:+ link_line demo_labels "recommend_20250906.html" "2025/09/06"
       +:+ link_line demo_labels "recommend_20251001.html" "2025/10/01"
       +:+ sidebar_close).
Proof. vm_compute. reflexivity. Qed.

(** ** Descriptions *)

Lemma lstrip_unicode_head s :
  match lstrip_unicode s with
  | EmptyString => True
  | String c _ => is_unicode_space c = false
  end.
Proof.
  induction s as [|c r IH]; cbn [lstrip_unicode]; [exact I|].
  destruct (is_unicode_space c) eqn:Ec; [exact IH|exact Ec].
Qed.

Lemma rstrip_unicode_head c r :
  is_unicode_space c = false -> exists r', rstrip_unicode (String c r) = String c r'.
Proof.
  intros Hc. cbn [rstrip_unicode]. destruct (rstrip_unicode r); rewrite ?Hc; eauto.
Qed.

Lemma rstrip_unicode_idem s : rstrip_unicode (rstrip_unicode s) = rstrip_unicode s.
Proof.
  induction s as [|c r IH]; [reflexivity|]. cbn [rstrip_unicode].
  destruct (rstrip_unicode r) as [|c' r'] eqn:Er.
  - destruct (is_unicode_space c) eqn:Ec; [reflexivity|]. cbn [rstrip_unicode]. rewrite Ec.
    reflexivity.
  - cbn [rstrip_unicode]. cbn [rstrip_unicode] in IH.
    destruct (rstrip_unicode r') as [|c'' r'']; rewrite IH; reflexivity.
Qed.

Lemma lstrip_unicode_solid c r :
  is_unicode_space c = false -> lstrip_unicode (String c r) = String c r.
Proof. intros Hc. cbn [lstrip_unicode]. rewrite Hc. reflexivity. Qed.

(** A stripped text has no blank at either end: stripping it again
    changes nothing. *)
Lemma py_strip_idem s : py_strip (py_strip s) = py_strip s.
Proof.
  unfold py_strip. pose proof (lstrip_unicode_head s) as Hhead.
  destruct (lstrip_unicode s) as [|c r]; [reflexivity|].
  destruct (rstrip_unicode_head c r Hhead) as [r' Hr]. rewrite Hr.
  rewrite lstrip_unicode_solid by exact Hhead. rewrite <- Hr. apply rstrip_unicode_idem.
Qed.

(** X14.  [generate_description] raises only where formatting the
    title into the prompt does.  Otherwise the providers asked are
    those whose guard holds, ChatGPT before Gemini, up to the first
    that answers; the description is the stripped text of that answer,
    with no blank left at either end, or the placeholder when none of
    them answers. *)
Theorem generate_description_fallback `{Py : Interpreter} (placeholder : string)
    (openai_client GOOGLE_API_KEY : bool) (ask : provider -> json -> option string)
    (title : json) :
  match generate_description placeholder openai_client GOOGLE_API_KEY ask title with
  | Returns (description, tried) =>
      tried = snd (first_answer (fun p => ask p title)
                     (configured openai_client GOOGLE_API_KEY)) /\
      match fst (first_answer (fun p => ask p title)
                   (configured openai_client GOOGLE_API_KEY)) with
      | Some text => description = py_strip text /\ py_strip description = description
      | None => description = placeholder
      end
  | Raises e => py_format title = Raises e
  | Starved => py_format title = Starved
  end.
Proof.
  unfold generate_description.
  destruct (py_format title) as [prompt| |]; cbn [mbind outcome_bind]; [|reflexivity..].
  destruct openai_client, GOOGLE_API_KEY; cbn [configured app first_answer];
    destruct (ask ChatGPT title) as [content|] eqn:E1;
    destruct (ask Gemini title) as [text|] eqn:E2;
    cbn [first_answer fst snd app]; rewrite ?E1, ?E2; cbn [fst snd];
    repeat split; apply py_strip_idem.
Qed.

(** ** The sidebar *)

Lemma history_link_page_record `{Py : Interpreter} (labels : sidebar_labels) (e : json) :
  page_record e -> history_link labels e = Completes (record_line labels e).
Proof.
  intros [[s Hs] Hf]. unfold record_line. rewrite Hs. cbn [default].
  unfold record_date in Hs. unfold record_filename in *.
  destruct e as [| | | | |kvs]; try discriminate Hs.
  cbn [py_getitem] in *. cbn [history_link py_getitem].
  destruct (dict_get "date" kvs) as [[| | |s'| |]|]; try discriminate Hs. injection Hs as ->.
  cbn [of_outcome mbind completion_bind py_get].
  destruct (dict_get "filename" kvs) as [[| | |f| |]|]; cbn [default py_format of_outcome
    mbind completion_bind]; try reflexivity.
  all: destruct Hf as [[f Hf]|Hf]; discriminate Hf.
Qed.

Lemma for_each_page_records `{Py : Interpreter} (labels : sidebar_labels) (l : list json) :
  Forall page_record l ->
  for_each (history_link labels) l = Completes (record_line labels <$> l).
Proof.
  induction 1 as [|e r He _ IH]; [reflexivity|].
  cbn [for_each]. rewrite (history_link_page_record labels e He), IH. reflexivity.
Qed.

(** Where the update loads a value, the sidebar loads the same. *)
Lemma load_history_or_empty_returns `{C : JsonCodec} (fs : filesystem)
    (path : string * string) (v : json) :
  load_history fs path = Returns v -> load_history_or_empty fs path = v.
Proof.
  unfold load_history, load_history_or_empty.
  destruct (fs !! path) as [text|]; [|intros [= <-]; reflexivity].
  destruct (json_loads text); [intros [= <-]; reflexivity|intros [= <-]; reflexivity
                              |discriminate].
Qed.

(** The sidebar of a history that is a list. *)
Lemma generate_history_html_list `{C : JsonCodec} `{Py : Interpreter} (labels : sidebar_labels)
    (dir : string) (fs : filesystem) (e : json) (log : list json) :
  load_history_or_empty fs (history_path dir) = JList (e :: log) ->
  generate_history_html labels dir fs =
  lines ← for_each (history_link labels) (take 30 (e :: log));
  history_html ←
    (if 30 <? Z.of_nat (length (e :: log))
     then text ← of_outcome (py_str_int (Z.of_nat (length (e :: log)) - 30));
          Completes ((sidebar_open labels +:+ join lines) +:+ more_line labels text)
     else Completes (sidebar_open labels +:+ join lines));
  Completes (history_html +:+ sidebar_close).
Proof.
  intros Hload. unfold generate_history_html, os_path_join. fold (history_path dir).
  rewrite Hload. reflexivity.
Qed.

Lemma page_record_today now items : page_record (today_entry now items).
Proof.
  split; [rewrite today_entry_dated; eauto|]. left. eexists. reflexivity.
Qed.

Lemma record_line_today labels now items :
  record_line labels (today_entry now items)
  = link_line labels (strftime now "recommend_%Y%m%d.html") (strftime now "%Y/%m/%d").
Proof. unfold record_line. rewrite today_entry_dated. reflexivity. Qed.

Lemma py_str_int_1 : py_str_int 1 = Returns "1".
Proof. reflexivity. Qed.

(** X15.  After [update_history] has run on a tidy log of page
    records, the sidebar is generated without an exception, in either
    copy of the function: it links to the page of the day first, under
    the name [update_history] has stored, then to the other records of
    the saved log, thirty links at most, with the line for one more
    record when the log holds thirty-one.  Each line starts with the
    blanks of the copy. *)
Theorem generate_history_html_after_update `{C : JsonCodec} `{Py : Interpreter}
    (labels : sidebar_labels) (dir : string) (now : datetime.t) (draws : list nat)
    (new_items : list json) (target_count : Z) (fs fs1 : filesystem)
    (items entries : list json) :
  codec_roundtrip C ->
  datetime.wf now = true ->
  history_entries fs (history_path dir) = Returns entries ->
  tidy now entries ->
  Forall page_record entries ->
  GenerateDataAI.update_history dir now draws new_items target_count fs = Returns (items, fs1) ->
  exists log,
    load_history fs1 (history_path dir) = Returns (JList log) /\
    log !! 0%nat = Some (today_entry now items) /\
    record_line labels (today_entry now items)
    = link_line labels (strftime now "recommend_%Y%m%d.html") (strftime now "%Y/%m/%d") /\
    generate_history_html labels dir fs1
    = Completes (sidebar_open labels +:+ join (record_line labels <$> take 30 log)
                 +:+ (if (30 <? length log)%nat then more_line labels "1" else EmptyString)
                 +:+ sidebar_close).
Proof.
  intros Hrt Hwf Hload Htidy Hpages Hrun.
  apply update_history_returns in Hrun as (entries' & Hload' & _ & _ & _ & Hw).
  rewrite Hload in Hload'. injection Hload' as <-.
  pose proof (load_history_written _ _ _ _ Hrt Hw) as Hsaved.
  destruct (saved_log_tidy now items entries Hwf Htidy) as (_ & H31 & _).
  exists (today_entry now items :: survivors now entries).
  split; [exact Hsaved|]. split; [reflexivity|].
  split; [apply record_line_today|].
  rewrite (generate_history_html_list labels dir _ (today_entry now items)
             (survivors now entries)) by (apply load_history_or_empty_returns, Hsaved).
  rewrite for_each_page_records.
  2:{ apply Forall_take. constructor; [apply page_record_today|].
      apply Forall_filter_keep, Hpages. }
  cbn [mbind completion_bind].
  destruct (Nat.ltb_spec 30 (length (today_entry now items :: survivors now entries)))
    as [Hlt|Hle].
  - assert (Hlen : length (today_entry now items :: survivors now entries) = 31%nat) by lia.
    rewrite Hlen. change (30 <? Z.of_nat 31) with true. cbv iota.
    change (Z.of_nat 31 - 30) with 1. rewrite py_str_int_1.
    cbn [of_outcome mbind completion_bind]. rewrite !append_assoc. reflexivity.
  - replace (30 <? Z.of_nat (length (today_entry now items :: survivors now entries)))
      with false by (symmetry; apply Z.ltb_ge; lia).
    cbn [mbind completion_bind]. rewrite !append_assoc, append_Empty. reflexivity.
Qed.

Lemma demo_log_page_records : Forall page_record demo_log.
Proof.
  repeat constructor; try (eexists; reflexivity); left; eexists; reflexivity.
Defined.

Lemma generate_history_html_after_update_witness :
  exists log,
    @load_history JsonText.codec demo_fs' (history_path demo_dir) = Returns (JList log) /\
    log !! 0%nat = Some (today_entry demo_now demo_picks) /\
    record_line demo_labels_page (today_entry demo_now demo_picks)
    = link_line demo_labels_page (strftime demo_now "recommend_%Y%m%d.html")
        (strftime demo_now "%Y/%m/%d") /\
    @generate_history_html JsonText.codec demo_interpreter demo_labels_page demo_dir demo_fs'
    = Completes (sidebar_open demo_labels_page
                 +:+ join (record_line demo_labels_page <$> take 30 log)
                 +:+ (if (30 <? length log)%nat then more_line demo_labels_page "1"
                      else EmptyString)
                 +:+ sidebar_close).
Proof.
  apply (@generate_history_html_after_update JsonText.codec demo_interpreter demo_labels_page
           demo_dir demo_now demo_draws demo_items 5 demo_fs demo_fs' demo_picks demo_log).
  - exact JsonText_roundtrip.
  - reflexivity.
  - vm_compute. reflexivity.
  - exact demo_log_tidy.
  - exact demo_log_page_records.
  - exact demo_run.
Defined.

Lemma for_each_throws {A B} (f : A -> completion B) (before : list A) (x : A)
    (after : list A) (ys : list B) (e : error) :
  for_each f before = Completes ys -> f x = Throws e ->
  for_each f (before ++ x :: after) = Throws e.
Proof.
  revert ys. induction before as [|b before IH]; intros ys; cbn [for_each app].
  - intros _ ->. reflexivity.
  - destruct (f b) as [y| |]; cbn [mbind completion_bind]; try discriminate.
    destruct (for_each f before) as [ys'| |] eqn:Eb; cbn [mbind completion_bind];
      try discriminate.
    intros _ Hx. rewrite (IH ys' eq_refl Hx). reflexivity.
Qed.

(** X16.  A record without a [date] among the first thirty stops the
    sidebar with [KeyError], whether it has a [filename] or not: the
    default of [entry.get("filename", ...)] is built from the date
    before [get] is called.  A [date] that is not a string stops it
    with [AttributeError]. *)
Theorem generate_history_html_undated `{C : JsonCodec} `{Py : Interpreter}
    (labels : sidebar_labels) (dir : string) (fs : filesystem)
    (before after : list json) (kvs : list (string * json)) :
  load_history_or_empty fs (history_path dir) = JList (before ++ JObj kvs :: after) ->
  (length before < 30)%nat ->
  Forall page_record before ->
  match dict_get "date" kvs with
  | None => generate_history_html labels dir fs = Throws (Builtin KeyError)
  | Some (JStr _) => True
  | Some _ => generate_history_html labels dir fs = Throws AttributeError
  end.
Proof.
  intros Hload Hlen Hpages.
  assert (Hgen : forall e, history_link labels (JObj kvs) = Throws e ->
                           generate_history_html labels dir fs = Throws e).
  { intros e He.
    destruct (before ++ JObj kvs :: after) as [|x log] eqn:El;
      [destruct before; discriminate|].
    rewrite (generate_history_html_list labels dir fs x log Hload), <- El.
    rewrite take_app_ge by lia.
    replace (take (30 - length before) (JObj kvs :: after))
      with (JObj kvs :: take (30 - S (length before)) after)
      by (destruct (30 - length before)%nat eqn:E; [lia|];
          replace (30 - S (length before))%nat with n by lia; reflexivity).
    rewrite (for_each_throws (history_link labels) before (JObj kvs) _ _ e
               (for_each_page_records labels before Hpages) He).
    reflexivity. }
  destruct (dict_get "date" kvs) as [[| | |s| |]|] eqn:Ed; try exact I; apply Hgen;
    cbn [history_link py_getitem]; rewrite Ed; reflexivity.
Qed.

Lemma generate_history_html_undated_witness :
  match dict_get "date" [("filename", JStr "recommend_20251020.html"); ("items", JList [])] with
  | None =>
      @generate_history_html JsonText.codec demo_interpreter demo_labels demo_dir
        {[ history_path demo_dir :=
             JsonText.dumps (JList ([demo_record "2025/10/21" "recommend_20251021.html"]
                                      ++ demo_undated :: [])) ]}
      = Throws (Builtin KeyError)
  | Some (JStr _) => True
  | Some _ =>
      @generate_history_html JsonText.codec demo_interpreter demo_labels demo_dir
        {[ history_path demo_dir :=
             JsonText.dumps (JList ([demo_record "2025/10/21" "recommend_20251021.html"]
                                      ++ demo_undated :: [])) ]}
      = Throws AttributeError
  end.
Proof.
  apply (@generate_history_html_undated JsonText.codec demo_interpreter demo_labels demo_dir
           _ [demo_record "2025/10/21" "recommend_20251021.html"] []
           [("filename", JStr "recommend_20251020.html"); ("items", JList [])]).
  - vm_compute. reflexivity.
  - cbn. lia.
  - repeat constructor; try (eexists; reflexivity); left; eexists; reflexivity.
Defined.

(** ** A page *)

Example demo_page :
  (fun r => match r with
            | Completes (fs, trieds) => Completes (fs !! (demo_dir, "index.html"), trieds)
            | Throws e => Throws e
            | Stalls => Stalls
            end)
    (@generate_daily_html demo_interpreter demo_template true true demo_ask
       (JList demo_pool) "Today" (demo_dir, "index.html") "<div/>" ∅)
  = Completes
      (Some ("<h1>Today</h1><div/><ul>"
             +:+ "<li>https://shop.test/leash|https://shop.test/leash/l.jpg|leash, red|2,200 yen|Pets love it.</li>"
             +:+ "<li>https://shop.test/bowl|https://shop.test/bowl/l.jpg|bowl|550~|A fine thing.</li>"
             +:+ "</ul>"),
       [[ChatGPT; Gemini]; [ChatGPT]]).
Proof. vm_compute. reflexivity. Qed.







(** ** The items of the day *)

(** Cells at distinct positions of a list without repeated URLs have
    distinct URLs. *)
Lemma chosen_from_distinct (pool items : list json) (positions : list nat) :
  NoDup (url_of <$> pool) ->
  chosen_from pool items positions ->
  NoDup (url_of <$> items).
Proof.
  intros Hpool [Hnd Hall]. apply NoDup_alt. intros i j u Hi Hj.
  apply list_lookup_fmap_Some in Hi as (x & -> & Hx), Hj as (y & Hu & Hy).
  destruct (Forall2_lookup_l _ _ _ _ _ Hall Hx) as (p & Hp & Hpx).
  destruct (Forall2_lookup_l _ _ _ _ _ Hall Hy) as (q & Hq & Hqy).
  assert (Hpq : p = q).
  { eapply (proj1 (NoDup_alt _) Hpool p q (url_of x)).
    - rewrite list_lookup_fmap, Hpx. reflexivity.
    - rewrite list_lookup_fmap, Hqy. cbn. rewrite Hu. reflexivity. }
  subst q. eapply (proj1 (NoDup_alt _) Hnd); eassumption.
Qed.

(** X18.  The items drawn for a day from the pool have pairwise
    different URLs; each of them is the item fetched last for its URL;
    and there are [min(target_count, len(pool))] of them. *)
Theorem todays_items_distinct (all_items unique today_recommendations : list json)
    (target_count : Z) (draws : list nat) :
  unique_items all_items = Returns unique ->
  GenerateDataAI.sample_display_items unique target_count draws = Returns today_recommendations ->
  NoDup (url_of <$> today_recommendations) /\
  NoDup today_recommendations /\
  length today_recommendations
  = Z.to_nat (Z.min target_count (Z.of_nat (length unique))) /\
  forall item,
    item ∈ today_recommendations ->
    exists before after,
      all_items = before ++ item :: after /\ url_of item ∉ url_of <$> after.
Proof.
  unfold unique_items.
  destruct (by_url all_items []) as [d| |] eqn:Erun; cbn [mbind outcome_bind]; try discriminate.
  intros [= <-]. change (List.map snd d) with (d.*2).
  destruct (by_url_spec all_items [] d filed_by_url_nil Erun) as (Hd & _ & Hiff).
  pose proof (sample_display_items_spec (d.*2) target_count draws) as Hs.
  intros Hrun. rewrite Hrun in Hs. destruct Hs as (Hlen & positions & Hchosen).
  pose proof (chosen_from_distinct _ _ _ (filed_by_url_NoDup d Hd) Hchosen) as Hnd.
  split; [exact Hnd|]. split; [eapply NoDup_fmap_1, Hnd|]. split; [exact Hlen|].
  intros item Hin.
  apply (chosen_from_members _ _ _ Hchosen) in Hin.
  apply Hiff in Hin as [H|[Hin _]]; [exact H|].
  rewrite fmap_nil in Hin. apply elem_of_nil in Hin as [].
Qed.

Lemma todays_items_distinct_witness :
  NoDup (url_of <$> rev demo_pool) /\
  NoDup (rev demo_pool) /\
  length (rev demo_pool) = Z.to_nat (Z.min 5 (Z.of_nat (length demo_pool))) /\
  forall item,
    item ∈ rev demo_pool ->
    exists before after,
      [pooled_item (JStr "leash") (JStr "https://shop.test/leash")
         (JStr "https://shop.test/leash/l.jpg") (JStr "1980");
       pooled_item (JStr "bowl") (JStr "https://shop.test/bowl")
         (JStr "https://shop.test/bowl/l.jpg") (JStr "550~");
       pooled_item (JStr "leash, red") (JStr "https://shop.test/leash")
         (JStr "https://shop.test/leash/l.jpg") (JStr "2200")]
      = before ++ item :: after /\ url_of item ∉ url_of <$> after.
Proof.
  apply (todays_items_distinct _ demo_pool (rev demo_pool) 5 demo_draws); reflexivity.
Defined.

(** ** Day after day *)

(** No datetime lies after 9999-12-31. *)
Lemma toordinal_max now :
  datetime.wf now = true -> datetime.toordinal now <= 3652059.
Proof.
  intros Hwf. apply wf_check_date in Hwf.
  pose proof (check_date_fields_bounds _ _ _ Hwf) as (Hy & Hm & Hd & _).
  unfold datetime.toordinal.
  destruct (Z.eq_dec (datetime.year now) 9999) as [Ey|Ey];
    [destruct (Z.eq_dec (datetime.month now) 12) as [Em|Em];
     [destruct (Z.eq_dec (datetime.day now) 31) as [Ed|Ed]|]|].
  - rewrite Ey, Em, Ed. vm_compute. discriminate.
  - pose proof (ymd2ord_lt _ _ _ 9999 12 31 Hwf eq_refl ltac:(lia)) as Hlt.
    change (datetime._ymd2ord 9999 12 31) with 3652059 in Hlt. lia.
  - pose proof (ymd2ord_lt _ _ _ 9999 12 31 Hwf eq_refl ltac:(lia)) as Hlt.
    change (datetime._ymd2ord 9999 12 31) with 3652059 in Hlt. lia.
  - pose proof (ymd2ord_lt _ _ _ 9999 12 31 Hwf eq_refl ltac:(lia)) as Hlt.
    change (datetime._ymd2ord 9999 12 31) with 3652059 in Hlt. lia.
Qed.

(** One run on a tidy log: it does not raise, and it leaves a tidy
    log of at most 31 records with the record of the day in front. *)
Lemma update_history_tidy_step `{C : JsonCodec} (dir : string) (before : datetime.t)
    (c : call) (fs : filesystem) (entries : list json) :
  codec_roundtrip C ->
  history_entries fs (history_path dir) = Returns entries ->
  tidy before entries ->
  datetime.wf (call_now c) = true ->
  30 < datetime.toordinal (call_now c) ->
  datetime.toordinal before <= datetime.toordinal (call_now c) ->
  match GenerateDataAI.update_history dir (call_now c) (call_draws c) (call_items c)
          (call_target c) fs with
  | Returns (items, fs1) =>
      exists log,
        load_history fs1 (history_path dir) = Returns (JList log) /\
        tidy (call_now c) log /\ (length log <= 31)%nat /\
        log !! 0%nat = Some (today_entry (call_now c) items)
  | Raises _ => False
  | Starved => True
  end.
Proof.
  intros Hrt Hload Htidy Hwf Hlow Hle.
  assert (Htidy' : tidy (call_now c) entries) by (eapply tidy_later; eassumption).
  pose proof (toordinal_max _ Hwf) as Hmax.
  pose proof (sample_display_items_spec (call_items c) (call_target c) (call_draws c)) as Hs.
  destruct (GenerateDataAI.sample_display_items (call_items c) (call_target c) (call_draws c))
    as [items| |] eqn:Es.
  - rewrite (update_history_well_formed dir (call_now c) (call_draws c) (call_items c)
               (call_target c) fs entries items Hload
               (canonical_date_well_formed _ (proj1 Htidy)) Es) by lia.
    destruct (write_json_roundtrip (history_path dir)
                (JList (today_entry (call_now c) items :: survivors (call_now c) entries))
                fs Hrt) as (text & Hw & Hl).
    rewrite Hw. cbn [mbind outcome_bind mret outcome_ret].
    destruct (saved_log_tidy (call_now c) items entries Hwf Htidy') as (Ht & H31 & _).
    exists (today_entry (call_now c) items :: survivors (call_now c) entries).
    split; [apply load_history_insert, Hl|]. split; [exact Ht|]. split; [exact H31|reflexivity].
  - destruct Hs.
  - unfold GenerateDataAI.update_history, os_path_join, GenerateDataAI.HISTORY_FILE_NAME.
    fold (history_path dir). unfold history_entries in Hload.
    destruct (load_history fs (history_path dir)) as [history| |];
      cbn [mbind outcome_bind] in Hload; try discriminate.
    cbn [mbind outcome_bind].
    rewrite sub_days_returns by lia. cbn [mbind outcome_bind].
    rewrite Hload. cbn [mbind outcome_bind].
    rewrite PruneFacts.prune_well_formed
      by (apply canonical_date_well_formed, (proj1 Htidy)).
    cbn [mbind outcome_bind]. rewrite Es. exact I.
Qed.

(** X19.  Successive runs of [update_history] from a tidy log, each
    on the day of the run before or later, never raise; when they
    return, the saved log is tidy, holds at most 31 records, and starts
    with the record of the last run. *)
Theorem daily_runs_keep_log_tidy `{C : JsonCodec} (dir : string) (calls : list call)
    (before : datetime.t) (items0 : list json) (fs : filesystem) (entries : list json) :
  codec_roundtrip C ->
  calls <> [] ->
  history_entries fs (history_path dir) = Returns entries ->
  tidy before entries ->
  clocks_in_order before calls ->
  match update_history_calls dir calls items0 fs with
  | Returns (items, fs') =>
      exists c log,
        last calls = Some c /\
        load_history fs' (history_path dir) = Returns (JList log) /\
        tidy (call_now c) log /\ (length log <= 31)%nat /\
        log !! 0%nat = Some (today_entry (call_now c) items)
  | Raises _ => False
  | Starved => True
  end.
Proof.
  intros Hrt Hne. revert before items0 fs entries.
  induction calls as [|c rest IH]; [contradiction|]. clear Hne.
  intros before items0 fs entries Hload Htidy (Hwf & Hlow & Hle & Hrest).
  cbn [update_history_calls].
  pose proof (update_history_tidy_step dir before c fs entries Hrt Hload Htidy Hwf Hlow Hle)
    as Hstep.
  destruct (GenerateDataAI.update_history dir (call_now c) (call_draws c) (call_items c)
              (call_target c) fs) as [[items fs1]| |]; cbn [mbind outcome_bind];
    [|exact Hstep|exact I].
  destruct Hstep as (log & Hlog & Ht & H31 & Hfirst).
  destruct rest as [|c' rest'].
  - cbn [update_history_calls]. exists c, log. auto.
  - specialize (IH ltac:(discriminate) (call_now c) items fs1 log).
    unfold history_entries in IH. rewrite Hlog in IH. specialize (IH eq_refl Ht Hrest).
    destruct (update_history_calls dir (c' :: rest') items fs1) as [[items' fs']| |];
      [|exact IH|exact I].
    destruct IH as (cl & log' & Hlast & Hrestlog). exists cl, log'.
    split; [exact Hlast|exact Hrestlog].
Qed.

Lemma daily_runs_keep_log_tidy_witness :
  match @update_history_calls JsonText.codec demo_dir demo_calls [] demo_fs with
  | Returns (items, fs') =>
      exists c log,
        last demo_calls = Some c /\
        @load_history JsonText.codec fs' (history_path demo_dir) = Returns (JList log) /\
        tidy (call_now c) log /\ (length log <= 31)%nat /\
        log !! 0%nat = Some (today_entry (call_now c) items)
  | Raises _ => False
  | Starved => True
  end.
Proof.
  apply (@daily_runs_keep_log_tidy JsonText.codec demo_dir demo_calls demo_now [] demo_fs
           demo_log).
  - exact JsonText_roundtrip.
  - discriminate.
  - vm_compute. reflexivity.
  - exact demo_log_tidy.
  - repeat split; vm_compute; congruence.
Defined.

(** ** One name for a page *)

Lemma remove_char_append c s r : remove_char c (s +:+ r) = remove_char c s +:+ remove_char c r.
Proof.
  induction s as [|a s IH]; [rewrite !append_Empty; reflexivity|].
  rewrite append_String. cbn [remove_char]. destruct (Ascii.eqb a c); rewrite IH; reflexivity.
Qed.

Lemma remove_char_digits c s :
  all_digits s = true -> is_digit c = false -> remove_char c s = s.
Proof.
  intros Hs Hc. induction s as [|a s IH]; [reflexivity|].
  cbn [all_digits] in Hs. apply andb_true_iff in Hs as [Ha Hs]. cbn [remove_char].
  destruct (Ascii.eqb_spec a c) as [->|_]; [congruence|]. rewrite IH by exact Hs. reflexivity.
Qed.

Lemma remove_slashes_date dt :
  remove_char "/" (strftime dt "%Y/%m/%d")
  = zero_pad 4 (datetime.year dt) +:+ zero_pad 2 (datetime.month dt)
    +:+ zero_pad 2 (datetime.day dt).
Proof.
  change (strftime dt "%Y/%m/%d")
    with (zero_pad 4 (datetime.year dt)
          +:+ String "/" (zero_pad 2 (datetime.month dt)
                          +:+ String "/" (zero_pad 2 (datetime.day dt) +:+ EmptyString))).
  rewrite append_Empty_r.
  rewrite remove_char_append. cbn [remove_char Ascii.eqb Bool.eqb].
  rewrite remove_char_append. cbn [remove_char Ascii.eqb Bool.eqb].
  rewrite !remove_char_digits by (apply zero_pad_all_digits || reflexivity).
  reflexivity.
Qed.

(** X20.  One name for the page of a day: for a record without a
    [filename] the sidebar links to [recommend_YYYYMMDD.html] made from
    the record's date, which is the name [update_history] stores for
    that day and a name the janitor's pattern matches and parses back
    to the same day. *)
Theorem default_link_names_the_page `{Py : Interpreter} (labels : sidebar_labels)
    (dt : datetime.t) (items : json) :
  datetime.check_date_fields (datetime.year dt) (datetime.month dt) (datetime.day dt) = true ->
  history_link labels (JObj [("date", JStr (strftime dt "%Y/%m/%d")); ("items", items)])
  = Completes (link_line labels (strftime dt "recommend_%Y%m%d.html")
                 (strftime dt "%Y/%m/%d")) /\
  strptime (strftime dt "%Y/%m/%d") "%Y/%m/%d" = Returns (datetime.date dt) /\
  exists date_str,
    date_pattern_match (strftime dt "recommend_%Y%m%d.html") = Some date_str /\
    strptime date_str "%Y%m%d" = Returns (datetime.date dt).
Proof.
  intros Hd. split; [|split].
  - cbn [history_link py_getitem py_get dict_get String.eqb Ascii.eqb Bool.eqb of_outcome
         mbind completion_bind py_format].
    rewrite remove_slashes_date. reflexivity.
  - apply strptime_strftime_slashes, Hd.
  - eexists. split; [apply date_pattern_match_strftime|]. apply strptime_compact, Hd.
Qed.

Lemma default_link_names_the_page_witness :
  @history_link demo_interpreter demo_labels
    (JObj [("date", JStr (strftime demo_now "%Y/%m/%d")); ("items", JList [])])
  = Completes (link_line demo_labels (strftime demo_now "recommend_%Y%m%d.html")
                 (strftime demo_now "%Y/%m/%d")) /\
  strptime (strftime demo_now "%Y/%m/%d") "%Y/%m/%d" = Returns (datetime.date demo_now) /\
  exists date_str,
    date_pattern_match (strftime demo_now "recommend_%Y%m%d.html") = Some date_str /\
    strptime date_str "%Y%m%d" = Returns (datetime.date demo_now).
Proof.
  apply (@default_link_names_the_page demo_interpreter demo_labels demo_now (JList [])).
  reflexivity.
Defined.

(** ** A small pool *)

Lemma omap_lookup_seq {A} (pool : list A) :
  omap (fun p => pool !! p) (seq 0 (length pool)) = pool.
Proof.
  induction pool as [|x pool IH] using rev_ind; [reflexivity|].
  rewrite length_app. cbn [length]. rewrite Nat.add_1_r, seq_S, omap_app. cbn [Nat.add].
  cbn [omap list_omap]. rewrite lookup_app_r, Nat.sub_diag by lia. cbn.
  f_equal. rewrite <- IH at 2. apply list_omap_ext.
  apply Forall2_same_length_lookup. split; [reflexivity|].
  intros i p q Hp Hq. rewrite Hp in Hq. injection Hq as <-.
  apply lookup_seq in Hp as [-> Hlt]. cbn. rewrite lookup_app_l by lia. reflexivity.
Qed.

Lemma omap_lookup_chosen {A} (pool items : list A) (positions : list nat) :
  Forall2 (fun x p => pool !! p = Some x) items positions ->
  omap (fun p => pool !! p) positions = items.
Proof.
  induction 1 as [|x p items positions Hx _ IH]; [reflexivity|].
  cbn [omap list_omap]. rewrite Hx. cbn. f_equal. exact IH.
Qed.

(** As many cells as the pool has, at distinct positions: all of the
    pool, in some order. *)
Lemma chosen_from_all {A} (pool items : list A) (positions : list nat) :
  chosen_from pool items positions -> length items = length pool -> items ≡ₚ pool.
Proof.
  intros [Hnd Hall] Hlen.
  assert (Hperm : positions ≡ₚ seq 0 (length pool)).
  { apply submseteq_length_Permutation.
    - apply NoDup_submseteq; [exact Hnd|]. intros p Hp.
      apply list_elem_of_lookup in Hp as [i Hi].
      destruct (Forall2_lookup_r _ _ _ _ _ Hall Hi) as (x & _ & Hx).
      apply lookup_lt_Some in Hx. apply elem_of_seq. lia.
    - rewrite length_seq, <- Hlen, (Forall2_length _ _ _ Hall). reflexivity. }
  rewrite <- (omap_lookup_chosen pool items positions Hall), Hperm, omap_lookup_seq.
  reflexivity.
Qed.

(** X21.  When the pool has no more items than the target count, the
    items [update_history] draws for the day are all the items of the
    pool, in some order. *)
Theorem small_pool_shown_whole (new_items display_items : list json) (target_count : Z)
    (draws : list nat) :
  Z.of_nat (length new_items) <= target_count ->
  GenerateDataAI.sample_display_items new_items target_count draws = Returns display_items ->
  display_items ≡ₚ new_items.
Proof.
  intros Hsmall Hrun.
  pose proof (sample_display_items_spec new_items target_count draws) as Hs.
  rewrite Hrun in Hs. destruct Hs as (Hlen & positions & Hchosen).
  apply (chosen_from_all _ _ _ Hchosen). rewrite Hlen. lia.
Qed.

Lemma small_pool_shown_whole_witness : demo_picks ≡ₚ demo_items.
Proof.
  apply (small_pool_shown_whole demo_items demo_picks 5 demo_draws).
  - vm_compute. discriminate.
  - reflexivity.
Defined.

